(** * cozy-stack: the HTTP frontend of the virtual filesystem

    A shallow embedding of [web/files/files.go] (the handlers and the request
    parsing helpers of package [files]) together with the pieces of the Go
    standard library they call, and the properties of the specification that
    are decided by them. *)

From Stdlib Require Import ZArith Lia Ascii String List Bool.
From stdpp Require Import base option gmap list strings.

Local Open Scope Z_scope.

(** ** Go values

    A Go [string] is a sequence of bytes: [string] over [ascii].  [int],
    [int64] and [uint64] are [Z] with the wrap-around written where the source
    can reach it. *)

Definition len (s : string) : Z := Z.of_nat (String.length s).

Definition byte_val (c : ascii) : Z := Z.of_N (N_of_ascii c).

Definition byte_of (z : Z) : ascii := ascii_of_N (Z.to_N (z mod 256)).

Definition wrap64 (z : Z) : Z := z mod 2 ^ 64.

Definition str_nonempty (s : string) : bool :=
  match s with EmptyString => false | String _ _ => true end.

(** ** Package [strings] *)

Module strings.

(** [strings.Index(s, substr)]: the index of the first instance of [substr]
    in [s], or -1. *)
Definition Index (s substr : string) : Z :=
  match String.index 0 substr s with
  | Some i => Z.of_nat i
  | None => -1
  end.

(** [s[:i]] panics when [i] is out of range; the panic is [None]. *)
Definition slice_to (s : string) (i : Z) : option string :=
  if (0 <=? i) && (i <=? len s)
  then Some (String.substring 0 (Z.to_nat i) s)
  else None.

End strings.

(** ** Package [strconv] *)

Module strconv.

Inductive NumError := ErrSyntax | ErrRange.

Definition maxUint64 : Z := 2 ^ 64 - 1.

(** [lower(c)] is [c | ('x' - 'X')]. *)
Definition lower (c : Z) : Z := Z.lor c 32.

(** The digit switch of the [ParseUint] loop: the value of a byte, or a
    syntax error for a byte that is neither a digit nor a letter. *)
Definition digit_val (c : Z) : option Z :=
  if (48 <=? c) && (c <=? 57) then Some (c - 48)
  else if (97 <=? lower c) && (lower c <=? 122) then Some (lower c - 97 + 10)
  else None.

(** The loop of [ParseUint(s, base, 64)] for [2 <= base <= 36], started with
    the accumulator [n]. *)
Fixpoint parseUint_loop (base : Z) (s : string) (n : Z) : Z * option NumError :=
  match s with
  | EmptyString => (n, None)
  | String c rest =>
      match digit_val (byte_val c) with
      | None => (0, Some ErrSyntax)
      | Some d =>
          if base <=? d then (0, Some ErrSyntax)
          else if maxUint64 / base + 1 <=? n then (maxUint64, Some ErrRange)
          else
            let n' := wrap64 (n * base) in
            let n1 := wrap64 (n' + d) in
            if (n1 <? n') || (maxUint64 <? n1) then (maxUint64, Some ErrRange)
            else parseUint_loop base rest n1
      end
  end.

Definition ParseUint (s : string) (base : Z) : Z * option NumError :=
  match s with
  | EmptyString => (0, Some ErrSyntax)
  | _ => parseUint_loop base s 0
  end.

(** [ParseInt(s, base, 64)]: the sign is picked off, the rest is converted
    unsigned and its range is checked. *)
Definition check_range (neg : bool) (r : Z * option NumError) : Z * option NumError :=
  match r with
  | (_, Some ErrSyntax) => (0, Some ErrSyntax)
  | (un, _) =>
      let cutoff := 2 ^ 63 in
      if negb neg && (cutoff <=? un) then (cutoff - 1, Some ErrRange)
      else if neg && (cutoff <? un) then (- cutoff, Some ErrRange)
      else (if neg then - un else un, None)
  end.

Definition ParseInt (s : string) (base : Z) : Z * option NumError :=
  match s with
  | EmptyString => (0, Some ErrSyntax)
  | String c0 tl =>
      let '(neg, s') :=
        if Ascii.eqb c0 "+" then (false, tl)
        else if Ascii.eqb c0 "-" then (true, tl)
        else (false, s) in
      check_range neg (ParseUint s' base)
  end.

End strconv.

(** ** Package [encoding/base64]: [StdEncoding] *)

Module base64.

Definition encodeStd : string :=
  "ABCDEFGHIJKLMNOPQRSTUVWXYZabcdefghijklmnopqrstuvwxyz0123456789+/".

Definition padChar : ascii := "=".

(** [enc.encode[v]]: the byte of the alphabet at index [v]. *)
Definition encode (v : Z) : ascii :=
  match String.get (Z.to_nat v) encodeStd with
  | Some c => c
  | None => padChar
  end.

(** [enc.decodeMap[c]]: the index of [c] in the alphabet, 0xFF for a byte
    that is not in it. *)
Fixpoint index_from (alphabet : string) (i : Z) (c : ascii) : Z :=
  match alphabet with
  | EmptyString => 255
  | String a rest => if Ascii.eqb a c then i else index_from rest (i + 1) c
  end.

Definition decodeMap (c : ascii) : Z := index_from encodeStd 0 c.

(** [Encode]: three source bytes give four bytes of the alphabet, the
    remainder is padded. *)
Fixpoint EncodeToString (src : list ascii) : string :=
  match src with
  | [] => EmptyString
  | [b0] =>
      let val := Z.shiftl (byte_val b0) 16 in
      String (encode (Z.land (Z.shiftr val 18) 63))
        (String (encode (Z.land (Z.shiftr val 12) 63))
           (String padChar (String padChar EmptyString)))
  | [b0; b1] =>
      let val := Z.lor (Z.shiftl (byte_val b0) 16) (Z.shiftl (byte_val b1) 8) in
      String (encode (Z.land (Z.shiftr val 18) 63))
        (String (encode (Z.land (Z.shiftr val 12) 63))
           (String (encode (Z.land (Z.shiftr val 6) 63))
              (String padChar EmptyString)))
  | b0 :: b1 :: b2 :: rest =>
      let val := Z.lor (Z.lor (Z.shiftl (byte_val b0) 16) (Z.shiftl (byte_val b1) 8))
                   (byte_val b2) in
      String (encode (Z.land (Z.shiftr val 18) 63))
        (String (encode (Z.land (Z.shiftr val 12) 63))
           (String (encode (Z.land (Z.shiftr val 6) 63))
              (String (encode (Z.land val 63)) (EncodeToString rest))))
  end.

Definition is_newline (c : ascii) : bool :=
  Ascii.eqb c "010" || Ascii.eqb c "013".

(** The decoder skips carriage returns and line feeds wherever they are. *)
Fixpoint strip_newlines (s : string) : list ascii :=
  match s with
  | EmptyString => []
  | String c rest =>
      if is_newline c then strip_newlines rest else c :: strip_newlines rest
  end.

(** The quantum loop of the decoder on the input without its newlines:
    groups of four bytes of the alphabet, the last one possibly ending in
    one or two padding bytes; [None] is a [CorruptInputError].  The encoding
    is not strict: the unused low bits of a padded group are not checked. *)
Fixpoint decode (src : list ascii) : option (list ascii) :=
  match src with
  | [] => Some []
  | c0 :: c1 :: c2 :: c3 :: rest =>
      let d0 := decodeMap c0 in
      let d1 := decodeMap c1 in
      let d2 := decodeMap c2 in
      let d3 := decodeMap c3 in
      if (d0 =? 255) || (d1 =? 255) then None
      else if Ascii.eqb c2 padChar then
        if Ascii.eqb c3 padChar then
          match rest with
          | [] =>
              let val := Z.lor (Z.shiftl d0 18) (Z.shiftl d1 12) in
              Some [byte_of (Z.shiftr val 16)]
          | _ => None
          end
        else None
      else if d2 =? 255 then None
      else if Ascii.eqb c3 padChar then
        match rest with
        | [] =>
            let val := Z.lor (Z.lor (Z.shiftl d0 18) (Z.shiftl d1 12)) (Z.shiftl d2 6) in
            Some [byte_of (Z.shiftr val 16); byte_of (Z.shiftr val 8)]
        | _ => None
        end
      else if d3 =? 255 then None
      else
        let val := Z.lor (Z.lor (Z.lor (Z.shiftl d0 18) (Z.shiftl d1 12)) (Z.shiftl d2 6)) d3 in
        match decode rest with
        | Some out =>
            Some (byte_of (Z.shiftr val 16) :: byte_of (Z.shiftr val 8)
                    :: byte_of val :: out)
        | None => None
        end
  | _ => None
  end.

Definition DecodeString (s : string) : option (list ascii) :=
  decode (strip_newlines s).

End base64.

(** ** Errors

    A Go [error] is one of: a plain message ([errors.New], [fmt.Errorf]), an
    error of package [os], a [*couchdb.Error], one of the sentinel errors of
    package [vfs], the sentinel [ErrDocTypeInvalid] of package [files], or a
    [*jsonapi.Error].  The sentinel errors of package [vfs] and the
    constructors of package [jsonapi] are declared outside the sources: they
    are taken by their names, the sentinels as distinct values that are no
    error of package [os], each constructor as keeping its arguments. *)

Inductive OsError := os_ErrExist | os_ErrNotExist | os_ErrPermission.

Inductive VfsError :=
| ErrConflict
| ErrParentDoesNotExist
| ErrForbiddenDocMove
| ErrIllegalFilename
| ErrIllegalTime
| ErrInvalidHash
| ErrContentLengthMismatch
| ErrFileInTrash
| ErrNonAbsolutePath
| ErrDirNotEmpty.

Inductive error :=
| ErrorString (msg : string)
| OsErr (e : OsError)
| CouchdbErr (status : Z) (name reason : string)
| VfsErr (e : VfsError)
| ErrDocTypeInvalid
| JsonapiErr (e : jsonapi_Error)
with jsonapi_Error :=
| Conflict (err : error)
| NotFound (err : error)
| BadRequest (err : error)
| InternalServerError (err : error)
| InvalidAttribute (name : string) (err : error)
| InvalidParameter (name : string) (err : error)
| PreconditionFailed (parameter : string) (err : error).

Module jsonapi.

(** The kind of a [*jsonapi.Error]: the constructor that built it. *)
Inductive Kind :=
| KConflict | KNotFound | KBadRequest | KInternalServerError
| KInvalidAttribute | KInvalidParameter | KPreconditionFailed.

Definition kind (e : jsonapi_Error) : Kind :=
  match e with
  | Conflict _ => KConflict
  | NotFound _ => KNotFound
  | BadRequest _ => KBadRequest
  | InternalServerError _ => KInternalServerError
  | InvalidAttribute _ _ => KInvalidAttribute
  | InvalidParameter _ _ => KInvalidParameter
  | PreconditionFailed _ _ => KPreconditionFailed
  end.

(** The request field a [*jsonapi.Error] names, when its constructor takes
    one. *)
Definition field (e : jsonapi_Error) : option string :=
  match e with
  | InvalidAttribute name _ => Some name
  | InvalidParameter name _ => Some name
  | PreconditionFailed parameter _ => Some parameter
  | _ => None
  end.

(** The error a [*jsonapi.Error] was built from. *)
Definition cause (e : jsonapi_Error) : error :=
  match e with
  | Conflict err | NotFound err | BadRequest err | InternalServerError err
  | InvalidAttribute _ err | InvalidParameter _ err
  | PreconditionFailed _ err => err
  end.

End jsonapi.

Module os.

Definition IsExist (err : error) : bool :=
  match err with OsErr os_ErrExist => true | _ => false end.

Definition IsNotExist (err : error) : bool :=
  match err with OsErr os_ErrNotExist => true | _ => false end.

End os.

Inductive result (A : Type) :=
| Ok (a : A)
| Err (e : error).
Arguments Ok {A} a.
Arguments Err {A} e.

(** ** Package [vfs]: the documents *)

Module vfs.

(** Modelled from the spec: the declaration of [vfs.FileDoc] is not among the
    sources (the handlers read [Name], [DirID], [Tags] and [Rev()] of it).
    The fields are the attributes of a file of section 3 of the
    specification; [Trashed] and [RestoreParent] are the trash state of
    section 4.5. *)
Record FileDoc := {
  DocID : string;
  DocRev : string;
  Name : string;
  DirID : string;
  Size : Z;
  MD5Sum : list ascii;
  Mime : string;
  Class : string;
  Executable : bool;
  CreatedAt : Z;
  UpdatedAt : Z;
  Tags : list string;
  Trashed : bool;
  RestoreParent : option string
}.

(** Modelled from the spec: the declaration of [vfs.DirDoc] is not among the
    sources.  The fields are the attributes of a directory of section 3 of
    the specification, with the trash state of section 4.5. *)
Record DirDoc := {
  DirDocID : string;
  DirDocRev : string;
  DirName : string;
  DirParent : string;
  Fullpath : string;
  DirCreatedAt : Z;
  DirUpdatedAt : Z;
  DirTags : list string;
  DirTrashed : bool;
  DirRestoreParent : option string
}.

Definition Rev (doc : FileDoc) : string := DocRev doc.

(** Modelled from the spec: the declaration of [vfs.File], the handle
    [vfs.CreateFile] returns, is not among the sources.  It holds the
    document being written, the document it replaces, the blob it writes to
    and the bytes written so far (sections 4.2 and 4.3). *)
Record File := {
  newdoc : FileDoc;
  olddoc : option FileDoc;
  blob : N;
  written : list ascii
}.

End vfs.

(** A [jsonapi.Object] is a file or a directory document. *)
Inductive Object :=
| FileObject (doc : vfs.FileDoc)
| DirObject (doc : vfs.DirDoc).

(** ** The request: what a handler reads of its [echo.Context]

    [Header.Get], [QueryParam] and [Param] return the empty string for a name
    that is absent.  A header is found under the name the source asks for
    (Go canonicalises the names on both sides). *)

Record EchoContext := {
  Header : gmap string string;
  Query : gmap string string;
  Params : gmap string string;
  Body : list ascii
}.

Definition Header_Get (c : EchoContext) (key : string) : string :=
  default EmptyString (Header c !! key).

Definition QueryParam (c : EchoContext) (key : string) : string :=
  default EmptyString (Query c !! key).

Definition Param (c : EchoContext) (key : string) : string :=
  default EmptyString (Params c !! key).

(** ** Package [strings]: [Split] on a separator of one byte *)

Fixpoint split_from (sep : ascii) (s : string) (cur : string) : list string :=
  match s with
  | EmptyString => [cur]
  | String c rest =>
      if Ascii.eqb c sep then cur :: split_from sep rest EmptyString
      else split_from sep rest (cur +:+ String c EmptyString)
  end.

Definition strings_Split (s : string) (sep : ascii) : list string :=
  split_from sep s EmptyString.

(** ** The calls into package [vfs]

    The handlers are programs over the operations of package [vfs] and the
    stream copy of package [io]: a handler is the tree of the calls it makes,
    each continued with the answer.  What an answer is stays with the
    implementation of the virtual filesystem; the order of the calls, and what
    is passed to them, is the handler's.

    A [*vfs.File] and the documents are passed by pointer in the source and
    updated in place by [CreateFile], [io.Copy], [Close] and [CreateDir]; here
    each call answers with the updated value, and the handler goes on with
    it. *)

Module op.

Inductive vfsE : Type -> Type :=
| GetFileDoc (fileID : string) : vfsE (result vfs.FileDoc)
| GetDirOrFileDoc (fileID : string) (withChildren : bool) :
    vfsE (result (vfs.DirDoc + vfs.FileDoc))
| NewFileDoc (name dirID : string) (size : Z) (md5Sum : list ascii)
    (mime class : string) (executable : bool) (tags : list string) :
    vfsE (result vfs.FileDoc)
| CreateFile (newdoc : vfs.FileDoc) (olddoc : option vfs.FileDoc) :
    vfsE (result vfs.File)
| io_Copy (file : vfs.File) (body : list ascii) : vfsE (vfs.File * option error)
| Close (file : vfs.File) : vfsE (vfs.FileDoc * option error)
| NewDirDoc (name dirID : string) (tags : list string) : vfsE (result vfs.DirDoc)
| CreateDir (doc : vfs.DirDoc) : vfsE (result vfs.DirDoc)
| Mkdir (path : string) (tags : list string) : vfsE (result vfs.DirDoc)
| MkdirAll (path : string) (tags : list string) : vfsE (result vfs.DirDoc)
| TrashDir (dir : vfs.DirDoc) : vfsE (result vfs.DirDoc)
| TrashFile (file : vfs.FileDoc) : vfsE (result vfs.FileDoc).

End op.

Abbreviation vfsE := op.vfsE.

Inductive prog (R : Type) : Type :=
| Ret (r : R)
| Do {X : Type} (e : vfsE X) (k : X -> prog R).
Arguments Ret {R} r.
Arguments Do {R X} e k.

Fixpoint bind {A B : Type} (p : prog A) (f : A -> prog B) : prog B :=
  match p with
  | Ret a => f a
  | Do e k => Do e (fun x => bind (k x) f)
  end.

Definition call {X : Type} (e : vfsE X) : prog X := Do e Ret.

Global Instance prog_ret : MRet prog := @Ret.
Global Instance prog_bind : MBind prog := fun A B f p => bind p f.

(** One call of a run: the operation and its arguments. *)
Inductive Call :=
| MkCall {X : Type} (e : vfsE X).

(** A run of a program against an implementation [h] of the calls on a state
    [W]: the result, the final state and the calls made, in order. *)
Fixpoint run {W R : Type} (h : forall X, vfsE X -> W -> X * W)
    (p : prog R) (w : W) : R * W * list Call :=
  match p with
  | Ret r => (r, w, [])
  | Do e k =>
      let '(x, w1) := h _ e w in
      let '(r, w2, calls) := run h (k x) w1 in
      (r, w2, MkCall e :: calls)
  end.

(** A call that opens a blob for writing, and a call that reads the content
    stream of the request. *)
Definition opens_blob (c : Call) : bool :=
  match c with MkCall (op.CreateFile _ _) => true | _ => false end.

Definition reads_body (c : Call) : bool :=
  match c with MkCall (op.io_Copy _ _) => true | _ => false end.

(** ** An earlier revision of [files.go]: [extractMimeAndClass]

    [None] is the panic of a slice expression out of range. *)

Definition DefaultContentType : string := "application/octet-stream".

Definition extractMimeAndClass (contentType : string) : option (string * string) :=
  let contentType :=
    if str_nonempty contentType then contentType else DefaultContentType in
  let charsetIndex := strings.Index contentType ";" in
  mime ← (if 0 <=? charsetIndex then strings.slice_to contentType charsetIndex
          else Some contentType);
  let slashIndex := strings.Index contentType "/" in
  class ← (if 0 <=? slashIndex then strings.slice_to contentType slashIndex
           else Some contentType);
  Some (mime, class).

(** ** [files.go] *)

Module files.

Import vfs.

(** [TagSeparator] is the character separating tags. *)
Definition TagSeparator : ascii := ",".

(** [vfs.ExtractMimeAndClass] is not among the sources; the earlier revision
    of this file has it as [extractMimeAndClass]. *)
Definition ExtractMimeAndClass (contentType : string) : string * string :=
  default (contentType, contentType) (extractMimeAndClass contentType).

(** What a handler leaves: the document rendered by [jsonapi.Data] with its
    status, or the error it returns. *)
Inductive Outcome :=
| Data (status : Z) (obj : Object)
| Failed (err : error).

Definition parseContentLength (contentLength : string) : Z * option error :=
  if negb (str_nonempty contentLength) then (-1, None)
  else
    match strconv.ParseInt contentLength 10 with
    | (size, Some _) => (size, Some (ErrorString "Invalid content length"))
    | (size, None) => (size, None)
    end.

Definition parseMD5Hash (md5B64 : string) : result (list ascii) :=
  if (len md5B64 <? 22) || (24 <? len md5B64)
  then Err (ErrorString "Given Content-MD5 is invalid")
  else
    match base64.DecodeString md5B64 with
    | Some md5Sum =>
        if negb (Z.of_nat (length md5Sum) =? 16)
        then Err (ErrorString "Given Content-MD5 is invalid")
        else Ok md5Sum
    | None => Err (ErrorString "Given Content-MD5 is invalid")
    end.

Definition checkIfMatch (c : EchoContext) (rev : string) : option error :=
  let ifMatch := Header_Get c "If-Match" in
  let revQuery := QueryParam c "rev" in
  let wantedRev := if str_nonempty ifMatch then ifMatch else EmptyString in
  let wantedRev :=
    if str_nonempty revQuery && negb (str_nonempty wantedRev)
    then revQuery else wantedRev in
  if str_nonempty wantedRev && negb (String.eqb rev wantedRev)
  then Some (JsonapiErr
               (PreconditionFailed "If-Match" (ErrorString "Revision does not match.")))
  else None.

(** [wrapVfsError] returns a formatted error from an error emitted by the
    vfs. *)
Definition wrapVfsError (err : error) : error :=
  match err with
  | JsonapiErr _ => err
  | CouchdbErr _ _ _ => err
  | _ =>
      if os.IsExist err || (match err with VfsErr ErrConflict => true | _ => false end)
      then JsonapiErr (Conflict err)
      else if os.IsNotExist err then JsonapiErr (NotFound err)
      else
        match err with
        | ErrDocTypeInvalid => JsonapiErr (InvalidAttribute "type" err)
        | VfsErr ErrParentDoesNotExist => JsonapiErr (NotFound err)
        | VfsErr ErrForbiddenDocMove => JsonapiErr (PreconditionFailed "dir-id" err)
        | VfsErr ErrIllegalFilename => JsonapiErr (InvalidParameter "name" err)
        | VfsErr ErrIllegalTime => JsonapiErr (InvalidParameter "UpdatedAt" err)
        | VfsErr ErrInvalidHash => JsonapiErr (PreconditionFailed "Content-MD5" err)
        | VfsErr ErrContentLengthMismatch =>
            JsonapiErr (PreconditionFailed "Content-Length" err)
        | VfsErr ErrFileInTrash => JsonapiErr (BadRequest err)
        | VfsErr ErrNonAbsolutePath => JsonapiErr (BadRequest err)
        | VfsErr ErrDirNotEmpty => JsonapiErr (BadRequest err)
        | _ => JsonapiErr (InternalServerError err)
        end
  end.

Definition fileDocFromReq (c : EchoContext) (name dirID : string)
    (tags : list string) : prog (result FileDoc) :=
  match parseContentLength (Header_Get c "Content-Length") with
  | (_, Some err) => mret (Err (JsonapiErr (InvalidParameter "Content-Length" err)))
  | (size, None) =>
      let md5Str := Header_Get c "Content-MD5" in
      match (if str_nonempty md5Str then parseMD5Hash md5Str else Ok []) with
      | Err err => mret (Err (JsonapiErr (InvalidParameter "Content-MD5" err)))
      | Ok md5Sum =>
          let executable := String.eqb (QueryParam c "Executable") "true" in
          let contentType := Header_Get c "Content-Type" in
          let '(mime, class) := ExtractMimeAndClass contentType in
          call (op.NewFileDoc name dirID size md5Sum mime class executable tags)
      end
  end.

(** The deferred [file.Close()] of the two uploading handlers: its error is
    the handler's only when the copy had none. *)
Definition close_error (err cerr : option error) : option error :=
  match err with
  | None => cerr
  | Some _ => err
  end.

Definition createFileHandler (c : EchoContext) : prog (result FileDoc) :=
  r ← fileDocFromReq c (QueryParam c "Name") (Param c "dir-id")
        (strings_Split (QueryParam c "Tags") TagSeparator);
  match r with
  | Err err => mret (Err err)
  | Ok doc =>
      r ← call (op.CreateFile doc None);
      match r with
      | Err err => mret (Err err)
      | Ok file =>
          '(file, err) ← call (op.io_Copy file (Body c));
          '(doc, cerr) ← call (op.Close file);
          match close_error err cerr with
          | Some err => mret (Err err)
          | None => mret (Ok doc)
          end
      end
  end.

Definition createDirHandler (c : EchoContext) : prog (result DirDoc) :=
  let tags := strings_Split (QueryParam c "Tags") TagSeparator in
  let path := QueryParam c "Path" in
  if str_nonempty path then
    if String.eqb (QueryParam c "Recursive") "true"
    then call (op.MkdirAll path tags)
    else call (op.Mkdir path tags)
  else
    let name := QueryParam c "Name" in
    let dirID := Param c "dir-id" in
    r ← call (op.NewDirDoc name dirID tags);
    match r with
    | Err err => mret (Err err)
    | Ok doc => call (op.CreateDir doc)
    end.

Section Handlers.

(** [vfs.FileType] and [vfs.DirType], the two values of the [Type] query
    parameter, are constants of package [vfs]. *)
Variables (FileType DirType : string).

(** [CreationHandler] handles the POST requests on /files/:dir-id. *)
Definition CreationHandler (c : EchoContext) : prog Outcome :=
  let type := QueryParam c "Type" in
  r ← (if String.eqb type FileType then
         r ← createFileHandler c;
         mret (match r with Ok doc => Ok (FileObject doc) | Err err => Err err end)
       else if String.eqb type DirType then
         r ← createDirHandler c;
         mret (match r with Ok doc => Ok (DirObject doc) | Err err => Err err end)
       else mret (Err ErrDocTypeInvalid));
  match r with
  | Err err => mret (Failed (wrapVfsError err))
  | Ok doc => mret (Data 201 doc)
  end.

End Handlers.

(** [OverwriteFileContentHandler] handles the PUT requests on
    /files/:file-id.  In its deferred function the result of [wrapVfsError]
    is dropped: an error of the copy or of the close is returned as it
    is. *)
Definition OverwriteFileContentHandler (c : EchoContext) : prog Outcome :=
  r ← call (op.GetFileDoc (Param c "file-id"));
  match r with
  | Err err => mret (Failed (wrapVfsError err))
  | Ok olddoc =>
      r ← fileDocFromReq c (Name olddoc) (DirID olddoc) (Tags olddoc);
      match r with
      | Err err => mret (Failed (wrapVfsError err))
      | Ok newdoc =>
          match checkIfMatch c (Rev olddoc) with
          | Some err => mret (Failed (wrapVfsError err))
          | None =>
              r ← call (op.CreateFile newdoc (Some olddoc));
              match r with
              | Err err => mret (Failed (wrapVfsError err))
              | Ok file =>
                  '(file, err) ← call (op.io_Copy file (Body c));
                  '(newdoc, cerr) ← call (op.Close file);
                  match close_error err cerr with
                  | Some err => mret (Failed err)
                  | None => mret (Data 200 (FileObject newdoc))
                  end
              end
          end
      end
  end.

(** [TrashHandler] handles the DELETE requests on /files/:file-id. *)
Definition TrashHandler (c : EchoContext) : prog Outcome :=
  let fileID := Param c "file-id" in
  r ← call (op.GetDirOrFileDoc fileID true);
  match r with
  | Err err => mret (Failed (wrapVfsError err))
  | Ok (inl dir) =>
      r ← call (op.TrashDir dir);
      match r with
      | Err err => mret (Failed (wrapVfsError err))
      | Ok data => mret (Data 200 (DirObject data))
      end
  | Ok (inr file) =>
      r ← call (op.TrashFile file);
      match r with
      | Err err => mret (Failed (wrapVfsError err))
      | Ok data => mret (Data 200 (FileObject data))
      end
  end.

End files.

(** ** The virtual filesystem

    Package [vfs] is not among the sources: its operations are modelled from
    sections 3, 4.2, 4.3 and 4.5 of the specification, on a state made of the
    two stores.  The digest function and the two creations by path ([Mkdir],
    [MkdirAll]) are parameters. *)

Module vfs_model.

Import vfs.

(** Modelled from the spec: the state the operations of package [vfs] work
    on, which is not among the sources: the document store (documents by
    identity), the blob store (contents by blob key), the binding of each
    file to its blob, and the clock. *)
Record World := {
  docs : gmap string Object;
  blobs : gmap N (list ascii);
  bound : gmap string N;
  now : Z
}.

(** Modelled from the spec: the constants [vfs.RootDirID] and
    [vfs.TrashDirID] are not among the sources; the root and the trash root
    are well-known identities (section 3). *)
Definition RootDirID : string := "io.cozy.files.root-dir".
Definition TrashDirID : string := "io.cozy.files.trash-dir".
Definition TrashDirName : string := "/.cozy_trash".

Definition obj_id (o : Object) : string :=
  match o with FileObject f => DocID f | DirObject d => DirDocID d end.
Definition obj_rev (o : Object) : string :=
  match o with FileObject f => DocRev f | DirObject d => DirDocRev d end.
Definition obj_name (o : Object) : string :=
  match o with FileObject f => Name f | DirObject d => DirName d end.
Definition obj_parent (o : Object) : string :=
  match o with FileObject f => DirID f | DirObject d => DirParent d end.
Definition obj_trashed (o : Object) : bool :=
  match o with FileObject f => Trashed f | DirObject d => DirTrashed d end.

(** Modelled from the spec: the validation of a name, which is not among
    the sources.  A name is a leaf: not empty, not ".", without a path
    separator (sections 3 and 4.1); a name that is not fails with
    [IllegalFilename]. *)
Fixpoint has_separator (s : string) : bool :=
  match s with
  | EmptyString => false
  | String c rest => Ascii.eqb c "/" || has_separator rest
  end.

Definition checkFileName (name : string) : option error :=
  if negb (str_nonempty name) || String.eqb name "." || has_separator name
  then Some (VfsErr ErrIllegalFilename)
  else None.

(** Modelled from the spec: tags are a set, deduplicated (section 3). *)
Definition uniqueTags (tags : list string) : list string := remove_dups tags.

(** Modelled from the spec: the sibling-name collision of section 4.2.  An
    active sibling is a document under [parent] named [name] that is not
    trashed. *)
Definition active_sibling (parent name : string) (o : Object) : bool :=
  String.eqb (obj_parent o) parent && String.eqb (obj_name o) name
  && negb (obj_trashed o).

Definition name_taken (w : World) (parent name : string) : bool :=
  bool_decide (map_Exists (fun _ o => active_sibling parent name o = true) (docs w)).

Definition parent_exists (w : World) (dirID : string) : option DirDoc :=
  match docs w !! dirID with
  | Some (DirObject d) => Some d
  | _ => None
  end.

(** Modelled from the spec: a freshly allocated document identity (section
    4.2), which is none of the store and none of the two roots, and a fresh
    blob key. *)
Definition fresh_id (w : World) : string :=
  fresh (dom (docs w) ∪ {[RootDirID; TrashDirID]}).

Definition fresh_blob (w : World) : N := fresh (dom (blobs w)).

(** Modelled from the spec: the revision token is opaque and changes on
    every persisted mutation (section 3). *)
Definition first_rev : string := "1".
Definition next_rev (rev : string) : string := rev +:+ "+".

Definition join_path (dir name : string) : string :=
  if String.eqb dir "/" then dir +:+ name else dir +:+ "/" +:+ name.

Definition set_docs (w : World) (d : gmap string Object) : World :=
  {| docs := d; blobs := blobs w; bound := bound w; now := now w |}.

Definition set_blobs (w : World) (b : gmap N (list ascii)) : World :=
  {| docs := docs w; blobs := b; bound := bound w; now := now w |}.

(** Modelled from the spec: [vfs.GetFileDoc] and [vfs.GetDirOrFileDoc], the
    lookups by identity of section 6, which fail with a not-found error. *)
Definition GetFileDoc (w : World) (fileID : string) : result FileDoc :=
  match docs w !! fileID with
  | Some (FileObject f) => Ok f
  | _ => Err (OsErr os_ErrNotExist)
  end.

Definition GetDirOrFileDoc (w : World) (fileID : string) : result (DirDoc + FileDoc) :=
  match docs w !! fileID with
  | Some (DirObject d) => Ok (inl d)
  | Some (FileObject f) => Ok (inr f)
  | None => Err (OsErr os_ErrNotExist)
  end.

(** Modelled from the spec: [vfs.NewFileDoc] and [vfs.NewDirDoc], the
    constructors of the documents: the name is validated, the attributes are
    the ones given, the tags as a set, the times the clock's. *)
Definition NewFileDoc (w : World) (name dirID : string) (size : Z)
    (md5Sum : list ascii) (mime class : string) (executable : bool)
    (tags : list string) : result FileDoc :=
  match checkFileName name with
  | Some err => Err err
  | None =>
      Ok {| DocID := EmptyString; DocRev := EmptyString;
            Name := name; DirID := dirID; Size := size; MD5Sum := md5Sum;
            Mime := mime; Class := class; Executable := executable;
            CreatedAt := now w; UpdatedAt := now w; Tags := uniqueTags tags;
            Trashed := false; RestoreParent := None |}
  end.

Definition NewDirDoc (w : World) (name dirID : string) (tags : list string) :
    result DirDoc :=
  match checkFileName name with
  | Some err => Err err
  | None =>
      Ok {| DirDocID := EmptyString; DirDocRev := EmptyString;
            DirName := name; DirParent := dirID; Fullpath := EmptyString;
            DirCreatedAt := now w; DirUpdatedAt := now w;
            DirTags := uniqueTags tags;
            DirTrashed := false; DirRestoreParent := None |}
  end.

Definition with_id (doc : FileDoc) (id : string) (created : Z) : FileDoc :=
  {| DocID := id; DocRev := DocRev doc; Name := Name doc; DirID := DirID doc;
     Size := Size doc; MD5Sum := MD5Sum doc; Mime := Mime doc;
     Class := Class doc; Executable := Executable doc;
     CreatedAt := created; UpdatedAt := UpdatedAt doc; Tags := Tags doc;
     Trashed := Trashed doc; RestoreParent := RestoreParent doc |}.

(** Modelled from the spec: [vfs.CreateFile].  For a creation (section 4.2)
    the name, the existence of the parent and the sibling names are checked,
    and a blob is opened under a fresh identity; for an overwrite (section
    4.3) a new blob is opened for the identity of the prior document. *)
Definition CreateFile (w : World) (newdoc : FileDoc) (olddoc : option FileDoc) :
    result File * World :=
  match olddoc with
  | Some old =>
      let key := fresh_blob w in
      (Ok {| vfs.newdoc := with_id newdoc (DocID old) (CreatedAt old);
             vfs.olddoc := Some old; blob := key; written := [] |},
       set_blobs w (<[key := []]> (blobs w)))
  | None =>
      match checkFileName (Name newdoc) with
      | Some err => (Err err, w)
      | None =>
          match parent_exists w (DirID newdoc) with
          | None => (Err (VfsErr ErrParentDoesNotExist), w)
          | Some _ =>
              if name_taken w (DirID newdoc) (Name newdoc)
              then (Err (VfsErr ErrConflict), w)
              else
                let key := fresh_blob w in
                (Ok {| vfs.newdoc := with_id newdoc (fresh_id w) (CreatedAt newdoc);
                       vfs.olddoc := None; blob := key; written := [] |},
                 set_blobs w (<[key := []]> (blobs w)))
          end
      end
  end.

(** Modelled from the spec: [io.Copy(file, body)] on a [*vfs.File]: the
    whole stream is appended to the blob (section 4.2). *)
Definition Copy (w : World) (file : File) (body : list ascii) :
    (File * option error) * World :=
  let content := written file ++ body in
  (({| vfs.newdoc := vfs.newdoc file; vfs.olddoc := vfs.olddoc file;
       blob := blob file; written := content |}, None),
   set_blobs w (<[blob file := content]> (blobs w))).

Definition discard (w : World) (file : File) : World :=
  set_blobs w (delete (blob file) (blobs w)).

Section Model.

Variable md5sum : list ascii -> list ascii.

Definition committed (file : File) (rev : string) : FileDoc :=
  let doc := vfs.newdoc file in
  {| DocID := DocID doc; DocRev := rev; Name := Name doc; DirID := DirID doc;
     Size := Z.of_nat (length (written file)); MD5Sum := md5sum (written file);
     Mime := Mime doc; Class := Class doc; Executable := Executable doc;
     CreatedAt := CreatedAt doc; UpdatedAt := UpdatedAt doc; Tags := Tags doc;
     Trashed := Trashed doc; RestoreParent := RestoreParent doc |}.

(** Modelled from the spec: the verification of section 4.2, of a written
    content against the declared length (-1: not declared), then against the
    declared digest (none: not declared). *)
Definition verify (doc : FileDoc) (content : list ascii) : option error :=
  if negb (Size doc =? -1) && negb (Size doc =? Z.of_nat (length content))
  then Some (VfsErr ErrContentLengthMismatch)
  else if negb (bool_decide (MD5Sum doc = []))
          && negb (bool_decide (MD5Sum doc = md5sum content))
  then Some (VfsErr ErrInvalidHash)
  else None.

(** Modelled from the spec: the [Close] of a [*vfs.File] (sections 4.2 and
    4.3).
    The length and the digest of what was written are verified; a mismatch
    discards the blob.  Then the document is persisted, and for an overwrite
    the store rejects a stale base revision and the old blob is removed
    last. *)
Definition Close (w : World) (file : File) : (FileDoc * option error) * World :=
  let doc := vfs.newdoc file in
  match verify doc (written file) with
  | Some err => ((doc, Some err), discard w file)
  | None =>
    match vfs.olddoc file with
    | None =>
        let doc' := committed file first_rev in
        ((doc', None),
         {| docs := <[DocID doc' := FileObject doc']> (docs w);
            blobs := blobs w;
            bound := <[DocID doc' := blob file]> (bound w);
            now := now w |})
    | Some old =>
        match docs w !! DocID old with
        | Some (FileObject cur) =>
            if String.eqb (DocRev cur) (DocRev old) then
              let doc' := committed file (next_rev (DocRev old)) in
              ((doc', None),
               {| docs := <[DocID doc' := FileObject doc']> (docs w);
                  blobs := match bound w !! DocID old with
                           | Some key => delete key (blobs w)
                           | None => blobs w
                           end;
                  bound := <[DocID doc' := blob file]> (bound w);
                  now := now w |})
            else ((doc, Some (VfsErr ErrConflict)), discard w file)
        | _ => ((doc, Some (OsErr os_ErrNotExist)), discard w file)
        end
    end
  end.

(** Modelled from the spec: [vfs.CreateDir] (section 4.2): after the same
    checks as for a file, the directory document is inserted directly. *)
Definition CreateDir (w : World) (doc : DirDoc) : result DirDoc * World :=
  match checkFileName (DirName doc) with
  | Some err => (Err err, w)
  | None =>
      match parent_exists w (DirParent doc) with
      | None => (Err (VfsErr ErrParentDoesNotExist), w)
      | Some parent =>
          if name_taken w (DirParent doc) (DirName doc)
          then (Err (VfsErr ErrConflict), w)
          else
            let doc' :=
              {| DirDocID := fresh_id w; DirDocRev := first_rev;
                 DirName := DirName doc; DirParent := DirParent doc;
                 Fullpath := join_path (Fullpath parent) (DirName doc);
                 DirCreatedAt := DirCreatedAt doc;
                 DirUpdatedAt := DirUpdatedAt doc; DirTags := DirTags doc;
                 DirTrashed := false; DirRestoreParent := None |} in
            (Ok doc', set_docs w (<[DirDocID doc' := DirObject doc']> (docs w)))
      end
  end.

(** Modelled from the spec: [vfs.TrashFile] and [vfs.TrashDir] (section
    4.5).  An active document is moved under the trash root, its parent kept
    as the restore parent; a trashed one fails with [FileInTrash].  The store
    rejects a stale revision.  The root and the trash root do not move. *)
Definition TrashFile (w : World) (file : FileDoc) : result FileDoc * World :=
  if Trashed file then (Err (VfsErr ErrFileInTrash), w)
  else
    match docs w !! DocID file with
    | Some (FileObject cur) =>
        if String.eqb (DocRev cur) (DocRev file) then
          let doc' :=
            {| DocID := DocID file; DocRev := next_rev (DocRev file);
               Name := Name file; DirID := TrashDirID; Size := Size file;
               MD5Sum := MD5Sum file; Mime := Mime file; Class := Class file;
               Executable := Executable file; CreatedAt := CreatedAt file;
               UpdatedAt := UpdatedAt file; Tags := Tags file;
               Trashed := true; RestoreParent := Some (DirID file) |} in
          (Ok doc', set_docs w (<[DocID file := FileObject doc']> (docs w)))
        else (Err (VfsErr ErrConflict), w)
    | _ => (Err (OsErr os_ErrNotExist), w)
    end.

Definition TrashDir (w : World) (dir : DirDoc) : result DirDoc * World :=
  if String.eqb (DirDocID dir) RootDirID || String.eqb (DirDocID dir) TrashDirID
  then (Err (VfsErr ErrForbiddenDocMove), w)
  else if DirTrashed dir then (Err (VfsErr ErrFileInTrash), w)
  else
    match docs w !! DirDocID dir with
    | Some (DirObject cur) =>
        if String.eqb (DirDocRev cur) (DirDocRev dir) then
          let doc' :=
            {| DirDocID := DirDocID dir; DirDocRev := next_rev (DirDocRev dir);
               DirName := DirName dir; DirParent := TrashDirID;
               Fullpath := join_path TrashDirName (DirName dir);
               DirCreatedAt := DirCreatedAt dir;
               DirUpdatedAt := DirUpdatedAt dir; DirTags := DirTags dir;
               DirTrashed := true; DirRestoreParent := Some (DirParent dir) |} in
          (Ok doc', set_docs w (<[DirDocID dir := DirObject doc']> (docs w)))
        else (Err (VfsErr ErrConflict), w)
    | _ => (Err (OsErr os_ErrNotExist), w)
    end.

Variables mkdir mkdirAll : World -> string -> list string -> result DirDoc * World.

(** The implementation of the calls on a [World]. *)
Definition impl (X : Type) (e : vfsE X) (w : World) : X * World :=
  match e in vfsE X return X * World with
  | op.GetFileDoc fileID => (GetFileDoc w fileID, w)
  | op.GetDirOrFileDoc fileID _ => (GetDirOrFileDoc w fileID, w)
  | op.NewFileDoc name dirID size md5Sum mime class executable tags =>
      (NewFileDoc w name dirID size md5Sum mime class executable tags, w)
  | op.CreateFile newdoc olddoc => CreateFile w newdoc olddoc
  | op.io_Copy file body => Copy w file body
  | op.Close file => Close w file
  | op.NewDirDoc name dirID tags => (NewDirDoc w name dirID tags, w)
  | op.CreateDir doc => CreateDir w doc
  | op.Mkdir path tags => mkdir w path tags
  | op.MkdirAll path tags => mkdirAll w path tags
  | op.TrashDir dir => TrashDir w dir
  | op.TrashFile file => TrashFile w file
  end.

End Model.

End vfs_model.

(** ** An earlier revision of [files.go]: [getVfsContext]

    The context of the virtual filesystem is built from the instance of the
    request: its storage provider and its database prefix. *)

Module instance.

(** Modelled from the spec: the instance (the tenant) of a request, whose
    declaration is not among the sources, by what its methods answer: its
    domain, its database prefix ("the active namespace prefix" of section 6)
    and its storage provider, or the error of getting it. *)
Record Instance := {
  Domain : string;
  DatabasePrefix : string;
  StorageProvider : result string
}.

Definition GetDatabasePrefix (i : Instance) : string := DatabasePrefix i.

Definition GetStorageProvider (i : Instance) : result string := StorageProvider i.

End instance.

(** Modelled from the spec: the [vfs.Context] of the earlier revision, whose
    declaration is not among the sources: "a tenant context carrying the
    active namespace prefix" (section 6), with the storage. *)
Record VfsContext := {
  ctx_fs : string;
  ctx_prefix : string
}.

Definition NewContext (fs dbprefix : string) : VfsContext :=
  {| ctx_fs := fs; ctx_prefix := dbprefix |}.

(** [getVfsContext], on the instance [middlewares.GetInstance(c)] answers.
    When the storage provider cannot be got the response is aborted with
    [jsonapi.InternalServerError(err)] and [err] is returned. *)
Definition getVfsContext (inst : instance.Instance) : result VfsContext :=
  let dbprefix := instance.GetDatabasePrefix inst in
  match instance.GetStorageProvider inst with
  | Err err => Err err
  | Ok fs => Ok (NewContext fs dbprefix)
  end.

(** ** The download store

    The store of the download links ([newMemStore], [AddFile], [GetFile],
    [AddArchive], [GetArchive]) is not among the sources, only its test
    is. *)

Module download_store.

(** Modelled from the spec: the type [Archive] of the store's test, which is
    not among the sources: a name and the paths of its files. *)
Record Archive := {
  ArchiveName : string;
  Files : list string
}.

(** Modelled from the spec: the store of the download links, which is not
    among the sources.  Every key is namespaced by the tenant identity
    (section 5): an entry, a file path or an archive, lives under the pair of
    the domain it was stored for and of the secret drawn for it, until it
    expires. *)
Inductive Entry :=
| FileEntry (path : string)
| ArchiveEntry (a : Archive).

Record Ref := {
  val : Entry;
  exp : Z
}.

Abbreviation Store := (gmap (string * string) Ref).

Definition newMemStore : Store := ∅.

Section Store.

Variable downloadStoreTTL : Z.

(** Modelled from the spec: [AddFile] and [AddArchive], which are not among
    the sources.  The entry is stored under the domain and the secret drawn
    for it ([secret], which the call returns as the key), to expire after
    [downloadStoreTTL]; the time is an argument. *)
Definition AddFile (store : Store) (now : Z) (domain path secret : string) :
    string * Store :=
  (secret,
   <[(domain, secret) := {| val := FileEntry path; exp := now + downloadStoreTTL |}]> store).

Definition AddArchive (store : Store) (now : Z) (domain : string) (a : Archive)
    (secret : string) : string * Store :=
  (secret,
   <[(domain, secret) := {| val := ArchiveEntry a; exp := now + downloadStoreTTL |}]> store).

End Store.

(** Modelled from the spec: [GetFile] and [GetArchive], which are not among
    the sources.  The zero value (the empty path, no archive) is the answer
    for a key that is absent under the domain, expired, or of the other
    sort. *)
Definition GetFile (store : Store) (now : Z) (domain key : string) : string :=
  match store !! (domain, key) with
  | Some {| val := FileEntry path; exp := e |} =>
      if e <? now then EmptyString else path
  | _ => EmptyString
  end.

Definition GetArchive (store : Store) (now : Z) (domain key : string) : option Archive :=
  match store !! (domain, key) with
  | Some {| val := ArchiveEntry a; exp := e |} =>
      if e <? now then None else Some a
  | _ => None
  end.

End download_store.

(** ** The words of the specification, as definitions to compare with *)

(** "The substring before the first [c] (or the whole string if none)". *)
Fixpoint before_first (c : ascii) (s : string) : string :=
  match s with
  | EmptyString => EmptyString
  | String a rest =>
      if Ascii.eqb a c then EmptyString else String a (before_first c rest)
  end.

Fixpoint occurs (c : ascii) (s : string) : bool :=
  match s with
  | EmptyString => false
  | String a rest => Ascii.eqb a c || occurs c rest
  end.

(** "A valid decimal integer" of 64 bits: an optional sign, then one or more
    decimal digits, of a value from -2^63 to 2^63 - 1. *)
Definition digit_of (c : ascii) : option Z :=
  if (48 <=? byte_val c) && (byte_val c <=? 57) then Some (byte_val c - 48) else None.

Fixpoint digits_value (s : string) (acc : Z) : option Z :=
  match s with
  | EmptyString => Some acc
  | String c rest =>
      match digit_of c with
      | Some d => digits_value rest (acc * 10 + d)
      | None => None
      end
  end.

Definition signed_value (neg : bool) (digits : string) : option Z :=
  if negb (str_nonempty digits) then None
  else
    match digits_value digits 0 with
    | Some v =>
        let v := if neg then - v else v in
        if (- 2 ^ 63 <=? v) && (v <=? 2 ^ 63 - 1) then Some v else None
    | None => None
    end.

Definition decimal_int64 (s : string) : option Z :=
  match s with
  | EmptyString => None
  | String c tl =>
      if Ascii.eqb c "+" then signed_value false tl
      else if Ascii.eqb c "-" then signed_value true tl
      else signed_value false s
  end.

(** The expected revision of a request: the [If-Match] header when it is
    there, the [rev] query parameter otherwise. *)
Definition expected_revision (c : EchoContext) : string :=
  if str_nonempty (Header_Get c "If-Match") then Header_Get c "If-Match"
  else QueryParam c "rev".

(** The result and the final state of a run. *)
Definition exec {W R : Type} (h : forall X, vfsE X -> W -> X * W)
    (p : prog R) (w : W) : R * W :=
  (run h p w).1.

(** Modelled from the spec: the states of the tenants, which package [vfs]
    keeps apart by the database prefix of the context (section 5: every
    document and blob key is namespaced by tenant identity).  A handler run
    under a context works on the state under the prefix of that context; a
    prefix that was never used has the state with nothing but the two
    roots. *)
Definition initial_world : vfs_model.World :=
  {| vfs_model.docs :=
       <[vfs_model.RootDirID :=
           DirObject
             {| vfs.DirDocID := vfs_model.RootDirID;
                vfs.DirDocRev := vfs_model.first_rev;
                vfs.DirName := EmptyString; vfs.DirParent := EmptyString;
                vfs.Fullpath := "/"; vfs.DirCreatedAt := 0; vfs.DirUpdatedAt := 0;
                vfs.DirTags := []; vfs.DirTrashed := false;
                vfs.DirRestoreParent := None |}]>
         (<[vfs_model.TrashDirID :=
              DirObject
                {| vfs.DirDocID := vfs_model.TrashDirID;
                   vfs.DirDocRev := vfs_model.first_rev;
                   vfs.DirName := ".cozy_trash";
                   vfs.DirParent := vfs_model.RootDirID;
                   vfs.Fullpath := vfs_model.TrashDirName; vfs.DirCreatedAt := 0;
                   vfs.DirUpdatedAt := 0; vfs.DirTags := [];
                   vfs.DirTrashed := false; vfs.DirRestoreParent := None |}]> ∅);
     vfs_model.blobs := ∅; vfs_model.bound := ∅; vfs_model.now := 0 |}.

Definition serve {R : Type}
    (h : forall X, vfsE X -> vfs_model.World -> X * vfs_model.World)
    (tenants : gmap string vfs_model.World) (ctx : VfsContext) (p : prog R) :
    R * gmap string vfs_model.World :=
  let '(r, w) := exec h p (default initial_world (tenants !! ctx_prefix ctx)) in
  (r, <[ctx_prefix ctx := w]> tenants).

(** The content-derived attributes a request declares: the length of its
    [Content-Length] header, the digest of its [Content-MD5] header (none
    when the header is absent), the mime type and the class of its
    [Content-Type] header. *)
Definition declared (c : EchoContext) (size : Z) (md5Sum : list ascii)
    (mime class : string) : Prop :=
  size = fst (files.parseContentLength (Header_Get c "Content-Length"))
  /\ (md5Sum = [] /\ Header_Get c "Content-MD5" = EmptyString
      \/ files.parseMD5Hash (Header_Get c "Content-MD5") = Ok md5Sum)
  /\ (mime, class) = files.ExtractMimeAndClass (Header_Get c "Content-Type").

(** What the calls of an overwrite are given: the constructor of the new
    document gets the name, the parent and the tags of the prior document,
    with the attributes that the request declares; the blob is opened for a
    document that the constructor answered to such a call, to replace the
    prior one. *)
Definition carried_over {W : Type} (h : forall X, vfsE X -> W -> X * W)
    (c : EchoContext) (olddoc : vfs.FileDoc) (k : Call) : Prop :=
  match k with
  | MkCall (op.NewFileDoc name dirID size md5Sum mime class executable tags) =>
      name = vfs.Name olddoc /\ dirID = vfs.DirID olddoc /\ tags = vfs.Tags olddoc
      /\ declared c size md5Sum mime class
  | MkCall (op.CreateFile newdoc old) =>
      old = Some olddoc
      /\ exists size md5Sum mime class executable w1 w2,
           declared c size md5Sum mime class
           /\ h _ (op.NewFileDoc (vfs.Name olddoc) (vfs.DirID olddoc) size md5Sum
                   mime class executable (vfs.Tags olddoc)) w1
              = (Ok newdoc, w2)
  | _ => True
  end.

(** ** A sample world and sample requests *)

Module example.

Import vfs vfs_model.

Definition root : DirDoc :=
  {| DirDocID := RootDirID; DirDocRev := "1-root"; DirName := EmptyString;
     DirParent := EmptyString; Fullpath := "/"; DirCreatedAt := 0;
     DirUpdatedAt := 0; DirTags := []; DirTrashed := false;
     DirRestoreParent := None |}.

Definition trash : DirDoc :=
  {| DirDocID := TrashDirID; DirDocRev := "1-trash"; DirName := ".cozy_trash";
     DirParent := RootDirID; Fullpath := TrashDirName; DirCreatedAt := 0;
     DirUpdatedAt := 0; DirTags := []; DirTrashed := false;
     DirRestoreParent := None |}.

Definition notes : FileDoc :=
  {| DocID := "file-1"; DocRev := "1-abc"; Name := "notes.txt";
     DirID := RootDirID; Size := 5; MD5Sum := []; Mime := "text/plain";
     Class := "text"; Executable := false; CreatedAt := 1; UpdatedAt := 1;
     Tags := ["work"; "draft"]; Trashed := false; RestoreParent := None |}.

Definition world : World :=
  {| docs := <[RootDirID := DirObject root]>
               (<[TrashDirID := DirObject trash]>
                  (<["file-1" := FileObject notes]> ∅));
     blobs := <[7%N := list_ascii_of_string "notes"]> ∅;
     bound := <["file-1" := 7%N]> ∅;
     now := 2 |}.

(** A stand-in for the digest function, and for the creations by path. *)
Definition digest (content : list ascii) : list ascii := repeat "000"%char 16.

Definition no_mkdir (w : World) (path : string) (tags : list string) :
    result DirDoc * World :=
  (Err (OsErr os_ErrNotExist), w).

Definition h : forall X, vfsE X -> World -> X * World := impl digest no_mkdir no_mkdir.

(** PUT /files/file-1 with a stale [If-Match]. *)
Definition put_stale : EchoContext :=
  {| Header := {[ "If-Match" := "0-old"; "Content-Length" := "2" ]};
     Query := ∅;
     Params := {[ "file-id" := "file-1" ]};
     Body := list_ascii_of_string "hi" |}.

(** PUT /files/file-1?rev=0-old with the current revision in [If-Match]. *)
Definition put_current : EchoContext :=
  {| Header := {[ "If-Match" := "1-abc"; "Content-Length" := "2" ]};
     Query := {[ "rev" := "0-old" ]};
     Params := {[ "file-id" := "file-1" ]};
     Body := list_ascii_of_string "hi" |}.

(** PUT /files/file-1 without an expected revision. *)
Definition put_plain : EchoContext :=
  {| Header := {[ "Content-Length" := "2"; "Content-Type" := "text/markdown" ]};
     Query := ∅;
     Params := {[ "file-id" := "file-1" ]};
     Body := list_ascii_of_string "hi" |}.

(** POST /files/io.cozy.files.root-dir?Type=file&Name=report.txt *)
Definition post_file : EchoContext :=
  {| Header := {[ "Content-Length" := "11"; "Content-Type" := "text/plain" ]};
     Query := {[ "Type" := "file"; "Name" := "report.txt"; "Tags" := "a,b" ]};
     Params := {[ "dir-id" := RootDirID ]};
     Body := list_ascii_of_string "hello world" |}.

(** POST /files/io.cozy.files.root-dir?Type=directory&Name=a *)
Definition post_dir : EchoContext :=
  {| Header := ∅;
     Query := {[ "Type" := "directory"; "Name" := "a" ]};
     Params := {[ "dir-id" := RootDirID ]};
     Body := [] |}.

(** DELETE /files/:file-id for the identity the creation allocates. *)
Definition delete_created : EchoContext :=
  {| Header := ∅; Query := ∅;
     Params := {[ "file-id" := fresh_id world ]};
     Body := [] |}.

End example.

(** ** Package [strings]: [Join] *)

Fixpoint strings_Join (elems : list string) (sep : string) : string :=
  match elems with
  | [] => EmptyString
  | [e] => e
  | e :: rest => e +:+ sep +:+ strings_Join rest sep
  end.

(** ** The calls of a run, by what they do *)

(** A call that closes a [*vfs.File]. *)
Definition closes (c : Call) : bool :=
  match c with MkCall (op.Close _) => true | _ => false end.

(** The tags a call hands to package [vfs], for the calls that take tags. *)
Definition call_tags (c : Call) : option (list string) :=
  match c with
  | MkCall (op.NewFileDoc _ _ _ _ _ _ _ tags) => Some tags
  | MkCall (op.NewDirDoc _ _ tags) => Some tags
  | MkCall (op.Mkdir _ tags) => Some tags
  | MkCall (op.MkdirAll _ tags) => Some tags
  | _ => None
  end.

(** An error that [wrapVfsError] passes on as it is: a [*jsonapi.Error] or a
    [*couchdb.Error]. *)
Definition is_formatted (err : error) : bool :=
  match err with
  | JsonapiErr _ => true
  | CouchdbErr _ _ _ => true
  | _ => false
  end.


(** ** Programs over the calls of any package

    The handlers below call more than the operations above: the same tree of
    calls, over any family [E] of calls. *)

Inductive io (E : Type -> Type) (R : Type) : Type :=
| Pure (r : R)
| Perform {X : Type} (e : E X) (k : X -> io E R).
Arguments Pure {E R} r.
Arguments Perform {E R X} e k.

Fixpoint io_bind {E : Type -> Type} {A B : Type} (p : io E A) (f : A -> io E B) :
    io E B :=
  match p with
  | Pure a => f a
  | Perform e k => Perform e (fun x => io_bind (k x) f)
  end.

Definition perform {E : Type -> Type} {X : Type} (e : E X) : io E X :=
  Perform e Pure.

Global Instance io_ret {E : Type -> Type} : MRet (io E) := fun A => @Pure E A.
Global Instance io_mbind {E : Type -> Type} : MBind (io E) :=
  fun A B f p => io_bind p f.

Inductive Event (E : Type -> Type) : Type :=
| Ev {X : Type} (e : E X).
Arguments Ev {E X} e.

(** A run against an implementation [h] of the calls on a state [W]: the
    result, the final state and the calls made, in order. *)
Fixpoint io_run {E : Type -> Type} {W R : Type} (h : forall X, E X -> W -> X * W)
    (p : io E R) (w : W) : R * W * list (Event E) :=
  match p with
  | Pure r => (r, w, [])
  | Perform e k =>
      let '(x, w1) := h _ e w in
      let '(r, w2, events) := io_run h (k x) w1 in
      (r, w2, Ev e :: events)
  end.

(** ** [files.go]: the handlers that read, and the one that patches

    [vfs.DocPatch] and the types of package [jsonapi] are declared outside
    the sources: the handlers are given for any such types, with the two
    methods of package [jsonapi] that [ModificationHandler] calls, the
    assignment to the [DirID] field of a patch, and the method [Included] of
    a directory document. *)

Module files_io.

Import vfs.

Section Calls.

Variables (DocPatch ObjectMarshalling : Type).

Inductive filesE : Type -> Type :=
| Bind (body : list ascii) : filesE (result (ObjectMarshalling * DocPatch))
| GetFileDoc (fileID : string) : filesE (result FileDoc)
| GetFileDocFromPath (path : string) : filesE (result FileDoc)
| GetDirDoc (fileID : string) (withChildren : bool) : filesE (result DirDoc)
| GetDirOrFileDoc (fileID : string) (withChildren : bool) :
    filesE (result (DirDoc + FileDoc))
| GetDirOrFileDocFromPath (path : string) (withChildren : bool) :
    filesE (result (DirDoc + FileDoc))
| ModifyFileMetadata (olddoc : FileDoc) (patch : DocPatch) : filesE (result FileDoc)
| ModifyDirMetadata (olddoc : DirDoc) (patch : DocPatch) : filesE (result DirDoc)
| ServeFileContent (doc : FileDoc) (disposition : string) : filesE (option error).

End Calls.

Arguments Bind {DocPatch ObjectMarshalling} body.
Arguments GetFileDoc {DocPatch ObjectMarshalling} fileID.
Arguments GetFileDocFromPath {DocPatch ObjectMarshalling} path.
Arguments GetDirDoc {DocPatch ObjectMarshalling} fileID withChildren.
Arguments GetDirOrFileDoc {DocPatch ObjectMarshalling} fileID withChildren.
Arguments GetDirOrFileDocFromPath {DocPatch ObjectMarshalling} path withChildren.
Arguments ModifyFileMetadata {DocPatch ObjectMarshalling} olddoc patch.
Arguments ModifyDirMetadata {DocPatch ObjectMarshalling} olddoc patch.
Arguments ServeFileContent {DocPatch ObjectMarshalling} doc disposition.

(** What a handler leaves: the document or the documents rendered by
    [jsonapi.Data] and [jsonapi.DataList] with their status, nothing more
    than what [vfs.ServeFileContent] wrote, the error it returns, or the
    error of [jsonapi.BadJSON]. *)
Inductive Reply :=
| ReplyData (status : Z) (obj : Object)
| ReplyDataList (status : Z) (objs : list Object)
| ReplyServed
| ReplyError (err : error)
| ReplyBadJSON.

Section Handlers.

Context {DocPatch ObjectMarshalling Relationship : Type}.

(** [obj.GetRelationship(name)] and [rel.ResourceIdentifier()], with the
    [ID] of the identifier; [None] is their [ok] being false. *)
Variable GetRelationship : ObjectMarshalling -> string -> option Relationship.
Variable ResourceIdentifier : Relationship -> option string.

(** [patch.DirID = &id]. *)
Variable setDirID : DocPatch -> string -> DocPatch.

(** [dir.Included()]. *)
Variable Included : DirDoc -> list Object.

(** [vfs.TrashDirID]. *)
Variable TrashDirID : string.

Local Abbreviation E := (filesE DocPatch ObjectMarshalling).

(** The revision of the document [GetDirOrFileDoc] found. *)
Definition doc_rev (doc : DirDoc + FileDoc) : string :=
  match doc with
  | inl dir => DirDocRev dir
  | inr file => Rev file
  end.

(** The patch once the relationship "parent" of the request is read:
    [None] is [jsonapi.BadJSON()]. *)
Definition patch_parent (obj : ObjectMarshalling) (patch : DocPatch) : option DocPatch :=
  match GetRelationship obj "parent" with
  | Some rel =>
      match ResourceIdentifier rel with
      | Some id => Some (setDirID patch id)
      | None => None
      end
  | None => Some patch
  end.

(** The lookup of the document to patch: by path for /files/metadata, by
    identifier otherwise. *)
Definition patch_lookup (c : EchoContext) : E (result (DirDoc + FileDoc)) :=
  if String.eqb (Param c "file-id") "metadata"
  then GetDirOrFileDocFromPath (QueryParam c "Path") false
  else GetDirOrFileDoc (Param c "file-id") false.

(** The call that patches the document found. *)
Definition patch_call (doc : DirDoc + FileDoc) (patch : DocPatch) : Event E :=
  match doc with
  | inl dirDoc => Ev (ModifyDirMetadata dirDoc patch)
  | inr fileDoc => Ev (ModifyFileMetadata fileDoc patch)
  end.

(** [ModificationHandler] handles the PATCH requests on /files/:file-id and
    /files/metadata. *)
Definition ModificationHandler (c : EchoContext) : io E Reply :=
  r ← perform (Bind (Body c));
  match r with
  | Err _ => mret ReplyBadJSON
  | Ok (obj, patch) =>
      match patch_parent obj patch with
      | None => mret ReplyBadJSON
      | Some patch =>
          let fileID := Param c "file-id" in
          r ← (if String.eqb fileID "metadata"
               then perform (GetDirOrFileDocFromPath (QueryParam c "Path") false)
               else perform (GetDirOrFileDoc fileID false));
          match r with
          | Err err => mret (ReplyError (files.wrapVfsError err))
          | Ok doc =>
              match files.checkIfMatch c (doc_rev doc) with
              | Some err => mret (ReplyError (files.wrapVfsError err))
              | None =>
                  match doc with
                  | inr fileDoc =>
                      r ← perform (ModifyFileMetadata fileDoc patch);
                      match r with
                      | Err err => mret (ReplyError (files.wrapVfsError err))
                      | Ok data => mret (ReplyData 200 (FileObject data))
                      end
                  | inl dirDoc =>
                      r ← perform (ModifyDirMetadata dirDoc patch);
                      match r with
                      | Err err => mret (ReplyError (files.wrapVfsError err))
                      | Ok data => mret (ReplyData 200 (DirObject data))
                      end
                  end
              end
          end
      end
  end.

Definition reply_doc (doc : DirDoc + FileDoc) : Object :=
  match doc with
  | inl dir => DirObject dir
  | inr file => FileObject file
  end.

(** [ReadMetadataFromIDHandler] handles the GET requests on
    /files/:file-id. *)
Definition ReadMetadataFromIDHandler (c : EchoContext) : io E Reply :=
  let fileID := Param c "file-id" in
  r ← perform (GetDirOrFileDoc fileID true);
  match r with
  | Err err => mret (ReplyError (files.wrapVfsError err))
  | Ok doc => mret (ReplyData 200 (reply_doc doc))
  end.

(** [ReadMetadataFromPathHandler] handles the GET requests on
    /files/metadata. *)
Definition ReadMetadataFromPathHandler (c : EchoContext) : io E Reply :=
  r ← perform (GetDirOrFileDocFromPath (QueryParam c "Path") true);
  match r with
  | Err err => mret (ReplyError (files.wrapVfsError err))
  | Ok doc => mret (ReplyData 200 (reply_doc doc))
  end.

(** [ReadFileContentFromIDHandler] serves a file in inline mode. *)
Definition ReadFileContentFromIDHandler (c : EchoContext) : io E Reply :=
  r ← perform (GetFileDoc (Param c "file-id"));
  match r with
  | Err err => mret (ReplyError (files.wrapVfsError err))
  | Ok doc =>
      err ← perform (ServeFileContent doc "inline");
      match err with
      | Some err => mret (ReplyError (files.wrapVfsError err))
      | None => mret ReplyServed
      end
  end.

(** [ReadFileContentFromPathHandler] serves a file in attachment mode. *)
Definition ReadFileContentFromPathHandler (c : EchoContext) : io E Reply :=
  let path := QueryParam c "Path" in
  r ← perform (GetFileDocFromPath path);
  match r with
  | Err err => mret (ReplyError (files.wrapVfsError err))
  | Ok doc =>
      err ← perform (ServeFileContent doc "attachment");
      match err with
      | Some err => mret (ReplyError (files.wrapVfsError err))
      | None => mret ReplyServed
      end
  end.

(** [ReadTrashFilesHandler] handles the GET requests on /files/trash. *)
Definition ReadTrashFilesHandler (c : EchoContext) : io E Reply :=
  r ← perform (GetDirDoc TrashDirID true);
  match r with
  | Err err => mret (ReplyError (files.wrapVfsError err))
  | Ok trash => mret (ReplyDataList 200 (Included trash))
  end.

End Handlers.

(** A call that changes a document, and a call that writes the response. *)
Definition modifies {DocPatch ObjectMarshalling : Type}
    (ev : Event (filesE DocPatch ObjectMarshalling)) : bool :=
  match ev with
  | Ev (ModifyFileMetadata _ _) => true
  | Ev (ModifyDirMetadata _ _) => true
  | _ => false
  end.

Definition serves {DocPatch ObjectMarshalling : Type}
    (ev : Event (filesE DocPatch ObjectMarshalling)) : bool :=
  match ev with
  | Ev (ServeFileContent _ _) => true
  | _ => false
  end.

Definition decodes {DocPatch ObjectMarshalling : Type}
    (ev : Event (filesE DocPatch ObjectMarshalling)) : bool :=
  match ev with
  | Ev (Bind _) => true
  | _ => false
  end.

End files_io.

(** ** Package [strings]: [Contains] *)

Definition strings_Contains (s substr : string) : bool :=
  0 <=? strings.Index s substr.

(** ** [errors.go]: the error handlers

    An error that reaches the handlers is an [*echo.HTTPError], one of the
    errors above, or the sentinel [instance.ErrNotFound].  The [Message] of an
    [*echo.HTTPError] is any value: the error [echo.NewHTTPError] was given,
    or a value taken by what the verb %v prints of it. *)

#[warnings="-register-all"]
Inductive web_error :=
| HTTPError (Code : Z) (Message : Msg) (Inner : option web_error)
| StdError (e : error)
| instance_ErrNotFound
with Msg :=
| MsgValue (printed : string)
| MsgError (e : web_error).

(** The fields read of the [*instance.Instance] of a request. *)
Record Inst := {
  InstDomain : string;
  InstDev : bool
}.

Module errors.

(** A [*jsonapi.Error]: one that a constructor of package [jsonapi] made (or
    that the handler was given), or the literal that [ErrorHandler] fills
    in. *)
Inductive JsonError :=
| Constructed (e : jsonapi_Error)
| Literal (Status : Z) (Title Detail : string).

(** What the handlers read of their [echo.Context]: the method and the path
    of the request, its [Accept] header, whether the response is committed,
    [c.Get("instance")] when it is an [*instance.Instance], and what
    [middlewares.GetInstanceSafe] answers. *)
Record Context := {
  Method : string;
  Path : string;
  Accept : string;
  Committed : bool;
  Instance : option Inst;
  InstanceSafe : option Inst
}.

(** The calls of the handlers: a line of the log of the instance (or of the
    namespace "http" when there is none), and the writes of the response,
    each answering with its error. *)
Inductive respE : Type -> Type :=
| Log (inst : option Inst) (method path : string) (about : web_error) : respE unit
| NoContent (status : Z) : respE (option web_error)
| DataError (je : JsonError) : respE (option web_error)
| JSON (status : Z) (message : Msg) : respE (option web_error)
| Render (status : Z) (name domain title value : string) : respE (option web_error)
| String (status : Z) (text : string) : respE (option web_error).

Definition MIMETextHTML : string := "text/html".
Definition MIMEApplicationJSON : string := "application/json".
Definition MethodHead : string := "HEAD".
Definition StatusInternalServerError : Z := 500.
Definition StatusNotFound : Z := 404.

Definition is_ErrNotFound (err : web_error) : bool :=
  match err with instance_ErrNotFound => true | _ => false end.

Section Handlers.

(** [err.Error()], and the [Status] of a [*jsonapi.Error] that a constructor
    of the package made. *)
Variable Error : web_error -> string.
Variable Status : jsonapi_Error -> Z.

(** [config.IsDevRelease()]. *)
Variable IsDevRelease : bool.

Definition je_Status (je : JsonError) : Z :=
  match je with
  | Constructed e => Status e
  | Literal status _ _ => status
  end.

(** [fmt.Sprintf("%v", he.Message)]. *)
Definition Sprint (m : Msg) : string :=
  match m with
  | MsgValue printed => printed
  | MsgError e => Error e
  end.

(** [HTMLErrorHandler] is the fallback handler for the errors rendered in
    HTML pages. *)
Definition HTMLErrorHandler (err : web_error) (c : Context) : io respE unit :=
  let status := StatusInternalServerError in
  _ ← perform (Log (Instance c) (Method c) (Path c) err);
  let '(status, err, Message) :=
    match err with
    | HTTPError Code Message Inner =>
        (Code, match Inner with Some inner => inner | None => err end, Message)
    | _ => (status, err, MsgError err)
    end in
  let '(status, title, value) :=
    if is_ErrNotFound err
    then (StatusNotFound, "Error Instance not found Title",
          "Error Instance not found Message")
    else (status, EmptyString, EmptyString) in
  let '(title, value) :=
    if negb (str_nonempty title) then
      if 500 <=? status
      then ("Error Internal Server Error Title", "Error Internal Server Error Message")
      else ("Error Title", Sprint Message)
    else (title, value) in
  let accept := Accept c in
  let acceptHTML := strings_Contains accept MIMETextHTML in
  let acceptJSON := strings_Contains accept MIMEApplicationJSON in
  werr ← (if String.eqb (Method c) MethodHead then perform (NoContent status)
          else if acceptJSON then perform (JSON status Message)
          else if acceptHTML then
            let domain :=
              match InstanceSafe c with
              | Some i => InstDomain i
              | None => EmptyString
              end in
            perform (Render status "error.html" domain title value)
          else perform (String status (Sprint Message)));
  match werr with
  | Some werr => perform (Log (Instance c) (Method c) (Path c) werr)
  | None => mret tt
  end.

(** The [*jsonapi.Error] that [ErrorHandler] answers with; [None] for an
    [*echo.HTTPError]. *)
Definition qualify (err : web_error) : option JsonError :=
  match err with
  | HTTPError _ _ _ => None
  | StdError e =>
      if os.IsExist e then Some (Constructed (Conflict e))
      else if os.IsNotExist e then Some (Constructed (NotFound e))
      else
        match e with
        | CouchdbErr StatusCode Name Reason => Some (Literal StatusCode Name Reason)
        | JsonapiErr je => Some (Constructed je)
        | _ => Some (Literal StatusInternalServerError "Unqualified error" (Error err))
        end
  | instance_ErrNotFound =>
      Some (Literal StatusInternalServerError "Unqualified error" (Error err))
  end.

(** [ErrorHandler] is the default error handler of the APIs. *)
Definition ErrorHandler (err : web_error) (c : Context) : io respE unit :=
  let je := qualify err in
  _ ← (if IsDevRelease then perform (Log (Instance c) (Method c) (Path c) err)
       else mret tt);
  if Committed c then mret tt
  else
    match je with
    | Some je =>
        if String.eqb (Method c) MethodHead
        then _ ← perform (NoContent (je_Status je)); mret tt
        else _ ← perform (DataError je); mret tt
    | None => HTMLErrorHandler err c
    end.

End Handlers.

(** A call that writes the response. *)
Definition writes (ev : Event respE) : bool :=
  match ev with
  | Ev (Log _ _ _ _) => false
  | _ => true
  end.

(** A call that writes a body. *)
Definition writes_body (ev : Event respE) : bool :=
  match ev with
  | Ev (Log _ _ _ _) => false
  | Ev (NoContent _) => false
  | _ => true
  end.

(** The status a call writes. *)
Definition written_status (Status : jsonapi_Error -> Z) (ev : Event respE) : option Z :=
  match ev with
  | Ev (Log _ _ _ _) => None
  | Ev (NoContent status) => Some status
  | Ev (DataError je) => Some (je_Status Status je)
  | Ev (JSON status _) => Some status
  | Ev (Render status _ _ _ _) => Some status
  | Ev (String status _) => Some status
  end.

End errors.

(** ** Package [strings]: white space, [TrimSpace] and [Fields]

    [strings.TrimSpace] and [strings.Fields] take a string by its runes and
    ask [unicode.IsSpace] of each.  A string is its bytes here: the white
    space characters are taken by their encoding in UTF-8, one to three
    bytes.  No encoding is the start or the end of another, and none starts
    with a continuation byte, so that a white space character begins at a
    byte exactly when the bytes from there on are its encoding; a byte
    sequence that is no valid encoding decodes to U+FFFD, which is no white
    space. *)

Definition is_ascii_space (c : ascii) : bool :=
  let b := byte_val c in
  ((9 <=? b) && (b <=? 13)) || (b =? 32).

(** The number of bytes of the white space character that [s] starts with;
    0 when it starts with none: '\t', '\n', '\v', '\f', '\r', ' ', U+0085,
    U+00A0, U+1680, U+2000 to U+200A, U+2028, U+2029, U+202F, U+205F and
    U+3000. *)
Definition space_width (s : string) : nat :=
  match s with
  | String c0 rest =>
      if is_ascii_space c0 then 1%nat
      else
        match rest with
        | String c1 rest1 =>
            let b0 := byte_val c0 in
            let b1 := byte_val c1 in
            if (b0 =? 194) && ((b1 =? 133) || (b1 =? 160)) then 2%nat
            else
              match rest1 with
              | String c2 _ =>
                  let b2 := byte_val c2 in
                  if (b0 =? 225) && (b1 =? 154) && (b2 =? 128) then 3%nat
                  else if (b0 =? 226) && (b1 =? 128)
                          && (((128 <=? b2) && (b2 <=? 138))
                              || (b2 =? 168) || (b2 =? 169) || (b2 =? 175))
                  then 3%nat
                  else if (b0 =? 226) && (b1 =? 129) && (b2 =? 159) then 3%nat
                  else if (b0 =? 227) && (b1 =? 128) && (b2 =? 128) then 3%nat
                  else 0%nat
              | EmptyString => 0%nat
              end
        | EmptyString => 0%nat
        end
  | EmptyString => 0%nat
  end.

(** [strings.TrimLeftFunc(s, unicode.IsSpace)]; [skip] counts the bytes
    still to drop of a white space character that is being dropped. *)
Fixpoint TrimLeft_loop (s : string) (skip : nat) : string :=
  match s with
  | EmptyString => EmptyString
  | String c rest =>
      match skip with
      | S k => TrimLeft_loop rest k
      | O =>
          match space_width s with
          | O => s
          | S k => TrimLeft_loop rest k
          end
      end
  end.

(** Whether [s] is made of white space characters only. *)
Fixpoint all_spaces_loop (s : string) (skip : nat) : bool :=
  match s with
  | EmptyString => true
  | String c rest =>
      match skip with
      | S k => all_spaces_loop rest k
      | O =>
          match space_width s with
          | O => false
          | S k => all_spaces_loop rest k
          end
      end
  end.

(** [strings.TrimRightFunc(s, unicode.IsSpace)]: [s] up to where the rest is
    white space only. *)
Fixpoint TrimRight (s : string) : string :=
  match s with
  | EmptyString => EmptyString
  | String c rest =>
      if all_spaces_loop s 0 then EmptyString else String c (TrimRight rest)
  end.

Definition strings_TrimSpace (s : string) : string :=
  TrimRight (TrimLeft_loop s 0).

(** [strings.Fields(s)]: the maximal runs of bytes of [s] without a white
    space character; [cur] is the field being read. *)
Fixpoint Fields_loop (s : string) (skip : nat) (cur : string) : list string :=
  match s with
  | EmptyString => if str_nonempty cur then [cur] else []
  | String c rest =>
      match skip with
      | S k => Fields_loop rest k cur
      | O =>
          match space_width s with
          | O => Fields_loop rest 0 (cur +:+ String c EmptyString)
          | S k =>
              if str_nonempty cur then cur :: Fields_loop rest k EmptyString
              else Fields_loop rest k EmptyString
          end
      end
  end.

Definition strings_Fields (s : string) : list string :=
  Fields_loop s 0 EmptyString.

(** ** An earlier revision of [files.go]: [parseTags] *)

Fixpoint parseTags_loop (pieces : list string) (tags : list string) : list string :=
  match pieces with
  | [] => tags
  | tag :: rest =>
      let tag := strings_TrimSpace tag in
      if str_nonempty tag then parseTags_loop rest (tags ++ [tag])
      else parseTags_loop rest tags
  end.

Definition parseTags (str : string) : list string :=
  parseTags_loop (strings_Split str ",") [].

(** ** [secure.go]: the middleware of the security headers *)

Module middlewares.

(** [XFrameOption] is a [string]. *)
Definition XFrameDeny : string := "DENY".
Definition XFrameSameOrigin : string := "SAMEORIGIN".
Definition XFrameAllowFrom : string := "ALLOW-FROM".

(** [CSPSource] is an [int].  Its constants are declared with [iota] in the
    block that the three constants above begin: [CSPSrcSelf], on the fourth
    line of the block, is 3. *)
Definition CSPSource : Type := Z.
Definition CSPSrcSelf : CSPSource := 3.
Definition CSPSrcData : CSPSource := 4.
Definition CSPSrcBlob : CSPSource := 5.
Definition CSPSrcParent : CSPSource := 6.
Definition CSPSrcWS : CSPSource := 7.
Definition CSPSrcSiblings : CSPSource := 8.
Definition CSPSrcAny : CSPSource := 9.
Definition CSPUnsafeInline : CSPSource := 10.
Definition CSPWhitelist : CSPSource := 11.

(** [SecureConfig]; [HSTSMaxAge] is a [time.Duration], in nanoseconds. *)
Record SecureConfig := {
  HSTSMaxAge : Z;
  CSPDefaultSrc : list CSPSource;
  CSPScriptSrc : list CSPSource;
  CSPFrameSrc : list CSPSource;
  CSPConnectSrc : list CSPSource;
  CSPFontSrc : list CSPSource;
  CSPImgSrc : list CSPSource;
  CSPManifestSrc : list CSPSource;
  CSPMediaSrc : list CSPSource;
  CSPObjectSrc : list CSPSource;
  CSPStyleSrc : list CSPSource;
  CSPWorkerSrc : list CSPSource;
  CSPDefaultSrcWhitelist : string;
  CSPScriptSrcWhitelist : string;
  CSPFrameSrcWhitelist : string;
  CSPConnectSrcWhitelist : string;
  CSPFontSrcWhitelist : string;
  CSPImgSrcWhitelist : string;
  CSPManifestSrcWhitelist : string;
  CSPMediaSrcWhitelist : string;
  CSPObjectSrcWhitelist : string;
  CSPStyleSrcWhitelist : string;
  CSPWorkerSrcWhitelist : string;
  XFrameOptions : string;
  XFrameAllowed : string
}.

(** The loop that keeps the first occurrence of every source:
    [sourcesUnique] is appended to, in the array of [sources], behind the
    element being read. *)
Fixpoint sourcesUnique_loop (sources sourcesUnique : list CSPSource) : list CSPSource :=
  match sources with
  | [] => sourcesUnique
  | source :: rest =>
      if existsb (fun s => s =? source) sourcesUnique
      then sourcesUnique_loop rest sourcesUnique
      else sourcesUnique_loop rest (sourcesUnique ++ [source])
  end.

(** [makeCSPHeader]: the text of one source; a value that is none of the
    constants leaves the empty string of [make([]string, len(sources))]. *)
Definition source_text (parent siblings cspWhitelist : string) (isSecure : bool)
    (src : CSPSource) : string :=
  if src =? CSPSrcSelf then "'self'"
  else if src =? CSPSrcData then "data:"
  else if src =? CSPSrcBlob then "blob:"
  else if src =? CSPSrcParent then
    if isSecure then "https://" +:+ parent else "http://" +:+ parent
  else if src =? CSPSrcWS then
    if isSecure then "wss://" +:+ parent else "ws://" +:+ parent
  else if src =? CSPSrcSiblings then
    if isSecure then "https://" +:+ siblings else "http://" +:+ siblings
  else if src =? CSPSrcAny then "*"
  else if src =? CSPUnsafeInline then "'unsafe-inline'"
  else if src =? CSPWhitelist then cspWhitelist
  else EmptyString.

Definition makeCSPHeader (parent siblings header cspWhitelist : string)
    (sources : list CSPSource) (isSecure : bool) : string :=
  let headers := map (source_text parent siblings cspWhitelist isSecure) sources in
  header +:+ " " +:+ strings_Join headers " " +:+ ";".

(** The names of the headers, constants of package [echo]. *)
Definition HeaderStrictTransportSecurity : string := "Strict-Transport-Security".
Definition HeaderXFrameOptions : string := "X-Frame-Options".
Definition HeaderContentSecurityPolicy : string := "Content-Security-Policy".
Definition HeaderXContentTypeOptions : string := "X-Content-Type-Options".

(** [c.Get("instance")]: nothing, an [*instance.Instance], or a value of
    another type. *)
Inductive ContextValue :=
| NoValue
| InstanceValue (i : Inst)
| OtherValue.

(** An [http.Header], and its method [Set]. *)
Abbreviation HttpHeader := (gmap string (list string)).

Definition Set_ (h : HttpHeader) (key value : string) : HttpHeader :=
  <[key := [value]]> h.

Section Secure.

(** Package [net/url] is outside the sources: a [*url.URL] is of any type,
    with [url.Parse], the assignments to its fields [Scheme] and [Path], the
    reading of [Path], and its method [String]. *)
Context {URL : Type}.
Variable url_Parse : string -> option URL.
Variable setScheme : URL -> string -> URL.
Variable URL_Path : URL -> string.
Variable setPath : URL -> string -> URL.
Variable URL_String : URL -> string.

(** [fmt.Sprintf("%.f", d.Seconds())] of a [time.Duration]. *)
Variable format_Seconds : Z -> string.

(** [SplitHost], of this package, is outside the sources. *)
Variable SplitHost : string -> string * string * string.

(** The loop over the fields of the whitelist: a field that does not parse
    is dropped. *)
Fixpoint whitelistFilter_loop (whitelistFields : list string) : list string :=
  match whitelistFields with
  | [] => []
  | s :: rest =>
      match url_Parse s with
      | None => whitelistFilter_loop rest
      | Some u =>
          let u := setScheme u "https" in
          let u := if negb (str_nonempty (URL_Path u)) then setPath u "/" else u in
          URL_String u :: whitelistFilter_loop rest
      end
  end.

Definition validCSPList (sources defaults : list CSPSource) (whitelist : string) :
    list CSPSource * string :=
  let whitelistFields := strings_Fields whitelist in
  let whitelistFilter := whitelistFilter_loop whitelistFields in
  let '(whitelist, sources) :=
    if (0 <? Z.of_nat (length whitelistFilter))
    then (strings_Join whitelistFilter " ", sources ++ [CSPWhitelist])
    else (EmptyString, sources) in
  if (Z.of_nat (length sources) =? 0) && negb (str_nonempty whitelist)
  then ([], EmptyString)
  else
    let sources := sources ++ defaults in
    (sourcesUnique_loop sources [], whitelist).

(** The part of [Secure] that runs once: the two headers that do not depend
    on the request, and the configuration with its lists validated, the list
    of the defaults first. *)
Definition hstsHeader_of (conf : SecureConfig) : string :=
  if 0 <? HSTSMaxAge conf
  then "max-age=" +:+ format_Seconds (HSTSMaxAge conf) +:+ "; includeSubDomains"
  else EmptyString.

Definition xFrameHeader_of (conf : SecureConfig) : string :=
  if String.eqb (XFrameOptions conf) XFrameDeny then XFrameDeny
  else if String.eqb (XFrameOptions conf) XFrameSameOrigin then XFrameSameOrigin
  else if String.eqb (XFrameOptions conf) XFrameAllowFrom
  then XFrameAllowFrom +:+ " " +:+ XFrameAllowed conf
  else EmptyString.

Definition validate (conf : SecureConfig) : SecureConfig :=
  let '(default, defaultW) :=
    validCSPList (CSPDefaultSrc conf) (CSPDefaultSrc conf) (CSPDefaultSrcWhitelist conf) in
  let '(script, scriptW) :=
    validCSPList (CSPScriptSrc conf) default (CSPScriptSrcWhitelist conf) in
  let '(frame, frameW) :=
    validCSPList (CSPFrameSrc conf) default (CSPFrameSrcWhitelist conf) in
  let '(connect, connectW) :=
    validCSPList (CSPConnectSrc conf) default (CSPConnectSrcWhitelist conf) in
  let '(font, fontW) :=
    validCSPList (CSPFontSrc conf) default (CSPFontSrcWhitelist conf) in
  let '(img, imgW) :=
    validCSPList (CSPImgSrc conf) default (CSPImgSrcWhitelist conf) in
  let '(manifest, manifestW) :=
    validCSPList (CSPManifestSrc conf) default (CSPManifestSrcWhitelist conf) in
  let '(media, mediaW) :=
    validCSPList (CSPMediaSrc conf) default (CSPMediaSrcWhitelist conf) in
  let '(object, objectW) :=
    validCSPList (CSPObjectSrc conf) default (CSPObjectSrcWhitelist conf) in
  let '(style, styleW) :=
    validCSPList (CSPStyleSrc conf) default (CSPStyleSrcWhitelist conf) in
  let '(worker, workerW) :=
    validCSPList (CSPWorkerSrc conf) default (CSPWorkerSrcWhitelist conf) in
  {| HSTSMaxAge := HSTSMaxAge conf;
     CSPDefaultSrc := default; CSPScriptSrc := script; CSPFrameSrc := frame;
     CSPConnectSrc := connect; CSPFontSrc := font; CSPImgSrc := img;
     CSPManifestSrc := manifest; CSPMediaSrc := media; CSPObjectSrc := object;
     CSPStyleSrc := style; CSPWorkerSrc := worker;
     CSPDefaultSrcWhitelist := defaultW; CSPScriptSrcWhitelist := scriptW;
     CSPFrameSrcWhitelist := frameW; CSPConnectSrcWhitelist := connectW;
     CSPFontSrcWhitelist := fontW; CSPImgSrcWhitelist := imgW;
     CSPManifestSrcWhitelist := manifestW; CSPMediaSrcWhitelist := mediaW;
     CSPObjectSrcWhitelist := objectW; CSPStyleSrcWhitelist := styleW;
     CSPWorkerSrcWhitelist := workerW;
     XFrameOptions := XFrameOptions conf; XFrameAllowed := XFrameAllowed conf |}.

(** The eleven directives of the policy, in the order of the header: the
    name, the list of sources and the whitelist of each. *)
Definition directives :
    list (string * (SecureConfig -> list CSPSource) * (SecureConfig -> string)) :=
  [("default-src", CSPDefaultSrc, CSPDefaultSrcWhitelist);
   ("script-src", CSPScriptSrc, CSPScriptSrcWhitelist);
   ("frame-src", CSPFrameSrc, CSPFrameSrcWhitelist);
   ("connect-src", CSPConnectSrc, CSPConnectSrcWhitelist);
   ("font-src", CSPFontSrc, CSPFontSrcWhitelist);
   ("img-src", CSPImgSrc, CSPImgSrcWhitelist);
   ("manifest-src", CSPManifestSrc, CSPManifestSrcWhitelist);
   ("media-src", CSPMediaSrc, CSPMediaSrcWhitelist);
   ("object-src", CSPObjectSrc, CSPObjectSrcWhitelist);
   ("style-src", CSPStyleSrc, CSPStyleSrcWhitelist);
   ("worker-src", CSPWorkerSrc, CSPWorkerSrcWhitelist)].

(** One directive of the policy, when its list is not empty. *)
Definition directive (parent siblings header cspWhitelist : string)
    (sources : list CSPSource) (isSecure : bool) : string :=
  if 0 <? Z.of_nat (length sources)
  then makeCSPHeader parent siblings header cspWhitelist sources isSecure
  else EmptyString.

Definition cspHeader_of (conf : SecureConfig) (parent siblings : string)
    (isSecure : bool) : string :=
  directive parent siblings "default-src" (CSPDefaultSrcWhitelist conf)
    (CSPDefaultSrc conf) isSecure
  +:+ directive parent siblings "script-src" (CSPScriptSrcWhitelist conf)
        (CSPScriptSrc conf) isSecure
  +:+ directive parent siblings "frame-src" (CSPFrameSrcWhitelist conf)
        (CSPFrameSrc conf) isSecure
  +:+ directive parent siblings "connect-src" (CSPConnectSrcWhitelist conf)
        (CSPConnectSrc conf) isSecure
  +:+ directive parent siblings "font-src" (CSPFontSrcWhitelist conf)
        (CSPFontSrc conf) isSecure
  +:+ directive parent siblings "img-src" (CSPImgSrcWhitelist conf)
        (CSPImgSrc conf) isSecure
  +:+ directive parent siblings "manifest-src" (CSPManifestSrcWhitelist conf)
        (CSPManifestSrc conf) isSecure
  +:+ directive parent siblings "media-src" (CSPMediaSrcWhitelist conf)
        (CSPMediaSrc conf) isSecure
  +:+ directive parent siblings "object-src" (CSPObjectSrcWhitelist conf)
        (CSPObjectSrc conf) isSecure
  +:+ directive parent siblings "style-src" (CSPStyleSrcWhitelist conf)
        (CSPStyleSrc conf) isSecure
  +:+ directive parent siblings "worker-src" (CSPWorkerSrcWhitelist conf)
        (CSPWorkerSrc conf) isSecure.

(** The function that [Secure] returns, on the configuration as [Secure]
    left it, up to its call of [next]: the headers of the response that
    [next] is called with.  [None] is the panic of the type assertion on a
    value that is no [*instance.Instance]. *)
Definition secure_headers (hstsHeader xFrameHeader : string) (conf : SecureConfig)
    (instance : ContextValue) (host : string) (h : HttpHeader) : option HttpHeader :=
  isSecure ← match instance with
             | NoValue => Some true
             | InstanceValue i => Some (negb (InstDev i))
             | OtherValue => None
             end;
  let h :=
    if isSecure && str_nonempty hstsHeader
    then Set_ h HeaderStrictTransportSecurity hstsHeader else h in
  let h :=
    if str_nonempty xFrameHeader then Set_ h HeaderXFrameOptions xFrameHeader else h in
  let '(parent, _, siblings) := SplitHost host in
  let cspHeader := cspHeader_of conf parent siblings isSecure in
  let h :=
    if str_nonempty cspHeader then Set_ h HeaderContentSecurityPolicy cspHeader else h in
  Some (Set_ h HeaderXContentTypeOptions "nosniff").

(** [Secure(conf)], applied to [next] and to a request: [next] is called
    with the headers set, and what it returns is returned. *)
Definition Secure {R : Type} (conf : SecureConfig) (next : HttpHeader -> R)
    (instance : ContextValue) (host : string) (h : HttpHeader) : option R :=
  let hstsHeader := hstsHeader_of conf in
  let xFrameHeader := xFrameHeader_of conf in
  let conf := validate conf in
  h ← secure_headers hstsHeader xFrameHeader conf instance host h;
  Some (next h).

End Secure.

End middlewares.

(** ** What holds of every run of a program

    [holds Q p]: the calls of every run of [p], whatever the calls answer,
    satisfy [Q]. *)

Fixpoint holds {E : Type -> Type} {R : Type} (Q : list (Event E) -> Prop)
    (p : io E R) : Prop :=
  match p with
  | Pure _ => Q []
  | Perform e k => forall x, holds (fun events => Q (Ev e :: events)) (k x)
  end.

(** ** An earlier revision of [files.go]: the handlers

    The handlers of the earlier revision answer through their [*gin.Context]
    and return nothing.  The operations of package [vfs] take the context of
    the virtual filesystem that [getVfsContext] builds from the instance of
    the request. *)

Module files_gin.

Import vfs.

(** What a handler reads of its [*gin.Context]: the request, what
    [c.ContentType()] answers, and the instance that
    [middlewares.GetInstance(c)] answers. *)
Record GinContext := {
  Request : EchoContext;
  ContentType : string;
  Instance : instance.Instance
}.

Definition Query_ (c : GinContext) (key : string) : string := QueryParam (Request c) key.
Definition Param_ (c : GinContext) (key : string) : string := Param (Request c) key.

Section Calls.

(** [vfs.DocMetaAttributes] is declared outside the sources. *)
Variable DocMetaAttributes : Type.

(** [jsonData]: the data of a PATCH request. *)
Record jsonData := {
  Type_ : string;
  ID : string;
  Attrs : option DocMetaAttributes
}.

(** The calls of the handlers: the two answers, [jsonapi.AbortWithError] and
    [c.Data]; the decoding of the body by [c.BindJSON], which answers the
    [Data] of the container (a pointer); and the operations of package
    [vfs], each with the context it is given.  An operation that fills the
    document it is given answers with the document. *)
Inductive ginE : Type -> Type :=
| AbortWithError (err : error) : ginE unit
| Data (status : Z) (contentType : string) (data : list ascii) : ginE unit
| BindJSON (body : list ascii) : ginE (result (option jsonData))
| GetFileDoc (vfsC : VfsContext) (fileID : string) : ginE (result FileDoc)
| GetFileDocFromPath (vfsC : VfsContext) (path : string) : ginE (result FileDoc)
| NewFileDoc (name folderID : string) (size : Z) (md5Sum : list ascii)
    (mime class : string) (executable : bool) (tags : list string) :
    ginE (result FileDoc)
| NewDirDoc (name folderID : string) (tags : list string) : ginE (result DirDoc)
| CreateFileAndUpload (vfsC : VfsContext) (doc : FileDoc) (body : list ascii) :
    ginE (FileDoc * option error)
| CreateDirectory (vfsC : VfsContext) (doc : DirDoc) : ginE (DirDoc * option error)
| ModifyFileContent (vfsC : VfsContext) (oldDoc newDoc : FileDoc) (body : list ascii) :
    ginE (FileDoc * option error)
| ModifyFileMetadata (vfsC : VfsContext) (doc : FileDoc)
    (attrs : option DocMetaAttributes) : ginE (result FileDoc)
| ServeFileContent (vfsC : VfsContext) (doc : FileDoc) (disposition : string) :
    ginE (option error).

(** How a handler ends: it returns, or it panics. *)
Inductive End_ := Returned | Panicked.

(** [jsonapi.WrapVfsError], [vfs.ParseDocType] with the two document types,
    the method [ToJSONApi] of the documents and [jsonapi.ContentType] are
    declared outside the sources. *)
Variable WrapVfsError : error -> error.
Variable ParseDocType : string -> result string.
Variables (FileDocType FolderDocType : string).
Variable ToJSONApi : Object -> result (list ascii).
Variable jsonapi_ContentType : string.

Definition StatusCreated : Z := 201.
Definition StatusOK : Z := 200.

Definition getVfsContext (c : GinContext) : io ginE (result VfsContext) :=
  let instance := Instance c in
  let dbprefix := instance.GetDatabasePrefix instance in
  match instance.GetStorageProvider instance with
  | Err err =>
      _ ← perform (AbortWithError (JsonapiErr (InternalServerError err)));
      mret (Err err)
  | Ok fs => mret (Ok (NewContext fs dbprefix))
  end.

(** [fileDocFromReq]; [None] is the panic of [extractMimeAndClass]. *)
Definition fileDocFromReq (c : GinContext) (name folderID : string)
    (tags : list string) : io ginE (option (result FileDoc)) :=
  let header := Header_Get (Request c) in
  match files.parseContentLength (header "Content-Length") with
  | (_, Some err) =>
      _ ← perform (AbortWithError (JsonapiErr (InvalidParameter "Content-Length" err)));
      mret (Some (Err err))
  | (size, None) =>
      let md5Str := header "Content-MD5" in
      match (if str_nonempty md5Str then files.parseMD5Hash md5Str else Ok []) with
      | Err err =>
          _ ← perform (AbortWithError (JsonapiErr (InvalidParameter "Content-MD5" err)));
          mret (Some (Err err))
      | Ok md5Sum =>
          let executable := String.eqb (Query_ c "Executable") "true" in
          match extractMimeAndClass (ContentType c) with
          | None => mret None
          | Some (mime, class) =>
              r ← perform (NewFileDoc name folderID size md5Sum mime class executable
                             tags);
              mret (Some r)
          end
      end
  end.

Definition createFileHandler (c : GinContext) (vfsC : VfsContext) :
    io ginE (option (result FileDoc)) :=
  r ← fileDocFromReq c (Query_ c "Name") (Param_ c "folder-id")
        (parseTags (Query_ c "Tags"));
  match r with
  | None => mret None
  | Some (Err err) => mret (Some (Err err))
  | Some (Ok doc) =>
      '(doc, err) ← perform (CreateFileAndUpload vfsC doc (Body (Request c)));
      match err with
      | Some err =>
          _ ← perform (AbortWithError (WrapVfsError err));
          mret (Some (Err err))
      | None => mret (Some (Ok doc))
      end
  end.

Definition createDirectoryHandler (c : GinContext) (vfsC : VfsContext) :
    io ginE (result DirDoc) :=
  r ← perform (NewDirDoc (Query_ c "Name") (Param_ c "folder-id")
                 (parseTags (Query_ c "Tags")));
  match r with
  | Err err => mret (Err err)
  | Ok doc =>
      '(doc, err) ← perform (CreateDirectory vfsC doc);
      match err with
      | Some err => mret (Err err)
      | None => mret (Ok doc)
      end
  end.

(** The end of the handlers that answer with a document: the document as
    JSON, or the error of making it. *)
Definition respond (status : Z) (doc : Object) : io ginE End_ :=
  match ToJSONApi doc with
  | Err err => _ ← perform (AbortWithError (WrapVfsError err)); mret Returned
  | Ok data => _ ← perform (Data status jsonapi_ContentType data); mret Returned
  end.

(** [CreationHandler] handles the POST requests on /files/:folder-id. *)
Definition CreationHandler (c : GinContext) : io ginE End_ :=
  r ← getVfsContext c;
  match r with
  | Err _ => mret Returned
  | Ok vfsC =>
      match ParseDocType (Query_ c "Type") with
      | Err err => _ ← perform (AbortWithError (WrapVfsError err)); mret Returned
      | Ok docType =>
          r ← (if String.eqb docType FileDocType then
                 r ← createFileHandler c vfsC;
                 mret (match r with
                       | None => None
                       | Some (Ok doc) => Some (Ok (FileObject doc))
                       | Some (Err err) => Some (Err err)
                       end)
               else if String.eqb docType FolderDocType then
                 r ← createDirectoryHandler c vfsC;
                 mret (match r with
                       | Ok doc => Some (Ok (DirObject doc))
                       | Err err => Some (Err err)
                       end)
               else mret (Some (Err ErrDocTypeInvalid)));
          match r with
          | None => mret Panicked
          | Some (Err err) =>
              _ ← perform (AbortWithError (WrapVfsError err)); mret Returned
          | Some (Ok doc) => respond StatusCreated doc
          end
      end
  end.

(** [OverwriteFileContentHandler] handles the PUT requests on
    /files/:file-id. *)
Definition OverwriteFileContentHandler (c : GinContext) : io ginE End_ :=
  r ← getVfsContext c;
  match r with
  | Err _ => mret Returned
  | Ok vfsC =>
      r ← perform (GetFileDoc vfsC (Param_ c "file-id"));
      match r with
      | Err err => _ ← perform (AbortWithError (WrapVfsError err)); mret Returned
      | Ok oldDoc =>
          r ← fileDocFromReq c (Name oldDoc) (DirID oldDoc) (Tags oldDoc);
          match r with
          | None => mret Panicked
          | Some (Err err) =>
              _ ← perform (AbortWithError (WrapVfsError err)); mret Returned
          | Some (Ok newDoc) =>
              let ifMatch := Header_Get (Request c) "If-Match" in
              if str_nonempty ifMatch && negb (String.eqb (Rev oldDoc) ifMatch) then
                _ ← perform (AbortWithError
                               (JsonapiErr
                                  (PreconditionFailed "If-Match"
                                     (ErrorString "Revision does not match."))));
                mret Returned
              else
                '(newDoc, err) ← perform (ModifyFileContent vfsC oldDoc newDoc
                                            (Body (Request c)));
                match err with
                | Some err =>
                    _ ← perform (AbortWithError (WrapVfsError err)); mret Returned
                | None => respond StatusOK (FileObject newDoc)
                end
          end
      end
  end.

Definition modFileHandler (vfsC : VfsContext) (req : EchoContext) (patchData : jsonData) :
    io ginE (result FileDoc) :=
  r ← perform (GetFileDoc vfsC (ID patchData));
  match r with
  | Err err => mret (Err err)
  | Ok doc =>
      let ifMatch := Header_Get req "If-Match" in
      if str_nonempty ifMatch && negb (String.eqb (Rev doc) ifMatch) then
        mret (Err (JsonapiErr
                     (PreconditionFailed "If-Match"
                        (ErrorString "Revision does not match."))))
      else
        r ← perform (ModifyFileMetadata vfsC doc (Attrs patchData));
        match r with
        | Err err => mret (Err err)
        | Ok doc => mret (Ok doc)
        end
  end.

(** [ModificationHandler] handles the PATCH requests on /files/:file-id.
    A body without data, and a document type that is neither of the two,
    end in the panic of a nil dereference. *)
Definition ModificationHandler (c : GinContext) : io ginE End_ :=
  r ← getVfsContext c;
  match r with
  | Err err =>
      _ ← perform (AbortWithError (JsonapiErr (InternalServerError err)));
      mret Returned
  | Ok vfsC =>
      r ← perform (BindJSON (Body (Request c)));
      match r with
      | Err err =>
          _ ← perform (AbortWithError (JsonapiErr (BadRequest err))); mret Returned
      | Ok None => mret Panicked
      | Ok (Some patchData) =>
          match ParseDocType (Type_ patchData) with
          | Err err => _ ← perform (AbortWithError (WrapVfsError err)); mret Returned
          | Ok docType =>
              r ← (if String.eqb docType FileDocType then
                     r ← modFileHandler vfsC (Request c) patchData;
                     mret (match r with
                           | Ok doc => Some (Ok doc)
                           | Err err => Some (Err err)
                           end)
                   else if String.eqb docType FolderDocType then
                     mret (Some (Err (ErrorString "Not implemented")))
                   else mret None);
              match r with
              | None => mret Panicked
              | Some (Err err) =>
                  _ ← perform (AbortWithError (WrapVfsError err)); mret Returned
              | Some (Ok doc) => respond StatusOK (FileObject doc)
              end
          end
      end
  end.

(** [ReadMetadataHandler] handles the GET requests on /files/metadata. *)
Definition ReadMetadataHandler (c : GinContext) : io ginE End_ :=
  r ← getVfsContext c;
  match r with
  | Err _ => mret Returned
  | Ok vfsC =>
      r ← perform (GetFileDocFromPath vfsC (Query_ c "Path"));
      match r with
      | Err err => _ ← perform (AbortWithError (WrapVfsError err)); mret Returned
      | Ok fileDoc => respond StatusOK (FileObject fileDoc)
      end
  end.

(** [ReadFileContentHandler] handles the GET requests on /files/:file-id
    that download a file. *)
Definition ReadFileContentHandler (c : GinContext) : io ginE End_ :=
  r ← getVfsContext c;
  match r with
  | Err _ => mret Returned
  | Ok vfsC =>
      let fileID := Param_ c "file-id" in
      let disposition :=
        if String.eqb fileID "download" then "attachment" else "inline" in
      r ← (if String.eqb fileID "download"
           then perform (GetFileDocFromPath vfsC (Query_ c "Path"))
           else perform (GetFileDoc vfsC fileID));
      match r with
      | Err err => _ ← perform (AbortWithError (WrapVfsError err)); mret Returned
      | Ok doc =>
          err ← perform (ServeFileContent vfsC doc disposition);
          match err with
          | Some err => _ ← perform (AbortWithError (WrapVfsError err)); mret Returned
          | None => mret Returned
          end
      end
  end.

(** [ReadFileHandler] handles the GET and HEAD requests on
    /files/:file-id. *)
Definition ReadFileHandler (c : GinContext) : io ginE End_ :=
  let fileID := Param_ c "file-id" in
  if String.eqb fileID "metadata" then ReadMetadataHandler c
  else ReadFileContentHandler c.

End Calls.

Arguments AbortWithError {DocMetaAttributes} err.
Arguments Data {DocMetaAttributes} status contentType data.
Arguments BindJSON {DocMetaAttributes} body.
Arguments GetFileDoc {DocMetaAttributes} vfsC fileID.
Arguments GetFileDocFromPath {DocMetaAttributes} vfsC path.
Arguments NewFileDoc {DocMetaAttributes} name folderID size md5Sum mime class
  executable tags.
Arguments NewDirDoc {DocMetaAttributes} name folderID tags.
Arguments CreateFileAndUpload {DocMetaAttributes} vfsC doc body.
Arguments CreateDirectory {DocMetaAttributes} vfsC doc.
Arguments ModifyFileContent {DocMetaAttributes} vfsC oldDoc newDoc body.
Arguments ModifyFileMetadata {DocMetaAttributes} vfsC doc attrs.
Arguments ServeFileContent {DocMetaAttributes} vfsC doc disposition.

(** The context a call hands to package [vfs], for the calls that take
    one. *)
Definition call_context {DocMetaAttributes : Type}
    (ev : Event (ginE DocMetaAttributes)) : option VfsContext :=
  match ev with
  | Ev (GetFileDoc vfsC _) => Some vfsC
  | Ev (GetFileDocFromPath vfsC _) => Some vfsC
  | Ev (CreateFileAndUpload vfsC _ _) => Some vfsC
  | Ev (CreateDirectory vfsC _) => Some vfsC
  | Ev (ModifyFileContent vfsC _ _ _) => Some vfsC
  | Ev (ModifyFileMetadata vfsC _ _) => Some vfsC
  | Ev (ServeFileContent vfsC _ _) => Some vfsC
  | _ => None
  end.

Definition aborts {DocMetaAttributes : Type} (ev : Event (ginE DocMetaAttributes)) :
    bool :=
  match ev with Ev (AbortWithError _) => true | _ => false end.

Definition answers_data {DocMetaAttributes : Type}
    (ev : Event (ginE DocMetaAttributes)) : bool :=
  match ev with Ev (Data _ _ _) => true | _ => false end.

Definition changes {DocMetaAttributes : Type} (ev : Event (ginE DocMetaAttributes)) :
    bool :=
  match ev with
  | Ev (CreateFileAndUpload _ _ _) => true
  | Ev (CreateDirectory _ _) => true
  | Ev (ModifyFileContent _ _ _ _) => true
  | Ev (ModifyFileMetadata _ _ _) => true
  | _ => false
  end.

(** The context of every call to package [vfs] is the one of the instance of
    the request: its storage provider and its database prefix. *)
Definition of_instance {DocMetaAttributes : Type} (c : GinContext)
    (events : list (Event (ginE DocMetaAttributes))) : Prop :=
  Forall
    (fun ev =>
       forall vfsC, call_context ev = Some vfsC ->
         instance.GetStorageProvider (Instance c) = Ok (ctx_fs vfsC)
         /\ ctx_prefix vfsC = instance.GetDatabasePrefix (Instance c))
    events.

(** The shape of the calls of a run: calls to package [vfs], then nothing,
    or [c.Data] once, or [jsonapi.AbortWithError] once or twice. *)
Fixpoint answer_shape {DocMetaAttributes : Type}
    (events : list (Event (ginE DocMetaAttributes))) : bool :=
  match events with
  | [] => true
  | ev :: rest =>
      if answers_data ev then bool_decide (rest = [])
      else if aborts ev then forallb aborts rest && (length rest <=? 1)%nat
      else answer_shape rest
  end.

(** A call that changes a file is made for a document of the revision that
    the [If-Match] header of the request names, when it names one. *)
Definition revision_checked {DocMetaAttributes : Type} (c : GinContext)
    (ev : Event (ginE DocMetaAttributes)) : Prop :=
  let ifMatch := Header_Get (Request c) "If-Match" in
  match ev with
  | Ev (ModifyFileContent _ oldDoc _ _) => ifMatch = EmptyString \/ Rev oldDoc = ifMatch
  | Ev (ModifyFileMetadata _ doc _) => ifMatch = EmptyString \/ Rev doc = ifMatch
  | _ => True
  end.

(** The request [c] with the query parameter [rev] set. *)
Definition with_rev (c : GinContext) (rev : string) : GinContext :=
  {| Request :=
       {| Header := Header (Request c);
          Query := <["rev" := rev]> (Query (Request c));
          Params := Params (Request c);
          Body := Body (Request c) |};
     ContentType := ContentType c;
     Instance := Instance c |}.

End files_gin.

(** ** [helpers.rb]: the name of a database

    A Ruby string is taken by its bytes, valid in its encoding: the
    characters '.', ':' and '-' are one byte each, and no byte of another
    character is one of them. *)

Module Helpers.

(** [s.gsub(/[.:]/, '-')] *)
Fixpoint gsub_dash (s : string) : string :=
  match s with
  | EmptyString => EmptyString
  | String c rest =>
      String (if Ascii.eqb c "." || Ascii.eqb c ":" then "-"%char else c)
        (gsub_dash rest)
  end.

Definition db_name (domain type : string) : string :=
  let domain := gsub_dash domain in
  let type := gsub_dash type in
  domain +:+ "%2F" +:+ type.

End Helpers.

(** ** More sample requests *)

Module sample.

Import vfs vfs_model.

(** POST /files/io.cozy.files.root-dir?Type=file&Name=a.txt with a
    [Content-Length] that is no number. *)
Definition post_bad_length : EchoContext :=
  {| Header := {[ "Content-Length" := "12a" ]};
     Query := {[ "Type" := "file"; "Name" := "a.txt" ]};
     Params := {[ "dir-id" := RootDirID ]};
     Body := list_ascii_of_string "hello world!" |}.

(** The same with a [Content-MD5] that is too short. *)
Definition post_bad_digest : EchoContext :=
  {| Header := {[ "Content-Length" := "12"; "Content-MD5" := "AQIDBA==" ]};
     Query := {[ "Type" := "file"; "Name" := "a.txt" ]};
     Params := {[ "dir-id" := RootDirID ]};
     Body := list_ascii_of_string "hello world!" |}.

(** POST /files/io.cozy.files.root-dir?Type=symlink&Name=a.txt *)
Definition post_other_type : EchoContext :=
  {| Header := ∅;
     Query := {[ "Type" := "symlink"; "Name" := "a.txt" ]};
     Params := {[ "dir-id" := RootDirID ]};
     Body := [] |}.

(** PUT /files/file-1 with the digest of another content. *)
Definition put_wrong_digest : EchoContext :=
  {| Header := {[ "Content-MD5" := "AQIDBAUGBwgJCgsMDQ4P/w==" ]};
     Query := ∅;
     Params := {[ "file-id" := "file-1" ]};
     Body := list_ascii_of_string "hi" |}.

(** POST /files/io.cozy.files.root-dir?Type=file&Name=a.txt with a negative
    [Content-Length]. *)
Definition post_negative_length : EchoContext :=
  {| Header := {[ "Content-Length" := "-5" ]};
     Query := {[ "Type" := "file"; "Name" := "a.txt" ]};
     Params := {[ "dir-id" := RootDirID ]};
     Body := list_ascii_of_string "hello" |}.

(** The same request, as the earlier revision takes it, for an instance with
    its storage. *)
Definition gin_bad_length : files_gin.GinContext :=
  {| files_gin.Request := post_bad_length;
     files_gin.ContentType := "text/plain";
     files_gin.Instance :=
       {| instance.Domain := "alice.cozycloud.local";
          instance.DatabasePrefix := "alice-cozycloud-local";
          instance.StorageProvider := Ok "mem://alice" |} |}.

(** A stand-in for what the earlier revision takes from outside the
    sources: [jsonapi.WrapVfsError] makes an internal server error of every
    error, a document type is taken as it is spelt, and the JSON of a
    document is empty. *)
Definition WrapVfsError (err : error) : error := JsonapiErr (InternalServerError err).
Definition ParseDocType (s : string) : result string := Ok s.
Definition ToJSONApi (doc : Object) : result (list ascii) := Ok [].

Definition gin_h (X : Type) (e : files_gin.ginE unit X) (w : World) : X * World :=
  match e in files_gin.ginE _ X return X * World with
  | files_gin.AbortWithError _ => (tt, w)
  | files_gin.Data _ _ _ => (tt, w)
  | files_gin.BindJSON _ => (Ok None, w)
  | files_gin.GetFileDoc _ fileID => (GetFileDoc w fileID, w)
  | files_gin.GetFileDocFromPath _ _ => (Err (OsErr os_ErrNotExist), w)
  | files_gin.NewFileDoc name folderID size md5Sum mime class executable tags =>
      (NewFileDoc w name folderID size md5Sum mime class executable tags, w)
  | files_gin.NewDirDoc name folderID tags => (NewDirDoc w name folderID tags, w)
  | files_gin.CreateFileAndUpload _ doc _ => ((doc, None), w)
  | files_gin.CreateDirectory _ doc => ((doc, None), w)
  | files_gin.ModifyFileContent _ _ newDoc _ => ((newDoc, None), w)
  | files_gin.ModifyFileMetadata _ doc _ => (Ok doc, w)
  | files_gin.ServeFileContent _ _ _ => (None, w)
  end.

(** PATCH /files/file-1 with a stale [If-Match]. *)
Definition patch_stale : EchoContext :=
  {| Header := {[ "If-Match" := "0-old" ]};
     Query := ∅;
     Params := {[ "file-id" := "file-1" ]};
     Body := list_ascii_of_string "{}" |}.

(** A stand-in for package [jsonapi] and for the calls of the reading and
    patching handlers: a patch is the map of its attributes, the
    relationships of a request are a map to their identifier; every body
    decodes to one new name, and a patch leaves the document as it is. *)
Definition Patch : Type := gmap string string.
Definition Relationships : Type := gmap string (option string).

Definition GetRelationship (obj : Relationships) (name : string) :
    option (option string) :=
  obj !! name.

Definition ResourceIdentifier (rel : option string) : option string := rel.

Definition setDirID (patch : Patch) (id : string) : Patch := <["dir_id" := id]> patch.

Definition patch_h (X : Type) (e : files_io.filesE Patch Relationships X) (w : World) :
    X * World :=
  match e in files_io.filesE _ _ X return X * World with
  | files_io.Bind body => (Ok (∅, {[ "name" := "renamed.txt" ]}), w)
  | files_io.GetFileDoc fileID => (GetFileDoc w fileID, w)
  | files_io.GetFileDocFromPath path => (Err (OsErr os_ErrNotExist), w)
  | files_io.GetDirDoc fileID _ =>
      (match parent_exists w fileID with
       | Some dir => Ok dir
       | None => Err (OsErr os_ErrNotExist)
       end, w)
  | files_io.GetDirOrFileDoc fileID _ => (GetDirOrFileDoc w fileID, w)
  | files_io.GetDirOrFileDocFromPath path _ => (Err (OsErr os_ErrNotExist), w)
  | files_io.ModifyFileMetadata olddoc _ => (Ok olddoc, w)
  | files_io.ModifyDirMetadata olddoc _ => (Ok olddoc, w)
  | files_io.ServeFileContent _ _ => (None, w)
  end.

(** A stand-in for package [net/url]: a URL is a host with a path, every
    field parses as a host, and the text of a URL is "https://", the host and
    the path. *)
Definition url_Parse (s : string) : option (string * string) := Some (s, EmptyString).
Definition setScheme (u : string * string) (scheme : string) : string * string := u.
Definition URL_Path (u : string * string) : string := u.2.
Definition setPath (u : string * string) (path : string) : string * string := (u.1, path).
Definition URL_String (u : string * string) : string := "https://" +:+ u.1 +:+ u.2.

(** A configuration whose defaults have a whitelist, and whose scripts have
    sources of their own and none. *)
Definition conf : middlewares.SecureConfig :=
  {| middlewares.HSTSMaxAge := 63072000 * 10 ^ 9;
     middlewares.CSPDefaultSrc := [middlewares.CSPSrcSelf];
     middlewares.CSPScriptSrc := [middlewares.CSPSrcParent];
     middlewares.CSPFrameSrc := [];
     middlewares.CSPConnectSrc := [];
     middlewares.CSPFontSrc := [];
     middlewares.CSPImgSrc := [];
     middlewares.CSPManifestSrc := [];
     middlewares.CSPMediaSrc := [];
     middlewares.CSPObjectSrc := [];
     middlewares.CSPStyleSrc := [];
     middlewares.CSPWorkerSrc := [];
     middlewares.CSPDefaultSrcWhitelist := "piwik.cozycloud.cc";
     middlewares.CSPScriptSrcWhitelist := EmptyString;
     middlewares.CSPFrameSrcWhitelist := EmptyString;
     middlewares.CSPConnectSrcWhitelist := EmptyString;
     middlewares.CSPFontSrcWhitelist := EmptyString;
     middlewares.CSPImgSrcWhitelist := EmptyString;
     middlewares.CSPManifestSrcWhitelist := EmptyString;
     middlewares.CSPMediaSrcWhitelist := EmptyString;
     middlewares.CSPObjectSrcWhitelist := EmptyString;
     middlewares.CSPStyleSrcWhitelist := EmptyString;
     middlewares.CSPWorkerSrcWhitelist := EmptyString;
     middlewares.XFrameOptions := "DENY";
     middlewares.XFrameAllowed := EmptyString |}.

End sample.

(** * Properties *)

(** ** Bytes and strings *)

Lemma byte_val_range (c : ascii) : 0 <= byte_val c < 256.
Proof.
  unfold byte_val. pose proof (N_ascii_bounded c). lia.
Qed.

Lemma byte_of_val (c : ascii) : byte_of (byte_val c) = c.
Proof.
  unfold byte_of. pose proof (byte_val_range c) as H.
  rewrite Z.mod_small by lia. unfold byte_val.
  rewrite N2Z.id. apply ascii_N_embedding.
Qed.

Lemma str_nonempty_false (s : string) : str_nonempty s = false <-> s = EmptyString.
Proof. destruct s; simpl; split; congruence. Qed.

Lemma str_nonempty_true (s : string) : str_nonempty s = true <-> s <> EmptyString.
Proof. destruct s; simpl; split; congruence. Qed.

(** ** [strings.Index] on a separator of one byte *)

Lemma index_one_byte (c : ascii) (s : string) :
  match String.index 0 (String c EmptyString) s with
  | Some i =>
      (i <= String.length s)%nat /\ String.substring 0 i s = before_first c s
      /\ occurs c s = true
  | None => before_first c s = s /\ occurs c s = false
  end.
Proof.
  induction s as [|a s IH]; simpl.
  - done.
  - destruct (ascii_dec c a) as [->|Hne].
    + destruct s; simpl; rewrite Ascii.eqb_refl; repeat split; lia.
    + assert (Hab : Ascii.eqb a c = false) by (apply Ascii.eqb_neq; congruence).
      rewrite Hab. simpl.
      destruct (String.index 0 (String c EmptyString) s) as [i|].
      * destruct IH as (Hi & Hsub & Hocc). simpl. rewrite Hsub.
        split; [lia | by split].
      * destruct IH as (Hb & Hocc). rewrite Hb. done.
Qed.

Lemma before_first_prefix (c : ascii) (s : string) :
  occurs c (before_first c s) = false
  /\ (if occurs c s
      then exists rest, s = before_first c s +:+ String c rest
      else before_first c s = s).
Proof.
  induction s as [|a s [IH1 IH2]]; simpl; [done|].
  destruct (Ascii.eqb a c) eqn:Hac; simpl.
  - apply Ascii.eqb_eq in Hac as ->. split; [done|]. by exists s.
  - rewrite Hac. simpl. split; [done|].
    destruct (occurs c s).
    + destruct IH2 as [rest Hrest]. exists rest. by rewrite Hrest at 1.
    + by rewrite IH2.
Qed.

(** ** The mime type and the class of a content type *)

Lemma slice_before_first (c : ascii) (s : string) :
  (if 0 <=? strings.Index s (String c EmptyString)
   then strings.slice_to s (strings.Index s (String c EmptyString))
   else Some s) = Some (before_first c s).
Proof.
  unfold strings.Index, strings.slice_to, len.
  pose proof (index_one_byte c s) as H.
  destruct (String.index 0 (String c EmptyString) s) as [i|].
  - destruct H as (Hi & Hsub & _).
    rewrite Nat2Z.id, Hsub.
    replace (0 <=? Z.of_nat i) with true by (symmetry; apply Z.leb_le; lia).
    replace (Z.of_nat i <=? Z.of_nat (String.length s)) with true
      by (symmetry; apply Z.leb_le; lia).
    reflexivity.
  - destruct H as (-> & _). reflexivity.
Qed.

(** C10: [extractMimeAndClass] never panics; its mime is what comes before the
    first ";" of the content type and its class what comes before the first
    "/", both the whole string when the byte is absent, and an empty content
    type is read as "application/octet-stream", of class "application". *)
Theorem extractMimeAndClass_total (contentType : string) :
  let effective :=
    if str_nonempty contentType then contentType else DefaultContentType in
  extractMimeAndClass contentType
    = Some (before_first ";" effective, before_first "/" effective)
  /\ extractMimeAndClass EmptyString
     = Some ("application/octet-stream"%string, "application"%string).
Proof.
  split; [|reflexivity].
  unfold extractMimeAndClass.
  set (ct := if str_nonempty contentType then contentType else DefaultContentType).
  rewrite (slice_before_first ";" ct), (slice_before_first "/" ct).
  reflexivity.
Qed.

(** ** The error wrapping *)

(** C6 (amended): [wrapVfsError] turns every sentinel error of the vfs into a
    [*jsonapi.Error] built from it, of a kind fixed by the sentinel; the
    errors about one field of the request name it ("name", "Content-MD5",
    "Content-Length", "dir-id", "UpdatedAt", and "type" for an invalid
    document type), the others (conflict, not found, bad request) name
    none. *)
Theorem wrapVfsError_kind_and_field :
  (forall k : VfsError,
     exists je, files.wrapVfsError (VfsErr k) = JsonapiErr je
                /\ jsonapi.cause je = VfsErr k)
  /\ files.wrapVfsError (VfsErr ErrIllegalFilename)
     = JsonapiErr (InvalidParameter "name" (VfsErr ErrIllegalFilename))
  /\ files.wrapVfsError (VfsErr ErrInvalidHash)
     = JsonapiErr (PreconditionFailed "Content-MD5" (VfsErr ErrInvalidHash))
  /\ files.wrapVfsError (VfsErr ErrContentLengthMismatch)
     = JsonapiErr (PreconditionFailed "Content-Length" (VfsErr ErrContentLengthMismatch))
  /\ files.wrapVfsError (VfsErr ErrForbiddenDocMove)
     = JsonapiErr (PreconditionFailed "dir-id" (VfsErr ErrForbiddenDocMove))
  /\ files.wrapVfsError (VfsErr ErrIllegalTime)
     = JsonapiErr (InvalidParameter "UpdatedAt" (VfsErr ErrIllegalTime))
  /\ files.wrapVfsError ErrDocTypeInvalid
     = JsonapiErr (InvalidAttribute "type" ErrDocTypeInvalid)
  /\ files.wrapVfsError (VfsErr ErrConflict) = JsonapiErr (Conflict (VfsErr ErrConflict))
  /\ files.wrapVfsError (VfsErr ErrParentDoesNotExist)
     = JsonapiErr (NotFound (VfsErr ErrParentDoesNotExist))
  /\ files.wrapVfsError (VfsErr ErrFileInTrash)
     = JsonapiErr (BadRequest (VfsErr ErrFileInTrash))
  /\ files.wrapVfsError (VfsErr ErrNonAbsolutePath)
     = JsonapiErr (BadRequest (VfsErr ErrNonAbsolutePath))
  /\ files.wrapVfsError (VfsErr ErrDirNotEmpty)
     = JsonapiErr (BadRequest (VfsErr ErrDirNotEmpty)).
Proof.
  split; [|repeat split].
  intros k. destruct k; eexists; split; reflexivity.
Qed.

(** C6, as stated, fails: the wrapped [ErrFileInTrash] names no field. *)
Lemma wrapVfsError_without_field :
  files.wrapVfsError (VfsErr ErrFileInTrash)
  = JsonapiErr (BadRequest (VfsErr ErrFileInTrash))
  /\ jsonapi.field (BadRequest (VfsErr ErrFileInTrash)) = None.
Proof. split; reflexivity. Qed.

(** ** The revision precondition *)

Lemma checkIfMatch_expected (c : EchoContext) (rev : string) :
  files.checkIfMatch c rev
  = if str_nonempty (expected_revision c) && negb (String.eqb rev (expected_revision c))
    then Some (JsonapiErr
                 (PreconditionFailed "If-Match" (ErrorString "Revision does not match.")))
    else None.
Proof.
  unfold files.checkIfMatch, expected_revision.
  destruct (str_nonempty (Header_Get c "If-Match")) eqn:Hm; simpl.
  - rewrite Hm. simpl. rewrite andb_false_r. simpl. rewrite Hm. reflexivity.
  - rewrite andb_true_r. destruct (str_nonempty (QueryParam c "rev")) eqn:Hq; simpl.
    + rewrite Hq. reflexivity.
    + reflexivity.
Qed.

(** ** [strconv.ParseInt] in base 10 *)

Lemma digit_val_base10 (c : ascii) :
  match strconv.digit_val (byte_val c) with
  | Some d => if 10 <=? d then digit_of c = None else digit_of c = Some d
  | None => digit_of c = None
  end.
Proof.
  unfold strconv.digit_val, digit_of.
  destruct ((48 <=? byte_val c) && (byte_val c <=? 57)) eqn:Hd.
  - apply andb_true_iff in Hd as [H1%Z.leb_le H2%Z.leb_le].
    replace (10 <=? byte_val c - 48) with false by (symmetry; apply Z.leb_gt; lia).
    reflexivity.
  - destruct ((97 <=? strconv.lower (byte_val c)) && (strconv.lower (byte_val c) <=? 122)) eqn:Hl.
    + apply andb_true_iff in Hl as [H1%Z.leb_le H2%Z.leb_le].
      replace (10 <=? strconv.lower (byte_val c) - 97 + 10) with true
        by (symmetry; apply Z.leb_le; lia).
      reflexivity.
    + reflexivity.
Qed.

Lemma digit_of_range (c : ascii) (d : Z) : digit_of c = Some d -> 0 <= d <= 9.
Proof.
  unfold digit_of.
  destruct ((48 <=? byte_val c) && (byte_val c <=? 57)) eqn:Hd; [|done].
  apply andb_true_iff in Hd as [H1%Z.leb_le H2%Z.leb_le].
  intros [= <-]. lia.
Qed.

Lemma digits_value_ge (s : string) (acc v : Z) :
  0 <= acc -> digits_value s acc = Some v -> acc <= v.
Proof.
  revert acc. induction s as [|c s IH]; simpl; intros acc Hacc.
  - intros [= <-]. lia.
  - destruct (digit_of c) as [d|] eqn:Hd; [|done].
    apply digit_of_range in Hd. intros Hv. apply IH in Hv; lia.
Qed.

(** The loop of [ParseUint] computes the value of the digits, and reports
    every overflow of 64 bits and every byte that is not a digit. *)
Lemma parseUint_loop_10 (s : string) (n : Z) :
  0 <= n <= strconv.maxUint64 ->
  match digits_value s n with
  | Some v =>
      strconv.parseUint_loop 10 s n
      = if v <=? strconv.maxUint64 then (v, None)
        else (strconv.maxUint64, Some strconv.ErrRange)
  | None =>
      strconv.parseUint_loop 10 s n = (0, Some strconv.ErrSyntax)
      \/ strconv.parseUint_loop 10 s n = (strconv.maxUint64, Some strconv.ErrRange)
  end.
Proof.
  revert n. induction s as [|c s IH]; intros n Hn;
    cbn [strconv.parseUint_loop digits_value].
  - replace (n <=? strconv.maxUint64) with true by (symmetry; apply Z.leb_le; lia).
    reflexivity.
  - pose proof (digit_val_base10 c) as Hc.
    destruct (strconv.digit_val (byte_val c)) as [d|]; [|rewrite Hc; by left].
    destruct (10 <=? d) eqn:Hbase; rewrite Hc; [by left|].
    pose proof (digit_of_range c d Hc) as Hd.
    assert (Hbig : strconv.maxUint64 < n * 10 + d ->
              match digits_value s (n * 10 + d) with
              | Some v =>
                  (strconv.maxUint64, Some strconv.ErrRange)
                  = (if v <=? strconv.maxUint64 then (v, None)
                     else (strconv.maxUint64, Some strconv.ErrRange))
              | None =>
                  (strconv.maxUint64, Some strconv.ErrRange) = (0, Some strconv.ErrSyntax)
                  \/ (strconv.maxUint64, Some strconv.ErrRange)
                     = (strconv.maxUint64, Some strconv.ErrRange)
              end).
    { intros Hgt. destruct (digits_value s (n * 10 + d)) as [v|] eqn:Hv; [|by right].
      apply digits_value_ge in Hv; [|lia].
      replace (v <=? strconv.maxUint64) with false; [done|].
      symmetry. apply Z.leb_gt. lia. }
    change (strconv.maxUint64 / 10 + 1) with 1844674407370955162.
    destruct (1844674407370955162 <=? n) eqn:Hcut.
    + apply Z.leb_le in Hcut. apply Hbig. unfold strconv.maxUint64. lia.
    + apply Z.leb_gt in Hcut.
      assert (Hw1 : wrap64 (n * 10) = n * 10)
        by (unfold wrap64; apply Z.mod_small; lia).
      rewrite Hw1.
      destruct (Z_lt_le_dec (n * 10 + d) (2 ^ 64)) as [Hfit|Hover].
      * assert (Hw2 : wrap64 (n * 10 + d) = n * 10 + d)
          by (unfold wrap64; apply Z.mod_small; lia).
        rewrite Hw2.
        replace (n * 10 + d <? n * 10) with false by (symmetry; apply Z.ltb_ge; lia).
        replace (strconv.maxUint64 <? n * 10 + d) with false
          by (symmetry; apply Z.ltb_ge; unfold strconv.maxUint64; lia).
        cbn [orb]. apply IH. unfold strconv.maxUint64. lia.
      * assert (Hw2 : wrap64 (n * 10 + d) = n * 10 + d - 2 ^ 64).
        { unfold wrap64. symmetry. apply Z.mod_unique with (q := 1); lia. }
        rewrite Hw2.
        replace (n * 10 + d - 2 ^ 64 <? n * 10) with true
          by (symmetry; apply Z.ltb_lt; lia).
        cbn [orb]. apply Hbig. unfold strconv.maxUint64. lia.
Qed.

Lemma digits_value_nonneg (s : string) (v : Z) : digits_value s 0 = Some v -> 0 <= v.
Proof. apply digits_value_ge. lia. Qed.

Lemma ParseUint_10 (s : string) :
  str_nonempty s = true ->
  match digits_value s 0 with
  | Some v =>
      strconv.ParseUint s 10
      = if v <=? strconv.maxUint64 then (v, None)
        else (strconv.maxUint64, Some strconv.ErrRange)
  | None =>
      strconv.ParseUint s 10 = (0, Some strconv.ErrSyntax)
      \/ strconv.ParseUint s 10 = (strconv.maxUint64, Some strconv.ErrRange)
  end.
Proof.
  intros Hs. destruct s as [|c s]; [done|].
  unfold strconv.ParseUint. apply parseUint_loop_10. unfold strconv.maxUint64. lia.
Qed.

(** What [ParseInt] does after the sign is taken off. *)
Lemma check_range_signed (neg : bool) (digits : string) :
  match signed_value neg digits with
  | Some v => strconv.check_range neg (strconv.ParseUint digits 10) = (v, None)
  | None => exists z e, strconv.check_range neg (strconv.ParseUint digits 10) = (z, Some e)
  end.
Proof.
  unfold signed_value.
  destruct (str_nonempty digits) eqn:Hne; cbn [negb].
  2:{ apply str_nonempty_false in Hne as ->. by eexists _, _. }
  pose proof (ParseUint_10 digits Hne) as HU.
  destruct (digits_value digits 0) as [v|] eqn:Hv.
  - pose proof (digits_value_nonneg _ _ Hv) as Hpos.
    rewrite HU. cbv zeta.
    destruct (Z.leb_spec v strconv.maxUint64) as [Hle|Hgt]; unfold strconv.check_range.
    + destruct neg; cbn [negb andb].
      * destruct (Z.ltb_spec (2 ^ 63) v).
        -- replace ((- 2 ^ 63 <=? - v) && (- v <=? 2 ^ 63 - 1)) with false
             by (symmetry; apply andb_false_iff; left; apply Z.leb_gt; lia).
           by eexists _, _.
        -- replace ((- 2 ^ 63 <=? - v) && (- v <=? 2 ^ 63 - 1)) with true; [done|].
           symmetry. apply andb_true_iff. split; apply Z.leb_le; lia.
      * destruct (Z.leb_spec (2 ^ 63) v).
        -- replace ((- 2 ^ 63 <=? v) && (v <=? 2 ^ 63 - 1)) with false
             by (symmetry; apply andb_false_iff; right; apply Z.leb_gt; lia).
           by eexists _, _.
        -- replace ((- 2 ^ 63 <=? v) && (v <=? 2 ^ 63 - 1)) with true; [done|].
           symmetry. apply andb_true_iff. split; apply Z.leb_le; lia.
    + unfold strconv.maxUint64 in *.
      destruct neg; cbn [negb andb].
      * replace ((- 2 ^ 63 <=? - v) && (- v <=? 2 ^ 63 - 1)) with false
          by (symmetry; apply andb_false_iff; left; apply Z.leb_gt; lia).
        by eexists _, _.
      * replace ((- 2 ^ 63 <=? v) && (v <=? 2 ^ 63 - 1)) with false
          by (symmetry; apply andb_false_iff; right; apply Z.leb_gt; lia).
        by eexists _, _.
  - destruct HU as [-> | ->]; unfold strconv.check_range.
    + by eexists _, _.
    + destruct neg; cbn; by eexists _, _.
Qed.

Lemma ParseInt_decimal (s : string) :
  match decimal_int64 s with
  | Some v => strconv.ParseInt s 10 = (v, None)
  | None => exists z e, strconv.ParseInt s 10 = (z, Some e)
  end.
Proof.
  destruct s as [|c tl]; cbn [decimal_int64 strconv.ParseInt].
  - by eexists _, _.
  - destruct (Ascii.eqb c "+"); [apply check_range_signed|].
    destruct (Ascii.eqb c "-"); apply check_range_signed.
Qed.

(** ** The declared content length *)

(** C5 (amended): [parseContentLength] returns -1 for the empty header; for a
    header that is not empty it returns the decimal integer of 64 bits the
    header spells (so -1 again for the header "-1"), and the error "Invalid
    content length" when the header spells none; [fileDocFromReq] reports
    that error as an invalid parameter named "Content-Length". *)
Theorem parseContentLength_decimal (contentLength : string) :
  files.parseContentLength EmptyString = (-1, None)
  /\ (if str_nonempty contentLength
      then match decimal_int64 contentLength with
           | Some v => files.parseContentLength contentLength = (v, None)
           | None =>
               snd (files.parseContentLength contentLength)
               = Some (ErrorString "Invalid content length")
           end
      else files.parseContentLength contentLength = (-1, None))
  /\ (forall (c : EchoContext) (name dirID : string) (tags : list string),
        Header_Get c "Content-Length" = contentLength ->
        str_nonempty contentLength = true ->
        decimal_int64 contentLength = None ->
        files.fileDocFromReq c name dirID tags
        = Ret (Err (JsonapiErr
                      (InvalidParameter "Content-Length"
                         (ErrorString "Invalid content length"))))).
Proof.
  assert (Hbad : str_nonempty contentLength = true ->
                 decimal_int64 contentLength = None ->
                 exists z, files.parseContentLength contentLength
                           = (z, Some (ErrorString "Invalid content length"))).
  { intros Hne Hdec. unfold files.parseContentLength. rewrite Hne. cbn [negb].
    pose proof (ParseInt_decimal contentLength) as HP. rewrite Hdec in HP.
    destruct HP as (z & e & ->). by exists z. }
  split; [reflexivity|]. split.
  - destruct (str_nonempty contentLength) eqn:Hne.
    + destruct (decimal_int64 contentLength) as [v|] eqn:Hdec.
      * unfold files.parseContentLength. rewrite Hne. cbn [negb].
        pose proof (ParseInt_decimal contentLength) as HP. rewrite Hdec in HP.
        by rewrite HP.
      * destruct (Hbad eq_refl eq_refl) as [z ->]. reflexivity.
    + unfold files.parseContentLength. by rewrite Hne.
  - intros c name dirID tags Hhdr Hne Hdec.
    destruct (Hbad Hne Hdec) as [z Hz].
    unfold files.fileDocFromReq. rewrite Hhdr, Hz. reflexivity.
Qed.

(** C5, as stated, fails: the header "-1" is not empty and gives -1 as
    well. *)
Lemma parseContentLength_minus_one :
  files.parseContentLength "-1" = (-1, None) /\ str_nonempty "-1" = true.
Proof. split; reflexivity. Qed.

(** ** Base64: the arithmetic of a quantum *)

Lemma lor_disjoint_add (a b k : Z) :
  0 <= k -> 0 <= b < 2 ^ k -> Z.lor (a * 2 ^ k) b = a * 2 ^ k + b.
Proof.
  intros Hk Hb. symmetry. apply Z.add_nocarry_lor.
  apply Z.bits_inj'. intros n Hn.
  rewrite Z.land_spec, Z.bits_0.
  destruct (Z_lt_le_dec n k) as [Hlt|Hge].
  - rewrite Z.mul_pow2_bits_low by lia. reflexivity.
  - destruct (Z.eq_dec b 0) as [->|Hb0].
    + rewrite Z.bits_0. apply andb_false_r.
    + rewrite (Z.bits_above_log2 b n); [apply andb_false_r | lia |].
      assert (Z.log2 b < k) by (apply Z.log2_lt_pow2; lia). lia.
Qed.

(** Three bytes as one value of 24 bits, and the four values of 6 bits it is
    cut into. *)
Lemma quantum_value (b0 b1 b2 : Z) :
  0 <= b0 < 256 -> 0 <= b1 < 256 -> 0 <= b2 < 256 ->
  Z.lor (Z.lor (Z.shiftl b0 16) (Z.shiftl b1 8)) b2 = b0 * 65536 + b1 * 256 + b2.
Proof.
  intros H0 H1 H2.
  rewrite !Z.shiftl_mul_pow2 by lia.
  rewrite (lor_disjoint_add b0 (b1 * 2 ^ 8) 16) by lia.
  replace (b0 * 2 ^ 16 + b1 * 2 ^ 8) with ((b0 * 256 + b1) * 2 ^ 8) by lia.
  rewrite lor_disjoint_add by lia. lia.
Qed.

Lemma sextet_value (d0 d1 d2 d3 : Z) :
  0 <= d0 < 64 -> 0 <= d1 < 64 -> 0 <= d2 < 64 -> 0 <= d3 < 64 ->
  Z.lor (Z.lor (Z.lor (Z.shiftl d0 18) (Z.shiftl d1 12)) (Z.shiftl d2 6)) d3
  = d0 * 262144 + d1 * 4096 + d2 * 64 + d3.
Proof.
  intros H0 H1 H2 H3.
  rewrite !Z.shiftl_mul_pow2 by lia.
  rewrite (lor_disjoint_add d0 (d1 * 2 ^ 12) 18) by lia.
  replace (d0 * 2 ^ 18 + d1 * 2 ^ 12) with ((d0 * 64 + d1) * 2 ^ 12) by lia.
  rewrite (lor_disjoint_add _ (d2 * 2 ^ 6) 12) by lia.
  replace ((d0 * 64 + d1) * 2 ^ 12 + d2 * 2 ^ 6)
    with (((d0 * 64 + d1) * 64 + d2) * 2 ^ 6) by lia.
  rewrite lor_disjoint_add by lia. lia.
Qed.

Lemma sextet_of (val k : Z) :
  0 <= k -> Z.land (Z.shiftr val k) 63 = (val / 2 ^ k) mod 64.
Proof.
  intros Hk. rewrite Z.shiftr_div_pow2 by lia.
  change 63 with (Z.ones 6). by rewrite Z.land_ones by lia.
Qed.

Lemma sextet_low (val : Z) : Z.land val 63 = val mod 64.
Proof. change 63 with (Z.ones 6). by rewrite Z.land_ones by lia. Qed.

Lemma byte_of_eq (z : Z) (c : ascii) : z mod 256 = byte_val c -> byte_of z = c.
Proof.
  intros Hz. unfold byte_of. rewrite Hz. unfold byte_val.
  rewrite N2Z.id. apply ascii_N_embedding.
Qed.

(** ** Base64: the alphabet *)

Lemma alphabet_check :
  forallb (fun n =>
             let c := base64.encode (Z.of_nat n) in
             negb (base64.is_newline c) && negb (Ascii.eqb c base64.padChar)
             && (base64.decodeMap c =? Z.of_nat n))
    (seq 0 64) = true.
Proof. vm_compute. reflexivity. Qed.

Lemma alphabet_facts (v : Z) :
  0 <= v < 64 ->
  base64.is_newline (base64.encode v) = false
  /\ Ascii.eqb (base64.encode v) base64.padChar = false
  /\ base64.decodeMap (base64.encode v) = v.
Proof.
  intros Hv.
  pose proof alphabet_check as H.
  rewrite forallb_forall in H.
  specialize (H (Z.to_nat v)).
  rewrite Z2Nat.id in H by lia.
  assert (Hin : In (Z.to_nat v) (seq 0 64)) by (apply in_seq; lia).
  apply H in Hin. cbv zeta in Hin.
  apply andb_true_iff in Hin as [Hin Hd].
  apply andb_true_iff in Hin as [Hn Hp].
  apply negb_true_iff in Hn, Hp. apply Z.eqb_eq in Hd. done.
Qed.

Lemma padChar_facts :
  base64.is_newline base64.padChar = false /\ base64.decodeMap base64.padChar = 255.
Proof. split; reflexivity. Qed.

(** ** Base64: decoding what was encoded *)

Lemma sextets_range (val : Z) :
  0 <= (val / 2 ^ 18) mod 64 < 64 /\ 0 <= (val / 2 ^ 12) mod 64 < 64
  /\ 0 <= (val / 2 ^ 6) mod 64 < 64 /\ 0 <= val mod 64 < 64.
Proof. repeat split; apply Z.mod_pos_bound; lia. Qed.

Lemma sextets_sum (val : Z) :
  0 <= val < 2 ^ 24 ->
  (val / 2 ^ 18) mod 64 * 262144 + (val / 2 ^ 12) mod 64 * 4096
  + (val / 2 ^ 6) mod 64 * 64 + val mod 64 = val.
Proof.
  intros Hval.
  change (2 ^ 18) with 262144. change (2 ^ 12) with 4096. change (2 ^ 6) with 64.
  change (2 ^ 24) with 16777216 in Hval.
  Z.div_mod_to_equations. lia.
Qed.

Lemma bytes_of_value (b0 b1 b2 : Z) :
  0 <= b0 < 256 -> 0 <= b1 < 256 -> 0 <= b2 < 256 ->
  Z.shiftr (b0 * 65536 + b1 * 256 + b2) 16 mod 256 = b0
  /\ Z.shiftr (b0 * 65536 + b1 * 256 + b2) 8 mod 256 = b1
  /\ (b0 * 65536 + b1 * 256 + b2) mod 256 = b2.
Proof.
  intros H0 H1 H2. rewrite !Z.shiftr_div_pow2 by lia.
  change (2 ^ 16) with 65536. change (2 ^ 8) with 256.
  repeat split; Z.div_mod_to_equations; lia.
Qed.

Ltac alphabet v :=
  let H := fresh "Halpha" in
  pose proof (alphabet_facts v ltac:(lia)) as H;
  destruct H as (? & ? & ?).

Lemma decode_quantum3 (a b c : ascii) (rest : list ascii) :
  let val := Z.lor (Z.lor (Z.shiftl (byte_val a) 16) (Z.shiftl (byte_val b) 8))
               (byte_val c) in
  base64.decode (base64.encode (Z.land (Z.shiftr val 18) 63)
                   :: base64.encode (Z.land (Z.shiftr val 12) 63)
                   :: base64.encode (Z.land (Z.shiftr val 6) 63)
                   :: base64.encode (Z.land val 63) :: rest)
  = match base64.decode rest with
    | Some out => Some (a :: b :: c :: out)
    | None => None
    end.
Proof.
  intros val.
  pose proof (byte_val_range a) as Ha. pose proof (byte_val_range b) as Hb.
  pose proof (byte_val_range c) as Hc.
  assert (Hval : val = byte_val a * 65536 + byte_val b * 256 + byte_val c)
    by (apply quantum_value; lia).
  rewrite !sextet_of, sextet_low by lia.
  destruct (sextets_range val) as (R0 & R1 & R2 & R3).
  pose proof (sextets_sum val ltac:(lia)) as Hsum.
  set (s0 := (val / 2 ^ 18) mod 64) in *. set (s1 := (val / 2 ^ 12) mod 64) in *.
  set (s2 := (val / 2 ^ 6) mod 64) in *. set (s3 := val mod 64) in *.
  alphabet s0. alphabet s1. alphabet s2. alphabet s3.
  cbn [base64.decode].
  repeat match goal with
         | H : base64.decodeMap _ = _ |- _ => rewrite H
         | H : Ascii.eqb _ base64.padChar = false |- _ => rewrite H
         end.
  replace (s0 =? 255) with false by (symmetry; apply Z.eqb_neq; lia).
  replace (s1 =? 255) with false by (symmetry; apply Z.eqb_neq; lia).
  replace (s2 =? 255) with false by (symmetry; apply Z.eqb_neq; lia).
  replace (s3 =? 255) with false by (symmetry; apply Z.eqb_neq; lia).
  cbn [orb].
  rewrite sextet_value by lia. rewrite Hsum, Hval.
  destruct (bytes_of_value (byte_val a) (byte_val b) (byte_val c)) as (B0 & B1 & B2);
    [lia..|].
  rewrite (byte_of_eq _ a B0), (byte_of_eq _ b B1), (byte_of_eq _ c B2).
  reflexivity.
Qed.

Lemma decode_quantum1 (a : ascii) :
  let val := Z.shiftl (byte_val a) 16 in
  base64.decode [base64.encode (Z.land (Z.shiftr val 18) 63);
                 base64.encode (Z.land (Z.shiftr val 12) 63);
                 base64.padChar; base64.padChar]
  = Some [a].
Proof.
  intros val.
  pose proof (byte_val_range a) as Ha.
  assert (Hval : val = byte_val a * 65536)
    by (unfold val; rewrite Z.shiftl_mul_pow2 by lia; lia).
  rewrite !sextet_of by lia.
  destruct (sextets_range val) as (R0 & R1 & _ & _).
  set (s0 := (val / 2 ^ 18) mod 64) in *. set (s1 := (val / 2 ^ 12) mod 64) in *.
  alphabet s0. alphabet s1.
  cbn [base64.decode].
  repeat match goal with
         | H : base64.decodeMap _ = _ |- _ => rewrite H
         end.
  replace (s0 =? 255) with false by (symmetry; apply Z.eqb_neq; lia).
  replace (s1 =? 255) with false by (symmetry; apply Z.eqb_neq; lia).
  rewrite Ascii.eqb_refl. cbn [orb].
  do 2 f_equal. apply byte_of_eq.
  rewrite !Z.shiftl_mul_pow2 by lia.
  rewrite (lor_disjoint_add s0 (s1 * 2 ^ 12) 18) by lia.
  rewrite Z.shiftr_div_pow2 by lia.
  subst s0 s1. rewrite Hval.
  change (2 ^ 18) with 262144. change (2 ^ 12) with 4096. change (2 ^ 16) with 65536.
  Z.div_mod_to_equations. lia.
Qed.

Lemma decode_quantum2 (a b : ascii) :
  let val := Z.lor (Z.shiftl (byte_val a) 16) (Z.shiftl (byte_val b) 8) in
  base64.decode [base64.encode (Z.land (Z.shiftr val 18) 63);
                 base64.encode (Z.land (Z.shiftr val 12) 63);
                 base64.encode (Z.land (Z.shiftr val 6) 63);
                 base64.padChar]
  = Some [a; b].
Proof.
  intros val.
  pose proof (byte_val_range a) as Ha. pose proof (byte_val_range b) as Hb.
  assert (Hval : val = byte_val a * 65536 + byte_val b * 256).
  { unfold val. rewrite !Z.shiftl_mul_pow2 by lia.
    rewrite (lor_disjoint_add (byte_val a) (byte_val b * 2 ^ 8) 16) by lia. lia. }
  rewrite !sextet_of by lia.
  destruct (sextets_range val) as (R0 & R1 & R2 & _).
  set (s0 := (val / 2 ^ 18) mod 64) in *. set (s1 := (val / 2 ^ 12) mod 64) in *.
  set (s2 := (val / 2 ^ 6) mod 64) in *.
  alphabet s0. alphabet s1. alphabet s2.
  cbn [base64.decode].
  repeat match goal with
         | H : base64.decodeMap _ = _ |- _ => rewrite H
         | H : Ascii.eqb _ base64.padChar = false |- _ => rewrite H
         end.
  replace (s0 =? 255) with false by (symmetry; apply Z.eqb_neq; lia).
  replace (s1 =? 255) with false by (symmetry; apply Z.eqb_neq; lia).
  replace (s2 =? 255) with false by (symmetry; apply Z.eqb_neq; lia).
  rewrite Ascii.eqb_refl. cbn [orb].
  assert (Hsum : Z.lor (Z.lor (Z.shiftl s0 18) (Z.shiftl s1 12)) (Z.shiftl s2 6) = val).
  { rewrite !Z.shiftl_mul_pow2 by lia.
    rewrite (lor_disjoint_add s0 (s1 * 2 ^ 12) 18) by lia.
    replace (s0 * 2 ^ 18 + s1 * 2 ^ 12) with ((s0 * 64 + s1) * 2 ^ 12) by lia.
    rewrite (lor_disjoint_add _ (s2 * 2 ^ 6) 12) by lia.
    subst s0 s1 s2. rewrite Hval.
    change (2 ^ 18) with 262144. change (2 ^ 12) with 4096. change (2 ^ 6) with 64.
    Z.div_mod_to_equations. lia. }
  rewrite Hsum, Hval.
  destruct (bytes_of_value (byte_val a) (byte_val b) 0) as (B0 & B1 & _); [lia..|].
  rewrite Z.add_0_r in B0, B1.
  by rewrite (byte_of_eq _ a B0), (byte_of_eq _ b B1).
Qed.

Lemma list_ind3 {A : Type} (P : list A -> Prop) :
  P [] -> (forall a, P [a]) -> (forall a b, P [a; b]) ->
  (forall a b c l, P l -> P (a :: b :: c :: l)) ->
  forall l, P l.
Proof.
  intros H0 H1 H2 H3 l.
  assert (H : P l /\ (forall a, P (a :: l)) /\ (forall a b, P (a :: b :: l))).
  { induction l as [|x l (IH0 & IH1 & IH2)]; [done|].
    split; [apply IH1|]. split; [intros a; apply IH2|]. intros a b. by apply H3. }
  apply H.
Qed.

(** [DecodeString] undoes [EncodeToString]. *)
Lemma DecodeString_EncodeToString (src : list ascii) :
  base64.DecodeString (base64.EncodeToString src) = Some src.
Proof.
  unfold base64.DecodeString.
  induction src as [|a|a b|a b c l IH] using list_ind3.
  - reflexivity.
  - cbn [base64.EncodeToString]. cbv zeta.
    set (val := Z.shiftl (byte_val a) 16).
    rewrite !sextet_of by lia.
    destruct (sextets_range val) as (R0 & R1 & _ & _).
    alphabet ((val / 2 ^ 18) mod 64). alphabet ((val / 2 ^ 12) mod 64).
    cbn [base64.strip_newlines].
    repeat match goal with
           | H : base64.is_newline _ = false |- _ => rewrite H
           end.
    change (base64.is_newline base64.padChar) with false. cbv iota.
    rewrite <- !sextet_of by lia. apply decode_quantum1.
  - cbn [base64.EncodeToString]. cbv zeta.
    set (val := Z.lor (Z.shiftl (byte_val a) 16) (Z.shiftl (byte_val b) 8)).
    rewrite !sextet_of by lia.
    destruct (sextets_range val) as (R0 & R1 & R2 & _).
    alphabet ((val / 2 ^ 18) mod 64). alphabet ((val / 2 ^ 12) mod 64).
    alphabet ((val / 2 ^ 6) mod 64).
    cbn [base64.strip_newlines].
    repeat match goal with
           | H : base64.is_newline _ = false |- _ => rewrite H
           end.
    change (base64.is_newline base64.padChar) with false. cbv iota.
    rewrite <- !sextet_of by lia. apply decode_quantum2.
  - cbn [base64.EncodeToString]. cbv zeta.
    set (val := Z.lor (Z.lor (Z.shiftl (byte_val a) 16) (Z.shiftl (byte_val b) 8))
                  (byte_val c)).
    rewrite !sextet_of, sextet_low by lia.
    destruct (sextets_range val) as (R0 & R1 & R2 & R3).
    alphabet ((val / 2 ^ 18) mod 64). alphabet ((val / 2 ^ 12) mod 64).
    alphabet ((val / 2 ^ 6) mod 64). alphabet (val mod 64).
    cbn [base64.strip_newlines].
    repeat match goal with
           | H : base64.is_newline _ = false |- _ => rewrite H
           end.
    rewrite <- !sextet_of, <- sextet_low by lia.
    subst val. rewrite decode_quantum3. by rewrite IH.
Qed.

Lemma EncodeToString_length (src : list ascii) :
  String.length (base64.EncodeToString src) = (4 * ((length src + 2) / 3))%nat.
Proof.
  induction src as [|a|a b|a b c l IH] using list_ind3; try reflexivity.
  cbn [base64.EncodeToString String.length length]. rewrite IH.
  replace (S (S (S (length l))) + 2)%nat with (1 * 3 + (length l + 2))%nat by lia.
  rewrite Nat.div_add_l by lia. lia.
Qed.

(** ** The declared digest *)

(** C7: [parseMD5Hash] fails or returns 16 bytes; it succeeds exactly when the
    header has 22 to 24 bytes and is the standard base64 of 16 bytes, and then
    returns what the header decodes to. *)
Theorem parseMD5Hash_sixteen_bytes (md5B64 : string) :
  match files.parseMD5Hash md5B64 with
  | Ok md5Sum =>
      length md5Sum = 16%nat /\ base64.DecodeString md5B64 = Some md5Sum
      /\ 22 <= len md5B64 <= 24
  | Err err =>
      err = ErrorString "Given Content-MD5 is invalid"
      /\ (len md5B64 < 22 \/ 24 < len md5B64
          \/ base64.DecodeString md5B64 = None
          \/ exists out, base64.DecodeString md5B64 = Some out /\ length out <> 16%nat)
  end.
Proof.
  unfold files.parseMD5Hash.
  destruct (Z.ltb_spec (len md5B64) 22) as [Hlo|Hlo]; cbn [orb].
  { split; [done | by left]. }
  destruct (Z.ltb_spec 24 (len md5B64)) as [Hhi|Hhi].
  { split; [done | right; by left]. }
  destruct (base64.DecodeString md5B64) as [out|] eqn:Hdec.
  - destruct (Z.eqb_spec (Z.of_nat (length out)) 16) as [Hlen|Hlen]; cbn [negb].
    + split; [lia|]. split; [done | lia].
    + split; [done|]. do 3 right. exists out. split; [done | lia].
  - split; [done|]. right. right. by left.
Qed.

(** C9: the base64 of a digest of 16 bytes has 24 bytes, and [parseMD5Hash]
    gives the digest back. *)
Theorem parseMD5Hash_EncodeToString (digest : list ascii) :
  length digest = 16%nat ->
  len (base64.EncodeToString digest) = 24
  /\ files.parseMD5Hash (base64.EncodeToString digest) = Ok digest.
Proof.
  intros Hlen.
  assert (H24 : len (base64.EncodeToString digest) = 24).
  { unfold len. rewrite EncodeToString_length, Hlen. reflexivity. }
  split; [done|].
  unfold files.parseMD5Hash. rewrite H24, DecodeString_EncodeToString, Hlen.
  reflexivity.
Qed.

Lemma parseMD5Hash_EncodeToString_witness :
  len (base64.EncodeToString (list_ascii_of_string "0123456789abcdef")) = 24
  /\ files.parseMD5Hash (base64.EncodeToString (list_ascii_of_string "0123456789abcdef"))
     = Ok (list_ascii_of_string "0123456789abcdef").
Proof.
  apply (parseMD5Hash_EncodeToString (list_ascii_of_string "0123456789abcdef")).
  reflexivity.
Defined.

(** ** The accepted lengths of a digest header *)

Lemma decode_length (n : nat) (src out : list ascii) :
  (length src <= n)%nat ->
  base64.decode src = Some out ->
  length src = (4 * ((length out + 2) / 3))%nat.
Proof.
  revert src out. induction n as [|n IH]; intros src out Hn.
  { destruct src; [|cbn in Hn; lia]. by intros [= <-]. }
  destruct src as [|c0 [|c1 [|c2 [|c3 rest]]]]; try done.
  { by intros [= <-]. }
  cbn [base64.decode]. cbv zeta.
  destruct ((base64.decodeMap c0 =? 255) || (base64.decodeMap c1 =? 255)); [done|].
  destruct (Ascii.eqb c2 base64.padChar).
  { destruct (Ascii.eqb c3 base64.padChar); [|done].
    destruct rest; [|done]. by intros [= <-]. }
  destruct (base64.decodeMap c2 =? 255); [done|].
  destruct (Ascii.eqb c3 base64.padChar).
  { destruct rest; [|done]. by intros [= <-]. }
  destruct (base64.decodeMap c3 =? 255); [done|].
  destruct (base64.decode rest) as [out'|] eqn:Hrest; [|done].
  intros [= <-]. cbn [length] in Hn |- *.
  rewrite (IH rest out') by (done || lia).
  replace (S (S (S (length out'))) + 2)%nat with (1 * 3 + (length out' + 2))%nat by lia.
  rewrite Nat.div_add_l by lia. lia.
Qed.

Lemma strip_newlines_length (s : string) :
  (length (base64.strip_newlines s) <= String.length s)%nat.
Proof.
  induction s as [|c s IH]; cbn; [lia|].
  destruct (base64.is_newline c); cbn; lia.
Qed.

(** A header that is accepted has 24 bytes: the lengths 22 and 23, which pass
    the first test, never decode to 16 bytes, the padding being required. *)
Lemma parseMD5Hash_accepts_24_bytes (md5B64 : string) (md5Sum : list ascii) :
  files.parseMD5Hash md5B64 = Ok md5Sum -> len md5B64 = 24.
Proof.
  unfold files.parseMD5Hash.
  destruct (Z.ltb_spec (len md5B64) 22) as [|Hlo]; [done|].
  destruct (Z.ltb_spec 24 (len md5B64)) as [|Hhi]; [done|]. cbn [orb].
  destruct (base64.DecodeString md5B64) as [out|] eqn:Hdec; [|done].
  destruct (Z.eqb_spec (Z.of_nat (length out)) 16) as [Hlen|]; [|done].
  intros _. unfold base64.DecodeString in Hdec.
  apply (decode_length _ _ _ (Nat.le_refl _)) in Hdec.
  replace (length out) with 16%nat in Hdec by lia.
  pose proof (strip_newlines_length md5B64) as Hstrip.
  change (4 * ((16 + 2) / 3))%nat with 24%nat in Hdec.
  unfold len in *. lia.
Qed.

Lemma parseMD5Hash_accepts_24_bytes_witness : len "AQIDBAUGBwgJCgsMDQ4P/w==" = 24.
Proof.
  apply (parseMD5Hash_accepts_24_bytes "AQIDBAUGBwgJCgsMDQ4P/w=="
           (map byte_of [1; 2; 3; 4; 5; 6; 7; 8; 9; 10; 11; 12; 13; 14; 15; 255])).
  reflexivity.
Defined.

(** ** Runs of the handlers, for every implementation of the calls *)

Section Runs.

Context {W : Type} (h : forall X, vfsE X -> W -> X * W).

Lemma run_bind {A B : Type} (p : prog A) (f : A -> prog B) (w : W) :
  run h (p ≫= f) w
  = let '(a, w1, t1) := run h p w in
    let '(b, w2, t2) := run h (f a) w1 in
    (b, w2, t1 ++ t2).
Proof.
  unfold mbind, prog_bind. revert w.
  induction p as [a|X e k IH]; intros w; cbn [bind run].
  - destruct (run h (f a) w) as [[b w2] t2]. reflexivity.
  - destruct (h X e w) as [x w1]. rewrite IH.
    destruct (run h (k x) w1) as [[a w2] t1].
    destruct (run h (f a) w2) as [[b w3] t2]. reflexivity.
Qed.

Lemma run_call {X : Type} (e : vfsE X) (w : W) :
  run h (call e) w = let '(x, w1) := h X e w in (x, w1, [MkCall e]).
Proof. unfold call. cbn [run]. by destruct (h X e w). Qed.

Lemma run_ret {A : Type} (a : A) (w : W) : run h (mret a) w = (a, w, []).
Proof. reflexivity. Qed.

(** The run of [fileDocFromReq]: at most one call, of the constructor. *)
Lemma run_fileDocFromReq (c : EchoContext) (name dirID : string) (tags : list string)
    (w : W) :
  (exists err, run h (files.fileDocFromReq c name dirID tags) w
               = (Err (JsonapiErr err), w, []))
  \/ (exists size md5Sum mime class,
        size = fst (files.parseContentLength (Header_Get c "Content-Length"))
        /\ (md5Sum = [] /\ Header_Get c "Content-MD5" = EmptyString
            \/ files.parseMD5Hash (Header_Get c "Content-MD5") = Ok md5Sum)
        /\ (mime, class) = files.ExtractMimeAndClass (Header_Get c "Content-Type")
        /\ let e := op.NewFileDoc name dirID size md5Sum mime class
                      (String.eqb (QueryParam c "Executable") "true") tags in
           run h (files.fileDocFromReq c name dirID tags) w
           = (fst (h _ e w), snd (h _ e w), [MkCall e])).
Proof.
  unfold files.fileDocFromReq.
  destruct (files.parseContentLength (Header_Get c "Content-Length")) as [size [err|]] eqn:Hcl.
  { left. by eexists. }
  destruct (str_nonempty (Header_Get c "Content-MD5")) eqn:Hmd5.
  - destruct (files.parseMD5Hash (Header_Get c "Content-MD5")) as [md5Sum|err] eqn:Hp.
    + right.
      destruct (files.ExtractMimeAndClass (Header_Get c "Content-Type")) as [mime class] eqn:Hm.
      exists size, md5Sum, mime, class. repeat split; [by right|].
      cbv zeta. rewrite run_call.
      by destruct (h _ _ w).
    + left. by eexists.
  - right. apply str_nonempty_false in Hmd5.
    destruct (files.ExtractMimeAndClass (Header_Get c "Content-Type")) as [mime class] eqn:Hm.
    exists size, [], mime, class. repeat split; [by left|].
    cbv zeta. rewrite run_call.
    by destruct (h _ _ w).
Qed.

End Runs.

Section Overwrite.

Context {W : Type} (h : forall X, vfsE X -> W -> X * W).

(** The run of [OverwriteFileContentHandler] once the prior document is
    loaded and the new one built. *)
Lemma run_Overwrite (c : EchoContext) (w w1 w2 : W) (olddoc newdoc : vfs.FileDoc)
    (t : list Call) :
  h _ (op.GetFileDoc (Param c "file-id")) w = (Ok olddoc, w1) ->
  run h (files.fileDocFromReq c (vfs.Name olddoc) (vfs.DirID olddoc) (vfs.Tags olddoc)) w1
  = (Ok newdoc, w2, t) ->
  run h (files.OverwriteFileContentHandler c) w
  = match files.checkIfMatch c (vfs.Rev olddoc) with
    | Some err =>
        (files.Failed (files.wrapVfsError err), w2,
         MkCall (op.GetFileDoc (Param c "file-id")) :: t)
    | None =>
        let '(r, w3) := h _ (op.CreateFile newdoc (Some olddoc)) w2 in
        match r with
        | Err err =>
            (files.Failed (files.wrapVfsError err), w3,
             MkCall (op.GetFileDoc (Param c "file-id")) :: t
               ++ [MkCall (op.CreateFile newdoc (Some olddoc))])
        | Ok file =>
            let '((file', err), w4) := h _ (op.io_Copy file (Body c)) w3 in
            let '((doc, cerr), w5) := h _ (op.Close file') w4 in
            (match files.close_error err cerr with
             | Some err => files.Failed err
             | None => files.Data 200 (FileObject doc)
             end, w5,
             MkCall (op.GetFileDoc (Param c "file-id")) :: t
               ++ [MkCall (op.CreateFile newdoc (Some olddoc));
                   MkCall (op.io_Copy file (Body c)); MkCall (op.Close file')])
        end
    end.
Proof.
  intros Hget Hdoc. unfold files.OverwriteFileContentHandler.
  rewrite run_bind, run_call, Hget. cbv iota beta.
  rewrite run_bind, Hdoc. cbv iota beta.
  destruct (files.checkIfMatch c (vfs.Rev olddoc)) as [err|].
  { rewrite run_ret. by rewrite app_nil_r. }
  rewrite run_bind, run_call.
  destruct (h _ (op.CreateFile newdoc (Some olddoc)) w2) as [[file|err] w3]; cbv iota beta.
  2:{ rewrite run_ret. by rewrite app_nil_r. }
  rewrite run_bind, run_call.
  destruct (h _ (op.io_Copy file (Body c)) w3) as [[file' err] w4]; cbv iota beta.
  rewrite run_bind, run_call.
  destruct (h _ (op.Close file') w4) as [[doc cerr] w5]; cbv iota beta.
  destruct (files.close_error err cerr); rewrite run_ret; reflexivity.
Qed.

Lemma run_Overwrite_no_document (c : EchoContext) (w w1 w2 : W) (olddoc : vfs.FileDoc)
    (err : error) (t : list Call) :
  h _ (op.GetFileDoc (Param c "file-id")) w = (Ok olddoc, w1) ->
  run h (files.fileDocFromReq c (vfs.Name olddoc) (vfs.DirID olddoc) (vfs.Tags olddoc)) w1
  = (Err err, w2, t) ->
  run h (files.OverwriteFileContentHandler c) w
  = (files.Failed (files.wrapVfsError err), w2,
     MkCall (op.GetFileDoc (Param c "file-id")) :: t).
Proof.
  intros Hget Hdoc. unfold files.OverwriteFileContentHandler.
  rewrite run_bind, run_call, Hget. cbv iota beta.
  rewrite run_bind, Hdoc. cbv iota beta.
  rewrite run_ret. by rewrite app_nil_r.
Qed.

(** The calls of [fileDocFromReq] open no blob and read no stream. *)
Lemma fileDocFromReq_calls (c : EchoContext) (name dirID : string) (tags : list string)
    (w : W) :
  existsb opens_blob (run h (files.fileDocFromReq c name dirID tags) w).2 = false
  /\ existsb reads_body (run h (files.fileDocFromReq c name dirID tags) w).2 = false.
Proof.
  destruct (run_fileDocFromReq h c name dirID tags w)
    as [[err ->] | (size & md5Sum & mime & class & _ & _ & _ & ->)]; done.
Qed.

End Overwrite.

(** ** The revision precondition of an overwrite *)

(** C1 (amended): an overwrite that comes with an expected revision (the
    [If-Match] header when it is there, the [rev] query parameter otherwise)
    other than the revision of the stored document fails, and no blob is
    opened and nothing of the content stream is read; once the document of
    the request is built the failure is the precondition-failed error named
    "If-Match", with no call after the constructor. *)
Theorem overwrite_stale_revision_fails {W : Type} (h : forall X, vfsE X -> W -> X * W)
    (c : EchoContext) (w w1 : W) (olddoc : vfs.FileDoc) :
  h _ (op.GetFileDoc (Param c "file-id")) w = (Ok olddoc, w1) ->
  str_nonempty (expected_revision c) = true ->
  expected_revision c <> vfs.Rev olddoc ->
  (exists err, (run h (files.OverwriteFileContentHandler c) w).1.1 = files.Failed err)
  /\ existsb opens_blob (run h (files.OverwriteFileContentHandler c) w).2 = false
  /\ existsb reads_body (run h (files.OverwriteFileContentHandler c) w).2 = false
  /\ (forall newdoc w2 t,
        run h (files.fileDocFromReq c (vfs.Name olddoc) (vfs.DirID olddoc)
                 (vfs.Tags olddoc)) w1 = (Ok newdoc, w2, t) ->
        run h (files.OverwriteFileContentHandler c) w
        = (files.Failed
             (JsonapiErr
                (PreconditionFailed "If-Match" (ErrorString "Revision does not match."))),
           w2, MkCall (op.GetFileDoc (Param c "file-id")) :: t)).
Proof.
  intros Hget Hsome Hstale.
  assert (Hcheck : files.checkIfMatch c (vfs.Rev olddoc)
                   = Some (JsonapiErr (PreconditionFailed "If-Match"
                                         (ErrorString "Revision does not match.")))).
  { rewrite checkIfMatch_expected, Hsome.
    replace (String.eqb (vfs.Rev olddoc) (expected_revision c)) with false; [done|].
    symmetry. apply String.eqb_neq. congruence. }
  pose proof (fileDocFromReq_calls h c (vfs.Name olddoc) (vfs.DirID olddoc)
                (vfs.Tags olddoc) w1) as [Hblob Hbody].
  destruct (run h (files.fileDocFromReq c (vfs.Name olddoc) (vfs.DirID olddoc)
                     (vfs.Tags olddoc)) w1) as [[[newdoc|err] w2] t] eqn:Hdoc.
  - rewrite (run_Overwrite h c w w1 w2 olddoc newdoc t Hget Hdoc), Hcheck.
    cbn [fst snd existsb opens_blob reads_body orb] in *.
    split; [by eexists|]. split; [done|]. split; [done|].
    by intros ? ? ? [= <- <- <-].
  - rewrite (run_Overwrite_no_document h c w w1 w2 olddoc err t Hget Hdoc).
    cbn [fst snd existsb opens_blob reads_body orb] in *.
    split; [by eexists|]. split; [done|]. split; [done|].
    intros ? ? ? [=].
Qed.

Lemma overwrite_stale_revision_fails_witness :
  run example.h (files.OverwriteFileContentHandler example.put_stale) example.world
  = (files.Failed
       (JsonapiErr
          (PreconditionFailed "If-Match" (ErrorString "Revision does not match."))),
     example.world,
     [MkCall (op.GetFileDoc "file-1");
      MkCall (op.NewFileDoc "notes.txt" vfs_model.RootDirID 2 []
                "application/octet-stream" "application" false ["work"; "draft"])]).
Proof.
  refine (proj2 (proj2 (proj2
            (overwrite_stale_revision_fails example.h example.put_stale example.world
               example.world example.notes _ _ _))) _ _ _ _);
    first [reflexivity | discriminate].
Defined.

(** C1, as stated, fails: a stale [If-Match] is answered by the
    precondition-failed error, which is not the conflict error; and a stale
    [rev] query parameter is not looked at when [If-Match] has the current
    revision: the overwrite goes through. *)
Lemma overwrite_stale_is_not_conflict :
  (run example.h (files.OverwriteFileContentHandler example.put_stale) example.world).1.1
  = files.Failed
      (JsonapiErr (PreconditionFailed "If-Match" (ErrorString "Revision does not match.")))
  /\ jsonapi.kind (PreconditionFailed "If-Match" (ErrorString "Revision does not match."))
     <> jsonapi.KConflict
  /\ QueryParam example.put_current "rev" <> vfs.Rev example.notes
  /\ exists doc,
       (run example.h (files.OverwriteFileContentHandler example.put_current)
          example.world).1.1
       = files.Data 200 (FileObject doc).
Proof.
  split; [reflexivity|]. split; [discriminate|]. split; [discriminate|].
  eexists. vm_compute. reflexivity.
Qed.

(** C4: without an [If-Match] header and without a [rev] query parameter the
    check passes whatever the stored revision is, and the overwrite goes on
    to open the blob of the new content. *)
Theorem no_expected_revision_passes {W : Type} (h : forall X, vfsE X -> W -> X * W)
    (c : EchoContext) :
  Header_Get c "If-Match" = EmptyString ->
  QueryParam c "rev" = EmptyString ->
  (forall rev, files.checkIfMatch c rev = None)
  /\ (forall w w1 w2 olddoc newdoc t,
        h _ (op.GetFileDoc (Param c "file-id")) w = (Ok olddoc, w1) ->
        run h (files.fileDocFromReq c (vfs.Name olddoc) (vfs.DirID olddoc)
                 (vfs.Tags olddoc)) w1 = (Ok newdoc, w2, t) ->
        existsb opens_blob (run h (files.OverwriteFileContentHandler c) w).2 = true
        /\ In (MkCall (op.CreateFile newdoc (Some olddoc)))
             (run h (files.OverwriteFileContentHandler c) w).2).
Proof.
  intros Hmatch Hrev.
  assert (Hcheck : forall rev, files.checkIfMatch c rev = None).
  { intros rev. rewrite checkIfMatch_expected. unfold expected_revision.
    by rewrite Hmatch, Hrev. }
  split; [done|].
  intros w w1 w2 olddoc newdoc t Hget Hdoc.
  rewrite (run_Overwrite h c w w1 w2 olddoc newdoc t Hget Hdoc), Hcheck.
  destruct (h _ (op.CreateFile newdoc (Some olddoc)) w2) as [[file|err] w3].
  - destruct (h _ (op.io_Copy file (Body c)) w3) as [[file' err] w4].
    destruct (h _ (op.Close file') w4) as [[doc cerr] w5].
    cbn [snd]. split.
    + cbn [existsb opens_blob]. rewrite existsb_app. cbn. apply orb_true_r.
    + right. apply in_app_iff. right. by left.
  - cbn [snd]. split.
    + cbn [existsb opens_blob]. rewrite existsb_app. cbn. apply orb_true_r.
    + right. apply in_app_iff. right. by left.
Qed.

Lemma no_expected_revision_passes_witness :
  files.checkIfMatch example.put_plain "1-abc" = None
  /\ files.checkIfMatch example.put_plain "2-def" = None.
Proof.
  destruct (no_expected_revision_passes example.h example.put_plain) as [H _];
    [reflexivity | reflexivity |].
  split; apply H.
Defined.

(** ** The document of an overwrite *)



(** ** The download store: one tenant never reads another's entries *)

Section DownloadStore.

Import download_store.

Variable ttl : Z.

Lemma GetFile_other_key (store : Store) (now : Z) (domain key : string)
    (k : string * string) (r : Ref) :
  k <> (domain, key) ->
  GetFile (<[k := r]> store) now domain key = GetFile store now domain key.
Proof. intros Hne. unfold GetFile. by rewrite lookup_insert_ne. Qed.

Lemma GetArchive_other_key (store : Store) (now : Z) (domain key : string)
    (k : string * string) (r : Ref) :
  k <> (domain, key) ->
  GetArchive (<[k := r]> store) now domain key = GetArchive store now domain key.
Proof. intros Hne. unfold GetArchive. by rewrite lookup_insert_ne. Qed.

(** C2: what tenant A stores (a file path or an archive) changes no answer
    given to another tenant B, whatever key B asks for and whenever; under
    the key A's entry got, B is answered the zero value unless B itself
    holds an entry under that key; and A gets its entry back until it
    expires. *)
Theorem download_store_isolation (store : Store) (t : Z)
    (domainA domainB path secret : string) (a : Archive) :
  domainA <> domainB ->
  store !! (domainB, secret) = None ->
  let '(key1, store1) := AddFile ttl store t domainA path secret in
  let '(key2, store2) := AddArchive ttl store t domainA a secret in
  (forall now key,
     GetFile store1 now domainB key = GetFile store now domainB key
     /\ GetArchive store1 now domainB key = GetArchive store now domainB key
     /\ GetFile store2 now domainB key = GetFile store now domainB key
     /\ GetArchive store2 now domainB key = GetArchive store now domainB key)
  /\ (forall now,
        GetFile store1 now domainB key1 = EmptyString
        /\ GetArchive store1 now domainB key1 = None
        /\ GetFile store2 now domainB key2 = EmptyString
        /\ GetArchive store2 now domainB key2 = None)
  /\ (forall now, now <= t + ttl ->
        GetFile store1 now domainA key1 = path
        /\ GetArchive store2 now domainA key2 = Some a).
Proof.
  intros Hne Hfree. cbn [AddFile AddArchive].
  assert (Hk : forall key, (domainA, secret) <> (domainB, key)) by congruence.
  split; [|split].
  - intros now key.
    rewrite !GetFile_other_key, !GetArchive_other_key by apply Hk. done.
  - intros now.
    rewrite !GetFile_other_key, !GetArchive_other_key by apply Hk.
    unfold GetFile, GetArchive. by rewrite Hfree.
  - intros now Hnow. unfold GetFile, GetArchive.
    rewrite !lookup_insert_eq. cbn.
    replace (t + ttl <? now) with false by (symmetry; apply Z.ltb_ge; lia).
    done.
Qed.

End DownloadStore.

(** The scenario of the store's test: alice stores a path and an archive, bob
    asks with alice's keys. *)
Lemma download_store_isolation_witness :
  let '(key1, store1) :=
    download_store.AddFile 100 download_store.newMemStore 0
      "alice.cozycloud.local" "/test/random/path.txt" "key-1" in
  download_store.GetFile store1 0 "bob.cozycloud.local" key1 = EmptyString
  /\ download_store.GetFile store1 0 "alice.cozycloud.local" key1
     = "/test/random/path.txt"%string
  /\ download_store.GetFile store1 200 "alice.cozycloud.local" key1 = EmptyString.
Proof.
  pose proof (download_store_isolation 100 download_store.newMemStore 0
                "alice.cozycloud.local" "bob.cozycloud.local"
                "/test/random/path.txt" "key-1"
                {| download_store.ArchiveName := "test";
                   download_store.Files := ["/archive/foo.jpg"; "/archive/bar"] |}
                ltac:(discriminate) ltac:(reflexivity)) as H.
  cbn [download_store.AddFile download_store.AddArchive] in H |- *.
  destruct H as (_ & Hb & Ha).
  split; [apply (Hb 0)|]. split; [apply (Ha 0); lia | reflexivity].
Defined.

(** [getVfsContext] hands the operations the prefix and the storage of the
    instance of the request, and nothing of another instance. *)
Lemma getVfsContext_of_instance (inst : instance.Instance) (ctx : VfsContext) :
  getVfsContext inst = Ok ctx ->
  ctx_prefix ctx = instance.GetDatabasePrefix inst
  /\ instance.GetStorageProvider inst = Ok (ctx_fs ctx).
Proof.
  unfold getVfsContext.
  destruct (instance.GetStorageProvider inst) as [fs|err]; [|done].
  by intros [= <-].
Qed.

(** ** The tenants of the virtual filesystem *)

(** A handler run under the context of one tenant leaves the state of every
    other tenant as it is, and its result and its own new state do not
    depend on the state of any other tenant. *)
Lemma serve_isolated {R : Type}
    (h : forall X, vfsE X -> vfs_model.World -> X * vfs_model.World)
    (tenants : gmap string vfs_model.World) (ctxA ctxB : VfsContext) (p : prog R)
    (wB : vfs_model.World) :
  ctx_prefix ctxA <> ctx_prefix ctxB ->
  (serve h tenants ctxA p).2 !! ctx_prefix ctxB = tenants !! ctx_prefix ctxB
  /\ (serve h (<[ctx_prefix ctxB := wB]> tenants) ctxA p).1 = (serve h tenants ctxA p).1
  /\ (serve h (<[ctx_prefix ctxB := wB]> tenants) ctxA p).2 !! ctx_prefix ctxA
     = (serve h tenants ctxA p).2 !! ctx_prefix ctxA.
Proof.
  intros Hne. unfold serve.
  rewrite (lookup_insert_ne tenants (ctx_prefix ctxB) (ctx_prefix ctxA) wB)
    by congruence.
  destruct (exec h p (default initial_world (tenants !! ctx_prefix ctxA))) as [r w].
  cbn [fst snd]. rewrite lookup_insert_ne by done.
  by rewrite !lookup_insert_eq.
Qed.

(** ** Runs without their calls *)

Lemma exec_bind {W A B : Type} (h : forall X, vfsE X -> W -> X * W)
    (p : prog A) (f : A -> prog B) (w : W) :
  exec h (p ≫= f) w = let '(a, w1) := exec h p w in exec h (f a) w1.
Proof.
  unfold exec. rewrite run_bind.
  destruct (run h p w) as [[a w1] t1]. cbn [fst].
  by destruct (run h (f a) w1) as [[b w2] t2].
Qed.

Lemma exec_call {W X : Type} (h : forall X, vfsE X -> W -> X * W) (e : vfsE X) (w : W) :
  exec h (call e) w = h X e w.
Proof. unfold exec. rewrite run_call. by destruct (h X e w). Qed.

Lemma exec_ret {W A : Type} (h : forall X, vfsE X -> W -> X * W) (a : A) (w : W) :
  exec h (mret a) w = (a, w).
Proof. reflexivity. Qed.

(** ** The modelled virtual filesystem: names among siblings *)

Section Siblings.

Import vfs vfs_model.

Lemma fresh_id_not_in (w : World) : docs w !! fresh_id w = None.
Proof.
  apply not_elem_of_dom. unfold fresh_id.
  pose proof (is_fresh (dom (docs w) ∪ {[RootDirID; TrashDirID]})) as H.
  set_solver.
Qed.

Lemma fresh_id_not_well_known (w : World) :
  fresh_id w <> RootDirID /\ fresh_id w <> TrashDirID.
Proof.
  unfold fresh_id.
  pose proof (is_fresh (dom (docs w) ∪ {[RootDirID; TrashDirID]})) as H.
  set_solver.
Qed.

Lemma fresh_id_not_parent (w : World) (dirID : string) (d : DirDoc) :
  parent_exists w dirID = Some d -> fresh_id w <> dirID.
Proof.
  unfold parent_exists. intros H Heq. subst dirID.
  by rewrite fresh_id_not_in in H.
Qed.

Lemma name_taken_true (w : World) (parent name : string) :
  name_taken w parent name = true
  <-> exists id o, docs w !! id = Some o /\ active_sibling parent name o = true.
Proof.
  unfold name_taken. rewrite bool_decide_eq_true. unfold map_Exists. reflexivity.
Qed.

Lemma name_taken_insert (w : World) (d : gmap string Object) (parent name id : string)
    (o : Object) :
  d !! id = None ->
  name_taken (set_docs w (<[id := o]> d)) parent name
  = active_sibling parent name o || name_taken (set_docs w d) parent name.
Proof.
  intros Hfree. unfold name_taken. cbn [docs set_docs].
  apply eq_true_iff_eq. rewrite orb_true_iff, !bool_decide_eq_true.
  rewrite map_Exists_insert by done. reflexivity.
Qed.

Lemma name_taken_docs (w w' : World) (parent name : string) :
  docs w = docs w' -> name_taken w parent name = name_taken w' parent name.
Proof. unfold name_taken. by intros ->. Qed.

Lemma parent_exists_docs (w w' : World) (dirID : string) :
  docs w !! dirID = docs w' !! dirID -> parent_exists w dirID = parent_exists w' dirID.
Proof. unfold parent_exists. by intros ->. Qed.

End Siblings.

(** ** The modelled virtual filesystem: creations *)

Section Creation.

Import vfs vfs_model files.

Variable md5sum : list ascii -> list ascii.
Variables mkdir mkdirAll : World -> string -> list string -> result DirDoc * World.
Variables FileType DirType : string.

Local Abbreviation h := (impl md5sum mkdir mkdirAll).

(** The document of a request depends on the state by the clock only. *)
Lemma fileDocFromReq_model (c : EchoContext) (name dirID : string) (tags : list string) :
  (exists err, forall w, exec h (fileDocFromReq c name dirID tags) w = (Err err, w))
  \/ (exists mk : Z -> FileDoc,
        (forall w, exec h (fileDocFromReq c name dirID tags) w = (Ok (mk (now w)), w))
        /\ checkFileName name = None
        /\ forall t, Name (mk t) = name /\ DirID (mk t) = dirID
                     /\ Trashed (mk t) = false
                     /\ Size (mk t) = Size (mk 0) /\ MD5Sum (mk t) = MD5Sum (mk 0)).
Proof.
  unfold fileDocFromReq.
  destruct (parseContentLength (Header_Get c "Content-Length")) as [size [err|]].
  { left. eexists. intros w. apply exec_ret. }
  destruct (if str_nonempty (Header_Get c "Content-MD5")
            then parseMD5Hash (Header_Get c "Content-MD5") else Ok [])
    as [md5Sum|err].
  2:{ left. eexists. intros w. apply exec_ret. }
  destruct (ExtractMimeAndClass (Header_Get c "Content-Type")) as [mime class].
  destruct (checkFileName name) as [err|] eqn:Hname.
  - left. exists err. intros w. rewrite exec_call. cbn [impl].
    unfold NewFileDoc. by rewrite Hname.
  - right.
    exists (fun t =>
              {| DocID := EmptyString; DocRev := EmptyString; Name := name;
                 DirID := dirID; Size := size; MD5Sum := md5Sum; Mime := mime;
                 Class := class;
                 Executable := String.eqb (QueryParam c "Executable") "true";
                 CreatedAt := t; UpdatedAt := t;
                 Tags := uniqueTags tags; Trashed := false; RestoreParent := None |}).
    split; [|split; [done|by intros t]].
    intros w. rewrite exec_call. cbn [impl]. unfold NewFileDoc. by rewrite Hname.
Qed.

Lemma verify_ext (doc doc' : FileDoc) (content : list ascii) :
  Size doc = Size doc' -> MD5Sum doc = MD5Sum doc' ->
  verify md5sum doc content = verify md5sum doc' content.
Proof. unfold verify. by intros -> ->. Qed.

(** The creation of a file, once the document of the request is built. *)
Lemma exec_createFileHandler (c : EchoContext) (mk : Z -> FileDoc) (w : World) :
  (forall w, exec h (fileDocFromReq c (QueryParam c "Name") (Param c "dir-id")
                       (strings_Split (QueryParam c "Tags") TagSeparator)) w
             = (Ok (mk (now w)), w)) ->
  checkFileName (QueryParam c "Name") = None ->
  (forall t, Name (mk t) = QueryParam c "Name" /\ DirID (mk t) = Param c "dir-id"
             /\ Trashed (mk t) = false
             /\ Size (mk t) = Size (mk 0) /\ MD5Sum (mk t) = MD5Sum (mk 0)) ->
  exec h (createFileHandler c) w
  = match parent_exists w (Param c "dir-id") with
    | None => (Err (VfsErr ErrParentDoesNotExist), w)
    | Some _ =>
        if name_taken w (Param c "dir-id") (QueryParam c "Name")
        then (Err (VfsErr ErrConflict), w)
        else
          let file :=
            {| newdoc := with_id (mk (now w)) (fresh_id w) (CreatedAt (mk (now w)));
               olddoc := None; blob := fresh_blob w; written := Body c |} in
          match verify md5sum (mk 0) (Body c) with
          | Some err =>
              (Err err,
               discard (set_blobs (set_blobs w (<[fresh_blob w := []]> (blobs w)))
                          (<[fresh_blob w := Body c]>
                             (<[fresh_blob w := []]> (blobs w)))) file)
          | None =>
              (Ok (committed md5sum file first_rev),
               {| docs := <[fresh_id w := FileObject (committed md5sum file first_rev)]>
                            (docs w);
                  blobs := <[fresh_blob w := Body c]> (<[fresh_blob w := []]> (blobs w));
                  bound := <[fresh_id w := fresh_blob w]> (bound w);
                  now := now w |})
          end
    end.
Proof.
  intros Hmk Hname Hdoc.
  destruct (Hdoc (now w)) as (Hn & Hp & Ht & Hs & Hm).
  unfold createFileHandler. rewrite exec_bind, Hmk.
  rewrite exec_bind, exec_call. cbn [impl]. unfold CreateFile.
  rewrite Hn, Hp, Hname.
  destruct (parent_exists w (Param c "dir-id")) as [d|]; [|apply exec_ret].
  destruct (name_taken w (Param c "dir-id") (QueryParam c "Name")); [apply exec_ret|].
  rewrite exec_bind, exec_call. cbn [impl]. unfold Copy. cbn [written blob newdoc olddoc app].
  rewrite exec_bind, exec_call. cbn [impl]. unfold Close. cbn [written blob newdoc olddoc].
  rewrite (verify_ext _ (mk 0)) by done.
  destruct (verify md5sum (mk 0) (Body c)) as [err|]; reflexivity.
Qed.

Lemma exec_createDirHandler (c : EchoContext) (w : World) :
  QueryParam c "Path" = EmptyString ->
  exec h (createDirHandler c) w
  = match checkFileName (QueryParam c "Name") with
    | Some err => (Err err, w)
    | None =>
        match parent_exists w (Param c "dir-id") with
        | None => (Err (VfsErr ErrParentDoesNotExist), w)
        | Some parent =>
            if name_taken w (Param c "dir-id") (QueryParam c "Name")
            then (Err (VfsErr ErrConflict), w)
            else
              let doc :=
                {| DirDocID := fresh_id w; DirDocRev := first_rev;
                   DirName := QueryParam c "Name"; DirParent := Param c "dir-id";
                   Fullpath := join_path (Fullpath parent) (QueryParam c "Name");
                   DirCreatedAt := now w; DirUpdatedAt := now w;
                   DirTags := uniqueTags (strings_Split (QueryParam c "Tags") TagSeparator);
                   DirTrashed := false; DirRestoreParent := None |} in
              (Ok doc, set_docs w (<[fresh_id w := DirObject doc]> (docs w)))
        end
    end.
Proof.
  intros Hpath. unfold createDirHandler. rewrite Hpath. cbn [str_nonempty].
  rewrite exec_bind, exec_call. cbn [impl]. unfold NewDirDoc.
  destruct (checkFileName (QueryParam c "Name")) as [err|] eqn:Hname; [apply exec_ret|].
  rewrite exec_call. cbn [impl]. unfold CreateDir.
  cbn [DirName DirParent DirCreatedAt DirUpdatedAt DirTags]. rewrite Hname.
  destruct (parent_exists w (Param c "dir-id")) as [parent|]; [|reflexivity].
  destruct (name_taken w (Param c "dir-id") (QueryParam c "Name")); reflexivity.
Qed.

(** What a creation by name and parent that succeeded tells: where the new
    document is, and that the same request succeeds or meets a conflict in
    every state that has the parent, by the name being free or taken. *)
Lemma creation_succeeded (c : EchoContext) (w w' : World) (obj : Object) :
  QueryParam c "Path" = EmptyString ->
  exec h (CreationHandler FileType DirType c) w = (Data 201 obj, w') ->
  (docs w' = <[fresh_id w := obj]> (docs w)
   /\ obj_id obj = fresh_id w /\ obj_rev obj = first_rev
   /\ active_sibling (Param c "dir-id") (QueryParam c "Name") obj = true
   /\ is_Some (parent_exists w (Param c "dir-id")))
  /\ forall v, is_Some (parent_exists v (Param c "dir-id")) ->
       if name_taken v (Param c "dir-id") (QueryParam c "Name")
       then exec h (CreationHandler FileType DirType c) v
            = (Failed (JsonapiErr (Conflict (VfsErr ErrConflict))), v)
       else exists obj2 v',
              exec h (CreationHandler FileType DirType c) v = (Data 201 obj2, v')
              /\ active_sibling (Param c "dir-id") (QueryParam c "Name") obj2 = true.
Proof.
  intros Hpath. unfold CreationHandler.
  destruct (String.eqb (QueryParam c "Type") FileType) eqn:Hfile.
  - (* a file *)
    destruct (fileDocFromReq_model c (QueryParam c "Name") (Param c "dir-id")
                (strings_Split (QueryParam c "Tags") TagSeparator))
      as [[err Herr] | (mk & Hmk & Hname & Hdoc)].
    { rewrite exec_bind, exec_bind. unfold createFileHandler at 1.
      rewrite exec_bind, Herr, exec_ret, exec_ret, exec_ret. intros [=]. }
    assert (Hrun : forall v,
               exec h (r ← (r ← createFileHandler c;
                            mret match r with
                                 | Ok doc => Ok (FileObject doc)
                                 | Err err => Err err
                                 end);
                       match r with
                       | Ok doc => mret (Data 201 doc)
                       | Err err => mret (Failed (wrapVfsError err))
                       end) v
               = let '(r, v') := exec h (createFileHandler c) v in
                 (match r with
                  | Ok doc => Data 201 (FileObject doc)
                  | Err err => Failed (wrapVfsError err)
                  end, v')).
    { intros v. rewrite exec_bind, exec_bind.
      destruct (exec h (createFileHandler c) v) as [[doc|err] v']; by rewrite !exec_ret. }
    rewrite Hrun, (exec_createFileHandler c mk w Hmk Hname Hdoc).
    destruct (parent_exists w (Param c "dir-id")) as [d|] eqn:Hparent; [|intros [=]].
    destruct (name_taken w (Param c "dir-id") (QueryParam c "Name")) eqn:Htaken;
      [intros [=]|].
    cbv zeta.
    destruct (verify md5sum (mk 0) (Body c)) as [err|] eqn:Hverify; [intros [=]|].
    intros [= <- <-].
    destruct (Hdoc (now w)) as (Hn & Hp & Ht & _).
    split.
    + cbn [docs obj_id obj_rev committed newdoc with_id DocID DocRev].
      repeat split; [|by eexists].
      unfold active_sibling.
      cbn [obj_parent obj_name obj_trashed committed newdoc with_id Name DirID Trashed].
      rewrite Hn, Hp, Ht, !String.eqb_refl. reflexivity.
    + intros v Hv. rewrite Hrun, (exec_createFileHandler c mk v Hmk Hname Hdoc).
      destruct Hv as [dv ->].
      destruct (name_taken v (Param c "dir-id") (QueryParam c "Name")); [reflexivity|].
      cbv zeta. rewrite Hverify.
      destruct (Hdoc (now v)) as (Hn' & Hp' & Ht' & _).
      eexists _, _. split; [reflexivity|].
      unfold active_sibling.
      cbn [obj_parent obj_name obj_trashed committed newdoc with_id Name DirID Trashed].
      rewrite Hn', Hp', Ht', !String.eqb_refl. reflexivity.
  - destruct (String.eqb (QueryParam c "Type") DirType) eqn:Hdir.
    + (* a directory *)
      assert (Hrun : forall v,
                 exec h (r ← (r ← createDirHandler c;
                              mret match r with
                                   | Ok doc => Ok (DirObject doc)
                                   | Err err => Err err
                                   end);
                         match r with
                         | Ok doc => mret (Data 201 doc)
                         | Err err => mret (Failed (wrapVfsError err))
                         end) v
                 = let '(r, v') := exec h (createDirHandler c) v in
                   (match r with
                    | Ok doc => Data 201 (DirObject doc)
                    | Err err => Failed (wrapVfsError err)
                    end, v')).
      { intros v. rewrite exec_bind, exec_bind.
        destruct (exec h (createDirHandler c) v) as [[doc|err] v']; by rewrite !exec_ret. }
      rewrite Hrun, (exec_createDirHandler c w Hpath).
      destruct (checkFileName (QueryParam c "Name")) as [err|] eqn:Hname; [intros [=]|].
      destruct (parent_exists w (Param c "dir-id")) as [d|] eqn:Hparent; [|intros [=]].
      destruct (name_taken w (Param c "dir-id") (QueryParam c "Name")) eqn:Htaken;
        [intros [=]|].
      cbv zeta. intros [= <- <-].
      split.
      * cbn [docs set_docs obj_id obj_rev DirDocID DirDocRev].
        repeat split; [|by eexists].
        unfold active_sibling.
        cbn [obj_parent obj_name obj_trashed DirName DirParent DirTrashed].
        rewrite !String.eqb_refl. reflexivity.
      * intros v Hv. rewrite Hrun, (exec_createDirHandler c v Hpath), Hname.
        destruct Hv as [dv ->].
        destruct (name_taken v (Param c "dir-id") (QueryParam c "Name")); [reflexivity|].
        cbv zeta. eexists _, _. split; [reflexivity|].
        unfold active_sibling.
        cbn [obj_parent obj_name obj_trashed DirName DirParent DirTrashed].
        rewrite !String.eqb_refl. reflexivity.
    + rewrite exec_bind, exec_ret, exec_ret. intros [=].
Qed.

(** Trashing a stored, active document that is not one of the two roots. *)
Lemma trash_stored (ct : EchoContext) (w : World) (obj : Object) :
  docs w !! Param ct "file-id" = Some obj ->
  obj_id obj = Param ct "file-id" ->
  obj_trashed obj = false ->
  Param ct "file-id" <> RootDirID -> Param ct "file-id" <> TrashDirID ->
  exists obj' w',
    exec h (TrashHandler ct) w = (Data 200 obj', w')
    /\ docs w' = <[Param ct "file-id" := obj']> (docs w)
    /\ obj_trashed obj' = true.
Proof.
  intros Hstored Hid Hactive Hroot Htrash.
  unfold TrashHandler. rewrite exec_bind, exec_call. cbn [impl].
  unfold GetDirOrFileDoc. rewrite Hstored.
  destruct obj as [file|dir]; cbn [obj_id obj_trashed] in Hid, Hactive.
  - rewrite exec_bind, exec_call. cbn [impl]. unfold TrashFile.
    rewrite Hactive, Hid, Hstored, String.eqb_refl, exec_ret.
    eexists _, _. split; [reflexivity|]. split; reflexivity.
  - rewrite exec_bind, exec_call. cbn [impl]. unfold TrashDir.
    rewrite Hactive, Hid, Hstored.
    apply String.eqb_neq in Hroot, Htrash. rewrite Hroot, Htrash. cbn [orb].
    rewrite String.eqb_refl, exec_ret.
    eexists _, _. split; [reflexivity|]. split; reflexivity.
Qed.


End Creation.


(** ** The modelled virtual filesystem: overwrites *)

Section OverwriteModel.

Import vfs vfs_model files.

Variable md5sum : list ascii -> list ascii.
Variables mkdir mkdirAll : World -> string -> list string -> result DirDoc * World.

Local Abbreviation h := (impl md5sum mkdir mkdirAll).

Lemma uniqueTags_NoDup (tags : list string) : NoDup tags -> uniqueTags tags = tags.
Proof.
  unfold uniqueTags. induction 1 as [|x l Hx Hl IH]; cbn; [done|].
  destruct (decide_rel elem_of x l); [done|]. by rewrite IH.
Qed.

Lemma run_fileDocFromReq_fields (c : EchoContext) (name dirID : string)
    (tags : list string) (w w' : World) (doc : FileDoc) (t : list Call) :
  run h (fileDocFromReq c name dirID tags) w = (Ok doc, w', t) ->
  w' = w /\ Name doc = name /\ DirID doc = dirID /\ Tags doc = uniqueTags tags
  /\ Size doc = fst (parseContentLength (Header_Get c "Content-Length"))
  /\ (Mime doc, Class doc) = ExtractMimeAndClass (Header_Get c "Content-Type").
Proof.
  destruct (run_fileDocFromReq h c name dirID tags w)
    as [[err ->] | (size & md5Sum & mime & class & Hsize & _ & Hmime & ->)]; [done|].
  cbn [impl fst snd]. unfold NewFileDoc.
  destruct (checkFileName name); [done|].
  intros [= <- <- _]. cbn. by rewrite <- Hsize, <- Hmime.
Qed.

(** On the modelled filesystem, an overwrite that succeeds stores, under the
    identity of the prior document, a document with its name and parent (and
    its tags, when they are a set), with the length and the digest of the new
    content and the mime type of the request. *)
Lemma overwrite_keeps_name_parent_tags (c : EchoContext) (w w' : World)
    (olddoc newdoc : FileDoc) (calls : list Call) :
  GetFileDoc w (Param c "file-id") = Ok olddoc ->
  run h (OverwriteFileContentHandler c) w = (Data 200 (FileObject newdoc), w', calls) ->
  docs w' !! DocID olddoc = Some (FileObject newdoc)
  /\ Name newdoc = Name olddoc /\ DirID newdoc = DirID olddoc
  /\ Tags newdoc = uniqueTags (Tags olddoc)
  /\ (NoDup (Tags olddoc) -> Tags newdoc = Tags olddoc)
  /\ Size newdoc = Z.of_nat (length (Body c))
  /\ MD5Sum newdoc = md5sum (Body c)
  /\ (Mime newdoc, Class newdoc) = ExtractMimeAndClass (Header_Get c "Content-Type")
  /\ DocRev newdoc = next_rev (DocRev olddoc).
Proof.
  intros Hold.
  assert (Hget : h _ (op.GetFileDoc (Param c "file-id")) w = (Ok olddoc, w))
    by (cbn [impl]; by rewrite Hold).
  destruct (run h (fileDocFromReq c (Name olddoc) (DirID olddoc) (Tags olddoc)) w)
    as [[[doc|err] w2] t] eqn:Hdoc.
  2:{ rewrite (run_Overwrite_no_document h c w w w2 olddoc err t Hget Hdoc). intros [=]. }
  rewrite (run_Overwrite h c w w w2 olddoc doc t Hget Hdoc).
  destruct (run_fileDocFromReq_fields _ _ _ _ _ _ _ _ Hdoc)
    as (-> & Hn & Hp & Ht & Hs & Hm).
  destruct (checkIfMatch c (Rev olddoc)); [intros [=]|].
  cbn [impl]. unfold CreateFile, Copy, Close.
  cbn [written blob vfs.newdoc vfs.olddoc app set_blobs docs blobs bound now].
  destruct (verify md5sum (with_id doc (DocID olddoc) (CreatedAt olddoc)) (Body c));
    [cbn; intros [=]|].
  destruct (docs w !! DocID olddoc) as [[cur|cur]|]; [|cbn; intros [=]..].
  destruct (String.eqb (DocRev cur) (DocRev olddoc)); [|cbn; intros [=]].
  cbn [close_error]. intros [= <- <- _].
  cbn [docs committed vfs.newdoc with_id DocID Name DirID Tags Size MD5Sum Mime Class
         DocRev written].
  rewrite lookup_insert_eq, Hn, Hp, Ht.
  repeat split; [apply uniqueTags_NoDup | done].
Qed.

End OverwriteModel.

(** In the deferred function of [OverwriteFileContentHandler] the result of
    [wrapVfsError] is dropped: a digest that does not match is reported by
    the sentinel error itself, where [CreationHandler] reports the
    precondition-failed error named "Content-MD5". *)
Lemma overwrite_close_error_unwrapped :
  let c :=
    {| Header := {[ "Content-MD5" := "AQIDBAUGBwgJCgsMDQ4P/w==" ]};
       Query := {[ "Type" := "file"; "Name" := "other.txt" ]};
       Params := {[ "file-id" := "file-1"; "dir-id" := vfs_model.RootDirID ]};
       Body := list_ascii_of_string "hi" |} in
  (exec example.h (files.OverwriteFileContentHandler c) example.world).1
  = files.Failed (VfsErr ErrInvalidHash)
  /\ (exec example.h (files.CreationHandler "file" "directory" c) example.world).1
     = files.Failed (JsonapiErr (PreconditionFailed "Content-MD5" (VfsErr ErrInvalidHash))).
Proof. split; vm_compute; reflexivity. Qed.

(** The scenario of section 8 of the specification, on the sample world: a
    file and a directory are created, created again (conflict), and, the
    file being trashed, the file is created again. *)
Lemma scenario_of_the_specification :
  let create := files.CreationHandler "file" "directory" in
  let w1 := (exec example.h (create example.post_file) example.world).2 in
  let w2 := (exec example.h (files.TrashHandler example.delete_created) w1).2 in
  (exists doc,
     (exec example.h (create example.post_file) example.world).1
     = files.Data 201 (FileObject doc)
     /\ vfs.Size doc = 11 /\ vfs.DocID doc = vfs_model.fresh_id example.world)
  /\ (exec example.h (create example.post_file) w1).1
     = files.Failed (JsonapiErr (Conflict (VfsErr ErrConflict)))
  /\ (exists doc,
        (exec example.h (files.TrashHandler example.delete_created) w1).1
        = files.Data 200 (FileObject doc)
        /\ vfs.Trashed doc = true /\ vfs.DirID doc = vfs_model.TrashDirID
        /\ vfs.RestoreParent doc = Some vfs_model.RootDirID)
  /\ (exists doc,
        (exec example.h (create example.post_file) w2).1
        = files.Data 201 (FileObject doc))
  /\ (exists dir,
        (exec example.h (create example.post_dir) example.world).1
        = files.Data 201 (DirObject dir)
        /\ vfs.Fullpath dir = "/a"%string)
  /\ (exec example.h (create example.post_dir)
        (exec example.h (create example.post_dir) example.world).2).1
     = files.Failed (JsonapiErr (Conflict (VfsErr ErrConflict))).
Proof.
  cbv zeta.
  split; [eexists; split; [vm_compute; reflexivity | split; reflexivity]|].
  split; [vm_compute; reflexivity|].
  split; [eexists; split; [vm_compute; reflexivity | repeat split]|].
  split; [eexists; vm_compute; reflexivity|].
  split; [eexists; split; [vm_compute; reflexivity | reflexivity]|].
  vm_compute; reflexivity.
Qed.

(** ** The error wrapping, once more *)

Lemma wrapVfsError_shape (err : error) :
  is_formatted err = true /\ files.wrapVfsError err = err
  \/ is_formatted err = false
     /\ exists e, files.wrapVfsError err = JsonapiErr e /\ jsonapi.cause e = err.
Proof.
  destruct err as [msg|[]|status name reason|[]| |e]; cbn;
    first [ by left | right; split; [done|]; by eexists ].
Qed.

Lemma wrapVfsError_formatted (err : error) :
  is_formatted (files.wrapVfsError err) = true.
Proof.
  destruct (wrapVfsError_shape err) as [[Hf ->] | [_ (e & -> & _)]]; done.
Qed.

(** What [wrapVfsError] returns is a [*jsonapi.Error] or a [*couchdb.Error]:
    wrapping it again changes nothing; an error of one of these two types is
    returned as it is, and any other error is the cause of the
    [*jsonapi.Error] returned for it. *)
Theorem wrapVfsError_idempotent (err : error) :
  files.wrapVfsError (files.wrapVfsError err) = files.wrapVfsError err
  /\ is_formatted (files.wrapVfsError err) = true
  /\ (is_formatted err = true -> files.wrapVfsError err = err)
  /\ (is_formatted err = false ->
      exists e, files.wrapVfsError err = JsonapiErr e /\ jsonapi.cause e = err).
Proof.
  destruct (wrapVfsError_shape err) as [[Hf Hw] | [Hf (e & Hw & Hc)]].
  - rewrite !Hw, Hf. split; [done|]. split; [done|]. split; [done|]. done.
  - rewrite Hw. cbn. split; [done|]. split; [done|]. split; [by rewrite Hf|].
    intros _. by exists e.
Qed.

(** ** What the handlers answer *)

Section Answers.

Context {W : Type} (h : forall X, vfsE X -> W -> X * W).

Lemma run_CreationHandler (FileType DirType : string) (c : EchoContext) (w : W) :
  exists (r : result Object) (w' : W) (t : list Call),
    run h (files.CreationHandler FileType DirType c) w
    = (match r with
       | Err err => files.Failed (files.wrapVfsError err)
       | Ok doc => files.Data 201 doc
       end, w', t).
Proof.
  unfold files.CreationHandler. rewrite run_bind.
  match goal with |- context [run h ?p w] => destruct (run h p w) as [[r w1] t1] end.
  exists r, w1, t1. destruct r; rewrite run_ret; by rewrite app_nil_r.
Qed.

(** A creation answers with the status 201 and a trashing with the status
    200; when they fail, the error they return is a [*jsonapi.Error] or a
    [*couchdb.Error], whatever package [vfs] answered. *)
Theorem creation_and_trash_answers (FileType DirType : string) (c : EchoContext)
    (w : W) :
  match (run h (files.CreationHandler FileType DirType c) w).1.1 with
  | files.Failed err => is_formatted err = true
  | files.Data status _ => status = 201
  end
  /\ match (run h (files.TrashHandler c) w).1.1 with
     | files.Failed err => is_formatted err = true
     | files.Data status _ => status = 200
     end.
Proof.
  split.
  - destruct (run_CreationHandler FileType DirType c w) as (r & w' & t & ->).
    destruct r; cbn; [done | apply wrapVfsError_formatted].
  - unfold files.TrashHandler. rewrite run_bind, run_call.
    destruct (h _ (op.GetDirOrFileDoc (Param c "file-id") true) w) as [[[dir|file]|err] w1];
      cbv iota beta.
    + rewrite run_bind, run_call.
      destruct (h _ (op.TrashDir dir) w1) as [[data|err] w2]; cbv iota beta;
        rewrite run_ret; cbn; [done | apply wrapVfsError_formatted].
    + rewrite run_bind, run_call.
      destruct (h _ (op.TrashFile file) w1) as [[data|err] w2]; cbv iota beta;
        rewrite run_ret; cbn; [done | apply wrapVfsError_formatted].
    + rewrite run_ret. cbn. apply wrapVfsError_formatted.
Qed.

End Answers.
(** ** Requests refused before package [vfs] is called *)

Section Refused.

Context {W : Type} (h : forall X, vfsE X -> W -> X * W).

Lemma run_fileDocFromReq_length (c : EchoContext) (name dirID : string)
    (tags : list string) (w : W) (size : Z) (err : error) :
  files.parseContentLength (Header_Get c "Content-Length") = (size, Some err) ->
  run h (files.fileDocFromReq c name dirID tags) w
  = (Err (JsonapiErr (InvalidParameter "Content-Length"
                        (ErrorString "Invalid content length"))), w, []).
Proof.
  intros Hcl. unfold files.fileDocFromReq. rewrite Hcl.
  unfold files.parseContentLength in Hcl.
  destruct (negb (str_nonempty (Header_Get c "Content-Length"))); [done|].
  destruct (strconv.ParseInt (Header_Get c "Content-Length") 10) as [n [e|]];
    by inversion Hcl.
Qed.

Lemma run_fileDocFromReq_digest (c : EchoContext) (name dirID : string)
    (tags : list string) (w : W) (size : Z) (err : error) :
  files.parseContentLength (Header_Get c "Content-Length") = (size, None) ->
  str_nonempty (Header_Get c "Content-MD5") = true ->
  files.parseMD5Hash (Header_Get c "Content-MD5") = Err err ->
  run h (files.fileDocFromReq c name dirID tags) w
  = (Err (JsonapiErr (InvalidParameter "Content-MD5"
                        (ErrorString "Given Content-MD5 is invalid"))), w, []).
Proof.
  intros Hcl Hne Hmd5. unfold files.fileDocFromReq. rewrite Hcl, Hne, Hmd5.
  unfold files.parseMD5Hash in Hmd5.
  destruct ((len (Header_Get c "Content-MD5") <? 22)
            || (24 <? len (Header_Get c "Content-MD5"))); [by inversion Hmd5|].
  destruct (base64.DecodeString (Header_Get c "Content-MD5")) as [md5Sum|];
    [|by inversion Hmd5].
  destruct (negb (Z.of_nat (length md5Sum) =? 16)); by inversion Hmd5.
Qed.

(** A creation whose [Type] is neither [vfs.FileType] nor [vfs.DirType], and
    an upload whose [Content-Length] or [Content-MD5] header is malformed,
    are refused without a call to package [vfs]: with the invalid-attribute
    error naming "type", and with the invalid-parameter error naming the
    header; the [Content-Length] header is looked at first. *)
Theorem creation_refused_before_vfs (FileType DirType : string) (c : EchoContext)
    (w : W) :
  (String.eqb (QueryParam c "Type") FileType = false ->
   String.eqb (QueryParam c "Type") DirType = false ->
   run h (files.CreationHandler FileType DirType c) w
   = (files.Failed (JsonapiErr (InvalidAttribute "type" ErrDocTypeInvalid)), w, []))
  /\ (String.eqb (QueryParam c "Type") FileType = true ->
      forall size err,
        files.parseContentLength (Header_Get c "Content-Length") = (size, Some err) ->
        run h (files.CreationHandler FileType DirType c) w
        = (files.Failed
             (JsonapiErr (InvalidParameter "Content-Length"
                            (ErrorString "Invalid content length"))), w, []))
  /\ (String.eqb (QueryParam c "Type") FileType = true ->
      forall size err,
        files.parseContentLength (Header_Get c "Content-Length") = (size, None) ->
        str_nonempty (Header_Get c "Content-MD5") = true ->
        files.parseMD5Hash (Header_Get c "Content-MD5") = Err err ->
        run h (files.CreationHandler FileType DirType c) w
        = (files.Failed
             (JsonapiErr (InvalidParameter "Content-MD5"
                            (ErrorString "Given Content-MD5 is invalid"))), w, [])).
Proof.
  split; [|split].
  - intros Hf Hd. unfold files.CreationHandler. by rewrite Hf, Hd.
  - intros Hf size err Hcl. unfold files.CreationHandler, files.createFileHandler.
    rewrite Hf. rewrite !run_bind.
    by rewrite (run_fileDocFromReq_length _ _ _ _ _ _ _ Hcl).
  - intros Hf size err Hcl Hne Hmd5.
    unfold files.CreationHandler, files.createFileHandler.
    rewrite Hf. rewrite !run_bind.
    by rewrite (run_fileDocFromReq_digest _ _ _ _ _ _ _ Hcl Hne Hmd5).
Qed.

End Refused.
(** ** An upload closes the file it opens *)

Section Upload.

Context {W : Type} (h : forall X, vfsE X -> W -> X * W).

(** [createFileHandler] either gets a file from [vfs.CreateFile], copies the
    request body to it and closes the file the copy leaves, whatever the copy
    answered, these being its last three calls (the error of the copy is
    returned before the error of the close); or it fails and neither copies
    nor closes anything. *)
Theorem upload_closes_the_file_it_opens (c : EchoContext) (w : W) :
  (exists doc w1 t file w2,
     run h (files.fileDocFromReq c (QueryParam c "Name") (Param c "dir-id")
              (strings_Split (QueryParam c "Tags") files.TagSeparator)) w
     = (Ok doc, w1, t)
     /\ h _ (op.CreateFile doc None) w1 = (Ok file, w2)
     /\ run h (files.createFileHandler c) w
        = let '((file', err), w3) := h _ (op.io_Copy file (Body c)) w2 in
          let '((doc', cerr), w4) := h _ (op.Close file') w3 in
          (match err, cerr with
           | Some e, _ => Err e
           | None, Some e => Err e
           | None, None => Ok doc'
           end, w4,
           t ++ [MkCall (op.CreateFile doc None); MkCall (op.io_Copy file (Body c));
                 MkCall (op.Close file')]))
  \/ (exists err,
        (run h (files.createFileHandler c) w).1.1 = Err err
        /\ existsb reads_body (run h (files.createFileHandler c) w).2 = false
        /\ existsb closes (run h (files.createFileHandler c) w).2 = false).
Proof.
  unfold files.createFileHandler. rewrite run_bind.
  pose proof (fileDocFromReq_calls h c (QueryParam c "Name") (Param c "dir-id")
                (strings_Split (QueryParam c "Tags") files.TagSeparator) w) as [_ Hrd].
  assert (Hcl : existsb closes
                  (run h (files.fileDocFromReq c (QueryParam c "Name") (Param c "dir-id")
                            (strings_Split (QueryParam c "Tags") files.TagSeparator)) w).2
                = false).
  { destruct (run_fileDocFromReq h c (QueryParam c "Name") (Param c "dir-id")
                (strings_Split (QueryParam c "Tags") files.TagSeparator) w)
      as [[err ->] | (size & md5Sum & mime & class & _ & _ & _ & ->)]; done. }
  destruct (run h (files.fileDocFromReq c (QueryParam c "Name") (Param c "dir-id")
                     (strings_Split (QueryParam c "Tags") files.TagSeparator)) w)
    as [[[doc|err] w1] t] eqn:Hdoc; cbn [fst snd] in Hrd, Hcl; cbv iota beta.
  2:{ right. exists err. rewrite run_ret. cbn [fst snd]. by rewrite app_nil_r. }
  rewrite run_bind, run_call.
  destruct (h _ (op.CreateFile doc None) w1) as [[file|err] w2] eqn:Hopen; cbv iota beta.
  2:{ right. exists err. rewrite run_ret. cbn [fst snd].
      rewrite app_nil_r, !existsb_app, Hrd, Hcl. done. }
  left. exists doc, w1, t, file, w2. split; [done|]. split; [done|].
  rewrite run_bind, run_call.
  destruct (h _ (op.io_Copy file (Body c)) w2) as [[file' err] w3]; cbv iota beta.
  rewrite run_bind, run_call.
  destruct (h _ (op.Close file') w3) as [[doc' cerr] w4]; cbv iota beta.
  destruct err as [e|], cerr as [e'|]; cbn [files.close_error]; rewrite run_ret; reflexivity.
Qed.

(** In the deferred function of [OverwriteFileContentHandler] the result of
    [wrapVfsError] is dropped: when the copy or the close fails, the handler
    returns that error as it is. *)
Theorem overwrite_late_error_unwrapped (c : EchoContext) (w w1 w2 w3 w4 w5 : W)
    (olddoc newdoc doc : vfs.FileDoc) (t : list Call) (file file' : vfs.File)
    (err cerr : option error) (e : error) :
  h _ (op.GetFileDoc (Param c "file-id")) w = (Ok olddoc, w1) ->
  run h (files.fileDocFromReq c (vfs.Name olddoc) (vfs.DirID olddoc) (vfs.Tags olddoc)) w1
  = (Ok newdoc, w2, t) ->
  files.checkIfMatch c (vfs.Rev olddoc) = None ->
  h _ (op.CreateFile newdoc (Some olddoc)) w2 = (Ok file, w3) ->
  h _ (op.io_Copy file (Body c)) w3 = ((file', err), w4) ->
  h _ (op.Close file') w4 = ((doc, cerr), w5) ->
  files.close_error err cerr = Some e ->
  (run h (files.OverwriteFileContentHandler c) w).1 = (files.Failed e, w5).
Proof.
  intros Hget Hdoc Hrev Hopen Hcopy Hclose He.
  rewrite (run_Overwrite h c w w1 w2 olddoc newdoc t Hget Hdoc), Hrev, Hopen.
  cbv iota beta. rewrite Hcopy. cbv iota beta. rewrite Hclose. cbv iota beta.
  by rewrite He.
Qed.

End Upload.
(** ** The tags of a creation *)

Lemma string_app_assoc (s t u : string) : (s +:+ t) +:+ u = s +:+ (t +:+ u).
Proof.
  induction s as [|c s IH]; [reflexivity|].
  change ((String c s +:+ t) +:+ u) with (String c ((s +:+ t) +:+ u)).
  change (String c s +:+ (t +:+ u)) with (String c (s +:+ (t +:+ u))).
  by rewrite IH.
Qed.

Lemma string_app_nil_r (s : string) : s +:+ EmptyString = s.
Proof.
  induction s as [|c s IH]; [reflexivity|].
  change (String c s +:+ EmptyString) with (String c (s +:+ EmptyString)).
  by rewrite IH.
Qed.

Lemma occurs_app (c : ascii) (s t : string) :
  occurs c (s +:+ t) = occurs c s || occurs c t.
Proof.
  induction s as [|a s IH]; [reflexivity|].
  change (String a s +:+ t) with (String a (s +:+ t)).
  cbn [occurs]. rewrite IH. by rewrite orb_assoc.
Qed.

Lemma split_from_cons (sep : ascii) (s cur : string) :
  exists first rest, split_from sep s cur = first :: rest.
Proof.
  revert cur. induction s as [|c s IH]; intros cur; cbn [split_from].
  - by exists cur, [].
  - destruct (Ascii.eqb c sep); [by eexists _, _ | apply IH].
Qed.

Lemma strings_Join_cons (e : string) (l : list string) (sep : string) :
  l <> [] -> strings_Join (e :: l) sep = e +:+ sep +:+ strings_Join l sep.
Proof. by destruct l. Qed.

Lemma split_from_join (sep : ascii) (s cur : string) :
  strings_Join (split_from sep s cur) (String sep EmptyString) = cur +:+ s.
Proof.
  revert cur. induction s as [|c s IH]; intros cur; cbn [split_from].
  - cbn. by rewrite string_app_nil_r.
  - destruct (Ascii.eqb c sep) eqn:Hc.
    + apply Ascii.eqb_eq in Hc as ->.
      rewrite strings_Join_cons.
      2:{ destruct (split_from_cons sep s EmptyString) as (a & l & ->). done. }
      by rewrite IH.
    + rewrite IH. rewrite string_app_assoc. reflexivity.
Qed.

Lemma split_from_no_sep (sep : ascii) (s cur : string) :
  occurs sep cur = false ->
  Forall (fun piece => occurs sep piece = false) (split_from sep s cur).
Proof.
  revert cur. induction s as [|c s IH]; intros cur Hcur; cbn [split_from].
  - by apply Forall_cons_2.
  - destruct (Ascii.eqb c sep) eqn:Hc.
    + apply Forall_cons_2; [done|]. by apply IH.
    + apply IH. rewrite occurs_app, Hcur. cbn. by rewrite Hc.
Qed.

Section Tags.

Context {W : Type} (h : forall X, vfsE X -> W -> X * W).

(** What [strings.Split] makes of the [Tags] parameter. *)
Local Abbreviation tags_of c := (strings_Split (QueryParam c "Tags") files.TagSeparator).

Lemma createFileHandler_tags (c : EchoContext) (w : W) :
  Forall (fun k => forall tags, call_tags k = Some tags -> tags = tags_of c)
    (run h (files.createFileHandler c) w).2.
Proof.
  unfold files.createFileHandler. rewrite run_bind.
  destruct (run_fileDocFromReq h c (QueryParam c "Name") (Param c "dir-id") (tags_of c) w)
    as [[err ->] | (size & md5Sum & mime & class & _ & _ & _ & ->)]; cbv iota beta.
  { rewrite run_ret. cbn. apply Forall_nil_2. }
  destruct (h _ _ w) as [[doc|err] w1]; cbn [fst snd]; cbv iota beta.
  2:{ rewrite run_ret. cbn. apply Forall_cons_2; [|apply Forall_nil_2].
      cbn. by intros tags [= <-]. }
  rewrite run_bind, run_call.
  destruct (h _ (op.CreateFile doc None) w1) as [[file|err] w2]; cbv iota beta.
  2:{ rewrite run_ret. cbn.
      repeat (apply Forall_cons_2; [cbn; intros tags; by intros [= <-] |]).
      apply Forall_nil_2. }
  rewrite run_bind, run_call.
  destruct (h _ (op.io_Copy file (Body c)) w2) as [[file' err] w3]; cbv iota beta.
  rewrite run_bind, run_call.
  destruct (h _ (op.Close file') w3) as [[doc' cerr] w4]; cbv iota beta.
  destruct (files.close_error err cerr); rewrite run_ret; cbn;
    repeat (apply Forall_cons_2; [cbn; intros tags; by intros [= <-] |]);
    apply Forall_nil_2.
Qed.

Lemma createDirHandler_tags (c : EchoContext) (w : W) :
  Forall (fun k => forall tags, call_tags k = Some tags -> tags = tags_of c)
    (run h (files.createDirHandler c) w).2.
Proof.
  unfold files.createDirHandler. cbv zeta.
  destruct (str_nonempty (QueryParam c "Path")).
  { destruct (String.eqb (QueryParam c "Recursive") "true"); rewrite run_call;
      destruct (h _ _ w) as [r w1]; cbn;
      (apply Forall_cons_2; [cbn; intros tags; by intros [= <-] | apply Forall_nil_2]). }
  rewrite run_bind, run_call.
  destruct (h _ (op.NewDirDoc _ _ _) w) as [[doc|err] w1]; cbv iota beta.
  2:{ rewrite run_ret. cbn.
      apply Forall_cons_2; [cbn; intros tags; by intros [= <-] | apply Forall_nil_2]. }
  rewrite run_call. destruct (h _ (op.CreateDir doc) w1) as [r w2]. cbn.
  repeat (apply Forall_cons_2; [cbn; intros tags; by intros [= <-] |]).
  apply Forall_nil_2.
Qed.

(** The tags a creation hands to package [vfs] are the pieces of the [Tags]
    query parameter between its commas: at least one of them, none with a
    comma, empty ones kept, and joined with commas they give the parameter
    back.  A request without the parameter hands over one tag, the empty
    string. *)
Theorem creation_tags_are_the_pieces (FileType DirType : string) (c : EchoContext)
    (w : W) :
  Forall
    (fun k =>
       forall tags, call_tags k = Some tags ->
         tags <> []
         /\ strings_Join tags "," = QueryParam c "Tags"
         /\ Forall (fun tag => occurs "," tag = false) tags
         /\ (QueryParam c "Tags" = EmptyString -> tags = [EmptyString]))
    (run h (files.CreationHandler FileType DirType c) w).2.
Proof.
  assert (Hpieces : forall tags, tags = tags_of c ->
            tags <> []
            /\ strings_Join tags "," = QueryParam c "Tags"
            /\ Forall (fun tag => occurs "," tag = false) tags
            /\ (QueryParam c "Tags" = EmptyString -> tags = [EmptyString])).
  { intros tags ->. unfold strings_Split, files.TagSeparator.
    split; [|split; [|split]].
    - destruct (split_from_cons "," (QueryParam c "Tags") EmptyString) as (a & l & ->). done.
    - apply split_from_join.
    - by apply split_from_no_sep.
    - by intros ->. }
  assert (Hall : Forall (fun k => forall tags, call_tags k = Some tags -> tags = tags_of c)
                   (run h (files.CreationHandler FileType DirType c) w).2).
  { unfold files.CreationHandler. cbv zeta. rewrite run_bind.
    destruct (String.eqb (QueryParam c "Type") FileType).
    - rewrite run_bind.
      pose proof (createFileHandler_tags c w) as Ht.
      destruct (run h (files.createFileHandler c) w) as [[r w1] t].
      rewrite run_ret. cbn [fst snd] in Ht |- *.
      destruct r; rewrite run_ret; cbn [snd]; by rewrite !app_nil_r.
    - destruct (String.eqb (QueryParam c "Type") DirType).
      + rewrite run_bind.
        pose proof (createDirHandler_tags c w) as Ht.
        destruct (run h (files.createDirHandler c) w) as [[r w1] t].
        rewrite run_ret. cbn [fst snd] in Ht |- *.
        destruct r; rewrite run_ret; cbn [snd]; by rewrite !app_nil_r.
      + rewrite !run_ret. cbn. apply Forall_nil_2. }
  eapply Forall_impl; [exact Hall|].
  intros k Hk tags Htags. apply Hpieces. by apply Hk.
Qed.

End Tags.
Lemma creation_refused_before_vfs_witness :
  run example.h (files.CreationHandler "file" "directory" sample.post_other_type)
    example.world
  = (files.Failed (JsonapiErr (InvalidAttribute "type" ErrDocTypeInvalid)),
     example.world, [])
  /\ run example.h (files.CreationHandler "file" "directory" sample.post_bad_length)
       example.world
     = (files.Failed
          (JsonapiErr (InvalidParameter "Content-Length"
                         (ErrorString "Invalid content length"))), example.world, [])
  /\ run example.h (files.CreationHandler "file" "directory" sample.post_bad_digest)
       example.world
     = (files.Failed
          (JsonapiErr (InvalidParameter "Content-MD5"
                         (ErrorString "Given Content-MD5 is invalid"))), example.world, []).
Proof.
  split; [|split].
  - apply (proj1 (creation_refused_before_vfs example.h "file" "directory"
                    sample.post_other_type example.world)); reflexivity.
  - apply (proj1 (proj2 (creation_refused_before_vfs example.h "file" "directory"
                           sample.post_bad_length example.world)) eq_refl
             0 (ErrorString "Invalid content length")).
    vm_compute. reflexivity.
  - apply (proj2 (proj2 (creation_refused_before_vfs example.h "file" "directory"
                           sample.post_bad_digest example.world)) eq_refl
             12 (ErrorString "Given Content-MD5 is invalid")).
    + vm_compute. reflexivity.
    + reflexivity.
    + vm_compute. reflexivity.
Defined.

Lemma overwrite_late_error_unwrapped_witness :
  (run example.h (files.OverwriteFileContentHandler sample.put_wrong_digest)
     example.world).1.1
  = files.Failed (VfsErr ErrInvalidHash)
  /\ is_formatted (VfsErr ErrInvalidHash) = false.
Proof.
  split; [|reflexivity].
  erewrite (overwrite_late_error_unwrapped example.h sample.put_wrong_digest
              example.world); cycle 1.
  - vm_compute. reflexivity.
  - vm_compute. reflexivity.
  - reflexivity.
  - vm_compute. reflexivity.
  - vm_compute. reflexivity.
  - vm_compute. reflexivity.
  - vm_compute. reflexivity.
  - reflexivity.
Defined.
(** ** Runs of programs over any calls *)

Section IoRuns.

Context {E : Type -> Type} {W : Type} (h : forall X, E X -> W -> X * W).

Lemma io_run_bind {A B : Type} (p : io E A) (f : A -> io E B) (w : W) :
  io_run h (p ≫= f) w
  = let '(a, w1, t1) := io_run h p w in
    let '(b, w2, t2) := io_run h (f a) w1 in
    (b, w2, t1 ++ t2).
Proof.
  unfold mbind, io_mbind. revert w.
  induction p as [a|X e k IH]; intros w; cbn [io_bind io_run].
  - destruct (io_run h (f a) w) as [[b w2] t2]. reflexivity.
  - destruct (h X e w) as [x w1]. rewrite IH.
    destruct (io_run h (k x) w1) as [[a w2] t1].
    destruct (io_run h (f a) w2) as [[b w3] t2]. reflexivity.
Qed.

Lemma io_run_perform {X : Type} (e : E X) (w : W) :
  io_run h (perform e) w = let '(x, w1) := h X e w in (x, w1, [Ev e]).
Proof. unfold perform. cbn [io_run]. by destruct (h X e w). Qed.

Lemma io_run_ret {A : Type} (a : A) (w : W) : io_run h (mret a) w = (a, w, []).
Proof. reflexivity. Qed.

End IoRuns.

(** ** The revision precondition of a patch *)

Section Modification.

Import files_io.

Context {DocPatch ObjectMarshalling Relationship : Type}.
Variable GetRelationship : ObjectMarshalling -> string -> option Relationship.
Variable ResourceIdentifier : Relationship -> option string.
Variable setDirID : DocPatch -> string -> DocPatch.

Context {W : Type}
  (h : forall X, filesE DocPatch ObjectMarshalling X -> W -> X * W).

Local Abbreviation Modification :=
  (ModificationHandler GetRelationship ResourceIdentifier setDirID).

Lemma run_Modification (c : EchoContext) (w w1 w2 : W) (obj : ObjectMarshalling)
    (patch patch' : DocPatch) (doc : vfs.DirDoc + vfs.FileDoc) :
  h _ (Bind (Body c)) w = (Ok (obj, patch), w1) ->
  patch_parent GetRelationship ResourceIdentifier setDirID obj patch = Some patch' ->
  h _ (patch_lookup c) w1 = (Ok doc, w2) ->
  io_run h (Modification c) w
  = match files.checkIfMatch c (doc_rev doc) with
    | Some err =>
        (ReplyError (files.wrapVfsError err), w2,
         [Ev (Bind (Body c)); Ev (patch_lookup c)])
    | None =>
        match doc with
        | inl dirDoc =>
            let '(r, w3) := h _ (ModifyDirMetadata dirDoc patch') w2 in
            (match r with
             | Err err => ReplyError (files.wrapVfsError err)
             | Ok data => ReplyData 200 (DirObject data)
             end, w3,
             [Ev (Bind (Body c)); Ev (patch_lookup c); patch_call doc patch'])
        | inr fileDoc =>
            let '(r, w3) := h _ (ModifyFileMetadata fileDoc patch') w2 in
            (match r with
             | Err err => ReplyError (files.wrapVfsError err)
             | Ok data => ReplyData 200 (FileObject data)
             end, w3,
             [Ev (Bind (Body c)); Ev (patch_lookup c); patch_call doc patch'])
        end
    end.
Proof.
  intros Hbind Hparent Hlookup. unfold ModificationHandler.
  rewrite io_run_bind, io_run_perform, Hbind. cbv iota beta. rewrite Hparent.
  cbv zeta. rewrite io_run_bind.
  assert (Hl : io_run h
                 (if String.eqb (Param c "file-id") "metadata"
                  then perform (GetDirOrFileDocFromPath (QueryParam c "Path") false)
                  else perform (GetDirOrFileDoc (Param c "file-id") false)) w1
               = (Ok doc, w2, [Ev (patch_lookup c)])).
  { unfold patch_lookup in *.
    destruct (String.eqb (Param c "file-id") "metadata");
      by rewrite io_run_perform, Hlookup. }
  rewrite Hl. cbv iota beta.
  destruct (files.checkIfMatch c (doc_rev doc)) as [err|].
  { by rewrite io_run_ret. }
  destruct doc as [dirDoc|fileDoc].
  - rewrite io_run_bind, io_run_perform.
    destruct (h _ (ModifyDirMetadata dirDoc patch') w2) as [[data|err] w3];
      cbv iota beta; by rewrite io_run_ret.
  - rewrite io_run_bind, io_run_perform.
    destruct (h _ (ModifyFileMetadata fileDoc patch') w2) as [[data|err] w3];
      cbv iota beta; by rewrite io_run_ret.
Qed.

(** A patch that comes with an expected revision other than the revision of
    the document found fails with the precondition-failed error named
    "If-Match" and calls neither [vfs.ModifyFileMetadata] nor
    [vfs.ModifyDirMetadata]; without an expected revision, or with the
    revision of the document, its last call is the one that patches the
    document found, with the patch of the request. *)
Theorem modification_checks_the_revision (c : EchoContext) (w w1 w2 : W)
    (obj : ObjectMarshalling) (patch patch' : DocPatch)
    (doc : vfs.DirDoc + vfs.FileDoc) :
  h _ (Bind (Body c)) w = (Ok (obj, patch), w1) ->
  patch_parent GetRelationship ResourceIdentifier setDirID obj patch = Some patch' ->
  h _ (patch_lookup c) w1 = (Ok doc, w2) ->
  (str_nonempty (expected_revision c) = true ->
   expected_revision c <> doc_rev doc ->
   io_run h (Modification c) w
   = (ReplyError
        (JsonapiErr
           (PreconditionFailed "If-Match" (ErrorString "Revision does not match."))),
      w2, [Ev (Bind (Body c)); Ev (patch_lookup c)])
   /\ existsb modifies (io_run h (Modification c) w).2 = false)
  /\ (str_nonempty (expected_revision c) = false \/ expected_revision c = doc_rev doc ->
      (io_run h (Modification c) w).2
      = [Ev (Bind (Body c)); Ev (patch_lookup c); patch_call doc patch']).
Proof.
  intros Hbind Hparent Hlookup.
  rewrite (run_Modification c w w1 w2 obj patch patch' doc Hbind Hparent Hlookup).
  rewrite checkIfMatch_expected. split.
  - intros Hsome Hstale. rewrite Hsome.
    replace (String.eqb (doc_rev doc) (expected_revision c)) with false.
    2:{ symmetry. apply String.eqb_neq. congruence. }
    cbn [andb negb files.wrapVfsError fst snd]. split; [done|].
    unfold patch_lookup. by destruct (String.eqb (Param c "file-id") "metadata").
  - intros Hpass.
    replace (str_nonempty (expected_revision c)
             && negb (String.eqb (doc_rev doc) (expected_revision c))) with false.
    2:{ destruct Hpass as [-> | ->]; [done|]. rewrite String.eqb_refl.
        by rewrite andb_false_r. }
    destruct doc as [dirDoc|fileDoc].
    + by destruct (h _ (ModifyDirMetadata dirDoc patch') w2) as [r w3].
    + by destruct (h _ (ModifyFileMetadata fileDoc patch') w2) as [r w3].
Qed.

(** A patch whose body [jsonapi.Bind] refuses, or whose relationship "parent"
    holds no resource identifier, is answered with the error of
    [jsonapi.BadJSON] after the one call that decodes the body; when the
    relationship holds an identifier, it is the [DirID] of the patch handed
    to package [vfs], whatever the body gave for it. *)
Theorem modification_reads_the_parent (c : EchoContext) (w : W) :
  (forall err w1,
     h _ (Bind (Body c)) w = (Err err, w1) ->
     io_run h (Modification c) w = (ReplyBadJSON, w1, [Ev (Bind (Body c))]))
  /\ (forall obj patch rel w1,
        h _ (Bind (Body c)) w = (Ok (obj, patch), w1) ->
        GetRelationship obj "parent" = Some rel ->
        ResourceIdentifier rel = None ->
        io_run h (Modification c) w = (ReplyBadJSON, w1, [Ev (Bind (Body c))]))
  /\ (forall obj patch rel id w1 doc w2,
        h _ (Bind (Body c)) w = (Ok (obj, patch), w1) ->
        GetRelationship obj "parent" = Some rel ->
        ResourceIdentifier rel = Some id ->
        h _ (patch_lookup c) w1 = (Ok doc, w2) ->
        files.checkIfMatch c (doc_rev doc) = None ->
        (io_run h (Modification c) w).2
        = [Ev (Bind (Body c)); Ev (patch_lookup c);
           patch_call doc (setDirID patch id)]).
Proof.
  split; [|split].
  - intros err w1 Hbind. unfold ModificationHandler.
    rewrite io_run_bind, io_run_perform, Hbind. cbv iota beta.
    by rewrite io_run_ret.
  - intros obj patch rel w1 Hbind Hrel Hid. unfold ModificationHandler.
    rewrite io_run_bind, io_run_perform, Hbind. cbv iota beta.
    unfold patch_parent. rewrite Hrel, Hid. by rewrite io_run_ret.
  - intros obj patch rel id w1 doc w2 Hbind Hrel Hid Hlookup Hcheck.
    rewrite (run_Modification c w w1 w2 obj patch (setDirID patch id) doc Hbind);
      [|unfold patch_parent; by rewrite Hrel, Hid | done].
    rewrite Hcheck. destruct doc as [dirDoc|fileDoc].
    + by destruct (h _ (ModifyDirMetadata dirDoc (setDirID patch id)) w2) as [r w3].
    + by destruct (h _ (ModifyFileMetadata fileDoc (setDirID patch id)) w2) as [r w3].
Qed.

End Modification.
Lemma modification_checks_the_revision_witness :
  io_run sample.patch_h
    (files_io.ModificationHandler sample.GetRelationship sample.ResourceIdentifier
       sample.setDirID sample.patch_stale) example.world
  = (files_io.ReplyError
       (JsonapiErr
          (PreconditionFailed "If-Match" (ErrorString "Revision does not match."))),
     example.world,
     [Ev (files_io.Bind (list_ascii_of_string "{}"));
      Ev (files_io.GetDirOrFileDoc "file-1" false)]).
Proof.
  refine (proj1 (proj1
            (modification_checks_the_revision sample.GetRelationship
               sample.ResourceIdentifier sample.setDirID sample.patch_h
               sample.patch_stale example.world example.world example.world
               ∅ {[ "name" := "renamed.txt" ]} {[ "name" := "renamed.txt" ]}
               (inr example.notes) _ _ _) _ _));
    first [reflexivity | discriminate].
Defined.

(** ** The handlers that read *)

Section Reads.

Import files_io.

Context {DocPatch ObjectMarshalling : Type}.
Variable Included : vfs.DirDoc -> list Object.
Variable TrashDirID : string.

Context {W : Type}
  (h : forall X, filesE DocPatch ObjectMarshalling X -> W -> X * W).

(** The handlers of the GET and HEAD routes never call
    [vfs.ModifyFileMetadata], [vfs.ModifyDirMetadata] or [jsonapi.Bind]; the
    three that answer with metadata make one call, a lookup; the two that
    answer with a content call [vfs.ServeFileContent] at most once, last, for
    the document their lookup found; and the error they return, when they
    fail, is a [*jsonapi.Error] or a [*couchdb.Error]. *)
Theorem read_handlers_only_read (c : EchoContext) (w : W) :
  (io_run h (ReadMetadataFromIDHandler c) w).2
  = [Ev (GetDirOrFileDoc (Param c "file-id") true)]
  /\ (io_run h (ReadMetadataFromPathHandler c) w).2
     = [Ev (GetDirOrFileDocFromPath (QueryParam c "Path") true)]
  /\ (io_run h (ReadTrashFilesHandler Included TrashDirID c) w).2
     = [Ev (GetDirDoc TrashDirID true)]
  /\ (io_run h (ReadFileContentFromIDHandler c) w).2
     = Ev (GetFileDoc (Param c "file-id"))
         :: match (h _ (GetFileDoc (Param c "file-id")) w).1 with
            | Ok doc => [Ev (ServeFileContent doc "inline")]
            | Err _ => []
            end
  /\ (io_run h (ReadFileContentFromPathHandler c) w).2
     = Ev (GetFileDocFromPath (QueryParam c "Path"))
         :: match (h _ (GetFileDocFromPath (QueryParam c "Path")) w).1 with
            | Ok doc => [Ev (ServeFileContent doc "attachment")]
            | Err _ => []
            end
  /\ Forall
       (fun reply => match reply with
                     | ReplyError err => is_formatted err = true
                     | ReplyBadJSON => False
                     | _ => True
                     end)
       [(io_run h (ReadMetadataFromIDHandler c) w).1.1;
        (io_run h (ReadMetadataFromPathHandler c) w).1.1;
        (io_run h (ReadTrashFilesHandler Included TrashDirID c) w).1.1;
        (io_run h (ReadFileContentFromIDHandler c) w).1.1;
        (io_run h (ReadFileContentFromPathHandler c) w).1.1].
Proof.
  unfold ReadMetadataFromIDHandler, ReadMetadataFromPathHandler, ReadTrashFilesHandler,
    ReadFileContentFromIDHandler, ReadFileContentFromPathHandler.
  cbv zeta. rewrite !io_run_bind, !io_run_perform.
  destruct (h _ (GetDirOrFileDoc (Param c "file-id") true) w) as [[d1|e1] w1].
  all: destruct (h _ (GetDirOrFileDocFromPath (QueryParam c "Path") true) w) as [[d2|e2] w2].
  all: destruct (h _ (GetDirDoc TrashDirID true) w) as [[d3|e3] w3].
  all: destruct (h _ (GetFileDoc (Param c "file-id")) w) as [[d4|e4] w4].
  all: destruct (h _ (GetFileDocFromPath (QueryParam c "Path")) w) as [[d5|e5] w5].
  all: cbv iota beta; rewrite ?io_run_bind, ?io_run_perform, ?io_run_ret.
  all: try destruct (h _ (ServeFileContent d4 "inline") w4) as [[s4|] w4'].
  all: try destruct (h _ (ServeFileContent d5 "attachment") w5) as [[s5|] w5'].
  all: cbv iota beta; rewrite ?io_run_ret; cbn [fst snd app].
  all: repeat (split; [reflexivity|]).
  all: repeat (apply Forall_cons_2; [first [exact I | apply wrapVfsError_formatted]|]).
  all: apply Forall_nil_2.
Qed.

End Reads.
(** ** The error handlers *)

Section ErrorHandlers.

Import errors.

Variable Error : web_error -> string.
Variable Status : jsonapi_Error -> Z.
Variable IsDevRelease : bool.

Context {W : Type} (h : forall X, respE X -> W -> X * W).

Local Abbreviation ErrorHandler := (errors.ErrorHandler Error Status IsDevRelease).
Local Abbreviation HTMLErrorHandler := (errors.HTMLErrorHandler Error).

(** The status [HTMLErrorHandler] answers with: 404 for
    [instance.ErrNotFound], be it the error itself or the inner error of an
    [*echo.HTTPError]; otherwise the code of an [*echo.HTTPError], and 500
    for any other error. *)
Lemma run_HTMLErrorHandler (err : web_error) (c : Context) (w : W) :
  exists (status : Z) (message : Msg) (title value : string),
    let inner :=
      match err with
      | HTTPError _ _ (Some inner) => inner
      | _ => err
      end in
    status = (if is_ErrNotFound inner then 404
              else match err with HTTPError Code _ _ => Code | _ => 500 end)
    /\ message = match err with HTTPError _ Message _ => Message | _ => MsgError err end
    /\ (title, value)
       = (if is_ErrNotFound inner
          then ("Error Instance not found Title", "Error Instance not found Message")
          else if 500 <=? status
               then ("Error Internal Server Error Title",
                     "Error Internal Server Error Message")
               else ("Error Title", Sprint Error message))
    /\ let log := Ev (Log (Instance c) (Method c) (Path c) err) in
       let '(_, w1) := h _ (Log (Instance c) (Method c) (Path c) err) w in
       exists write : respE (option web_error),
         write = (if String.eqb (Method c) "HEAD" then NoContent status
                  else if strings_Contains (Accept c) "application/json"
                       then JSON status message
                  else if strings_Contains (Accept c) "text/html"
                       then Render status "error.html"
                              (match InstanceSafe c with
                               | Some i => InstDomain i
                               | None => EmptyString
                               end) title value
                  else String status (Sprint Error message))
         /\ io_run h (HTMLErrorHandler err c) w
            = let '(werr, w2) := h _ write w1 in
              match werr with
              | Some werr =>
                  let '(_, w3) := h _ (Log (Instance c) (Method c) (Path c) werr) w2 in
                  (tt, w3, [log; Ev write;
                            Ev (Log (Instance c) (Method c) (Path c) werr)])
              | None => (tt, w2, [log; Ev write])
              end.
Proof.
  unfold errors.HTMLErrorHandler. cbv zeta.
  rewrite io_run_bind, io_run_perform.
  destruct (h _ (Log (Instance c) (Method c) (Path c) err) w) as [[] w1].
  cbv iota beta.
  set (inner := match err with HTTPError _ _ (Some inner) => inner | _ => err end).
  set (code := match err with HTTPError Code _ _ => Code | _ => 500 end).
  set (message := match err with HTTPError _ Message _ => Message | _ => MsgError err end).
  assert (Hsplit :
    match err with
    | HTTPError Code Message Inner =>
        (Code, match Inner with Some inner => inner | None => err end, Message)
    | _ => (StatusInternalServerError, err, MsgError err)
    end = (code, inner, message)).
  { subst inner code message. by destruct err as [Code Message [i|]| |]. }
  rewrite Hsplit. clear Hsplit.
  set (status := if is_ErrNotFound inner then 404 else code).
  exists status, message.
  destruct (is_ErrNotFound inner) eqn:Hnf.
  - eexists _, _. split; [done|]. split; [done|]. split; [reflexivity|].
    cbn [str_nonempty negb]. unfold StatusNotFound, MethodHead, MIMEApplicationJSON,
      MIMETextHTML. subst status.
    destruct (String.eqb (Method c) "HEAD");
      [|destruct (strings_Contains (Accept c) "application/json");
        [|destruct (strings_Contains (Accept c) "text/html")]].
    all: eexists; split; [reflexivity|].
    all: rewrite io_run_bind, io_run_perform.
    all: match goal with
         | |- context [h (option web_error) ?e ?w'] =>
             destruct (h (option web_error) e w') as [[werr|] w2]
         end.
    all: cbv iota beta; rewrite ?io_run_perform, ?io_run_ret.
    all: try match goal with
             | |- context [h unit ?e ?w'] => destruct (h unit e w') as [[] w3]
             end.
    all: reflexivity.
  - cbn [str_nonempty negb]. subst status.
    destruct (500 <=? code) eqn:Hcode.
    all: eexists _, _; split; [done|]; split; [done|]; split; [reflexivity|].
    all: unfold MethodHead, MIMEApplicationJSON, MIMETextHTML.
    all: destruct (String.eqb (Method c) "HEAD");
      [|destruct (strings_Contains (Accept c) "application/json");
        [|destruct (strings_Contains (Accept c) "text/html")]].
    all: eexists; split; [reflexivity|].
    all: rewrite io_run_bind, io_run_perform.
    all: match goal with
         | |- context [h (option web_error) ?e ?w'] =>
             destruct (h (option web_error) e w') as [[werr|] w2]
         end.
    all: cbv iota beta; rewrite ?io_run_perform, ?io_run_ret.
    all: try match goal with
             | |- context [h unit ?e ?w'] => destruct (h unit e w') as [[] w3]
             end.
    all: reflexivity.
Qed.

(** [HTMLErrorHandler] writes the response once, after a line of log: with the
    status 404 when the error, or the inner error of an [*echo.HTTPError], is
    [instance.ErrNotFound], whatever the code of the [*echo.HTTPError];
    otherwise with that code, or with 500 for any other error.  A HEAD
    request gets no body; otherwise JSON is written when the [Accept] header
    names it, also when it names HTML as well. *)
Theorem HTMLErrorHandler_writes_once (err : web_error) (c : Context) (w : W) :
  let inner :=
    match err with
    | HTTPError _ _ (Some inner) => inner
    | _ => err
    end in
  let status :=
    if is_ErrNotFound inner then 404
    else match err with HTTPError Code _ _ => Code | _ => 500 end in
  exists ev,
    List.filter writes (io_run h (HTMLErrorHandler err c) w).2 = [ev]
    /\ written_status Status ev = Some status
    /\ (String.eqb (Method c) "HEAD" = true -> ev = Ev (NoContent status))
    /\ (String.eqb (Method c) "HEAD" = false ->
        strings_Contains (Accept c) "application/json" = true ->
        exists message, ev = Ev (JSON status message))
    /\ (String.eqb (Method c) "HEAD" = false ->
        strings_Contains (Accept c) "application/json" = false ->
        strings_Contains (Accept c) "text/html" = true ->
        is_ErrNotFound inner = true ->
        exists domain,
          ev = Ev (Render 404 "error.html" domain "Error Instance not found Title"
                     "Error Instance not found Message")).
Proof.
  cbv zeta.
  destruct (run_HTMLErrorHandler err c w)
    as (status & message & title & value & -> & _ & Htitle & Hrun).
  cbv zeta in Htitle, Hrun.
  destruct (h _ (Log (Instance c) (Method c) (Path c) err) w) as [[] w1].
  destruct Hrun as (write & Hwrite & ->).
  exists (Ev write). split.
  { destruct (h _ write w1) as [[werr|] w2];
      [destruct (h _ (Log (Instance c) (Method c) (Path c) werr) w2) as [[] w3]|].
    all: cbn [snd List.filter writes].
    all: subst write.
    all: destruct (String.eqb (Method c) "HEAD");
      [|destruct (strings_Contains (Accept c) "application/json");
        [|destruct (strings_Contains (Accept c) "text/html")]]; reflexivity. }
  subst write.
  destruct (String.eqb (Method c) "HEAD");
    [|destruct (strings_Contains (Accept c) "application/json");
      [|destruct (strings_Contains (Accept c) "text/html")]].
  all: split; [reflexivity|].
  all: split; [done|]. all: split; [try done; intros _ _; by eexists|].
  all: try done.
  intros _ _ _ Hnf. rewrite Hnf in Htitle |- *. injection Htitle as -> ->.
  by eexists.
Qed.

Lemma run_ErrorHandler (err : web_error) (c : Context) (w : W) :
  let log := Log (Instance c) (Method c) (Path c) err in
  let w1 := if IsDevRelease then (h _ log w).2 else w in
  let logged := if IsDevRelease then [Ev log] else [] in
  io_run h (ErrorHandler err c) w
  = if Committed c then (tt, w1, logged)
    else
      match qualify Error err with
      | Some je =>
          let write :=
            if String.eqb (Method c) "HEAD" then NoContent (je_Status Status je)
            else DataError je in
          (tt, (h _ write w1).2, logged ++ [Ev write])
      | None =>
          let '(r, w2, t) := io_run h (HTMLErrorHandler err c) w1 in
          (r, w2, logged ++ t)
      end.
Proof.
  cbv zeta. unfold errors.ErrorHandler. cbv zeta. rewrite io_run_bind.
  assert (Hlog : io_run h
                   (if IsDevRelease
                    then perform (Log (Instance c) (Method c) (Path c) err)
                    else mret ()) w
                 = ((), (if IsDevRelease
                         then (h _ (Log (Instance c) (Method c) (Path c) err) w).2
                         else w),
                    if IsDevRelease
                    then [Ev (Log (Instance c) (Method c) (Path c) err)] else [])).
  { destruct IsDevRelease; [|reflexivity]. rewrite io_run_perform.
    by destruct (h _ (Log (Instance c) (Method c) (Path c) err) w) as [[] w1]. }
  rewrite Hlog. clear Hlog. cbv iota beta.
  destruct (Committed c). { rewrite io_run_ret. by rewrite app_nil_r. }
  destruct (qualify Error err) as [je|]; [|reflexivity].
  unfold MethodHead.
  destruct (String.eqb (Method c) "HEAD"); rewrite io_run_bind, io_run_perform.
  all: match goal with
       | |- context [h (option web_error) ?e ?w'] =>
           destruct (h (option web_error) e w') as [werr w2]
       end.
  all: by rewrite io_run_ret.
Qed.

(** [ErrorHandler] writes nothing to a response that is committed.  To one
    that is not, it writes once for every error but an [*echo.HTTPError]:
    the status alone of the [*jsonapi.Error] for a HEAD request, and the
    [*jsonapi.Error] as data otherwise, whatever the [Accept] header names;
    an [*echo.HTTPError] is left to [HTMLErrorHandler].  In a development
    release the log gets a line first; in another release such an error is
    not logged. *)
Theorem ErrorHandler_writes (err : web_error) (c : Context) (w : W) :
  (Committed c = true ->
   List.filter writes (io_run h (ErrorHandler err c) w).2 = [])
  /\ (forall je,
        Committed c = false -> qualify Error err = Some je ->
        List.filter writes (io_run h (ErrorHandler err c) w).2
        = [if String.eqb (Method c) "HEAD"
           then Ev (NoContent (je_Status Status je)) else Ev (DataError je)])
  /\ (forall Code Message Inner,
        Committed c = false -> err = HTTPError Code Message Inner ->
        List.filter writes (io_run h (ErrorHandler err c) w).2
        = List.filter writes
            (io_run h (HTMLErrorHandler err c)
               (if IsDevRelease
                then (h _ (Log (Instance c) (Method c) (Path c) err) w).2 else w)).2)
  /\ (IsDevRelease = true ->
      exists t,
        (io_run h (ErrorHandler err c) w).2
        = Ev (Log (Instance c) (Method c) (Path c) err) :: t)
  /\ (forall je,
        IsDevRelease = false -> qualify Error err = Some je ->
        Forall (fun ev => writes ev = true) (io_run h (ErrorHandler err c) w).2).
Proof.
  rewrite run_ErrorHandler. cbv zeta.
  split; [|split; [|split; [|split]]].
  - intros ->. cbn [snd]. by destruct IsDevRelease.
  - intros je -> ->. cbn [snd]. rewrite List.filter_app.
    destruct IsDevRelease; by destruct (String.eqb (Method c) "HEAD").
  - intros Code Message Inner -> ->. cbn [qualify].
    destruct (io_run h _ _) as [[r w2] t]. cbn [snd]. rewrite List.filter_app.
    by destruct IsDevRelease.
  - intros ->. destruct (Committed c); [by eexists|].
    destruct (qualify Error err) as [je|]; [by eexists|].
    destruct (io_run h _ _) as [[r w2] t]. by eexists.
  - intros je -> ->. destruct (Committed c); cbn [snd app]; [apply Forall_nil_2|].
    apply Forall_cons_2; [|apply Forall_nil_2].
    by destruct (String.eqb (Method c) "HEAD").
Qed.

(** [ErrorHandler] and [wrapVfsError]: an error that [wrapVfsError] returns as
    it is, or that package [os] takes for "exists" or "does not exist", is
    answered the same whether the handler wrapped it or not.  Any other error
    (a sentinel error of package [vfs], [ErrDocTypeInvalid], a plain message)
    is answered with the [*jsonapi.Error] of [wrapVfsError] when it was
    wrapped, and with the status 500 and the title "Unqualified error" when
    it was not. *)
Theorem ErrorHandler_qualifies (e : error) :
  (if is_formatted e || os.IsExist e || os.IsNotExist e
   then qualify Error (StdError (files.wrapVfsError e)) = qualify Error (StdError e)
   else
     qualify Error (StdError e)
     = Some (Literal 500 "Unqualified error" (Error (StdError e)))
     /\ exists je,
          files.wrapVfsError e = JsonapiErr je /\ jsonapi.cause je = e
          /\ qualify Error (StdError (files.wrapVfsError e)) = Some (Constructed je))
  /\ qualify Error instance_ErrNotFound
     = Some (Literal 500 "Unqualified error" (Error instance_ErrNotFound)).
Proof.
  split; [|reflexivity].
  destruct e as [msg|[]|status name reason|[]| |je]; cbn;
    first [ reflexivity | split; [reflexivity|]; eexists; repeat split ].
Qed.

End ErrorHandlers.
(** ** White space *)

Lemma app_String (c : ascii) (s t : string) : String c s +:+ t = String c (s +:+ t).
Proof. reflexivity. Qed.

(** A white space character that [r] starts with is one that [r +:+ t]
    starts with. *)
Lemma space_width_app (r t : string) (k : nat) :
  space_width r = S k -> space_width (r +:+ t) = S k.
Proof.
  destruct r as [|c0 [|c1 [|c2 r]]]; rewrite ?app_String; cbn [space_width].
  - done.
  - destruct (is_ascii_space c0); [done|]. done.
  - destruct (is_ascii_space c0); [done|].
    destruct ((byte_val c0 =? 194) && ((byte_val c1 =? 133) || (byte_val c1 =? 160)));
      [done|]. done.
  - done.
Qed.

Lemma space_width_le (s : string) : (space_width s <= String.length s)%nat.
Proof.
  destruct s as [|c0 [|c1 [|c2 r]]]; cbn [space_width String.length]; [lia|..].
  - destruct (is_ascii_space c0); lia.
  - destruct (is_ascii_space c0); [lia|].
    destruct ((byte_val c0 =? 194) && ((byte_val c1 =? 133) || (byte_val c1 =? 160))); lia.
  - destruct (is_ascii_space c0); [lia|].
    destruct ((byte_val c0 =? 194) && ((byte_val c1 =? 133) || (byte_val c1 =? 160)));
      [lia|].
    repeat match goal with |- context [if ?b then _ else _] => destruct b end; lia.
Qed.

Lemma TrimLeft_loop_no_space (s : string) (skip : nat) :
  space_width (TrimLeft_loop s skip) = 0%nat.
Proof.
  revert skip. induction s as [|c s IH]; intros skip; [done|].
  cbn [TrimLeft_loop]. destruct skip as [|k]; [|apply IH].
  destruct (space_width (String c s)) as [|k] eqn:Hw; [done | apply IH].
Qed.

Lemma TrimLeft_loop_suffix (s : string) (skip : nat) :
  exists a, s = a +:+ TrimLeft_loop s skip.
Proof.
  revert skip. induction s as [|c s IH]; intros skip; [by exists EmptyString|].
  cbn [TrimLeft_loop]. destruct skip as [|k].
  - destruct (space_width (String c s)) as [|k]; [by exists EmptyString|].
    destruct (IH k) as [a Ha]. exists (String c a). rewrite app_String. by rewrite <- Ha.
  - destruct (IH k) as [a Ha]. exists (String c a). rewrite app_String. by rewrite <- Ha.
Qed.

Lemma TrimLeft_fixed (s : string) : space_width s = 0%nat -> TrimLeft_loop s 0 = s.
Proof. intros Hw. destruct s as [|c s]; [done|]. cbn [TrimLeft_loop]. by rewrite Hw. Qed.

Lemma all_spaces_app (a b : string) (k : nat) :
  (k <= String.length a)%nat ->
  all_spaces_loop a k = true -> all_spaces_loop b 0 = true ->
  all_spaces_loop (a +:+ b) k = true.
Proof.
  revert k. induction a as [|c a IH]; intros k Hk Ha Hb.
  - cbn in Hk. by replace k with 0%nat by lia.
  - rewrite app_String. cbn [all_spaces_loop] in Ha |- *. cbn in Hk.
    destruct k as [|k]; [|apply IH; [lia|done..]].
    destruct (space_width (String c a)) as [|j] eqn:Hw; [done|].
    pose proof (space_width_le (String c a)) as Hle. rewrite Hw in Hle. cbn in Hle.
    pose proof (space_width_app (String c a) b j Hw) as Hw'.
    rewrite app_String in Hw'. rewrite Hw'. apply IH; [lia|done..].
Qed.

Lemma TrimRight_tail (s : string) :
  exists tail, s = TrimRight s +:+ tail /\ all_spaces_loop tail 0 = true.
Proof.
  induction s as [|c s (tail & Hs & Htail)]; [by exists EmptyString|].
  cbn [TrimRight]. destruct (all_spaces_loop (String c s) 0) eqn:Hall.
  - by exists (String c s).
  - exists tail. rewrite app_String. by rewrite <- Hs.
Qed.

Lemma TrimRight_idempotent (s : string) : TrimRight (TrimRight s) = TrimRight s.
Proof.
  induction s as [|c s IH]; [done|].
  cbn [TrimRight]. destruct (all_spaces_loop (String c s) 0) eqn:Hall; [done|].
  cbn [TrimRight]. rewrite IH.
  destruct (all_spaces_loop (String c (TrimRight s)) 0) eqn:Hall'; [|done].
  destruct (TrimRight_tail s) as (tail & Hs & Htail).
  pose proof (all_spaces_app (String c (TrimRight s)) tail 0 ltac:(lia) Hall' Htail) as H.
  rewrite app_String, <- Hs in H. congruence.
Qed.

Lemma TrimRight_no_space (s : string) :
  space_width s = 0%nat -> space_width (TrimRight s) = 0%nat.
Proof.
  intros Hw. destruct (TrimRight_tail s) as (tail & Hs & _).
  destruct (space_width (TrimRight s)) as [|k] eqn:Hk; [done|].
  apply (space_width_app _ tail) in Hk. rewrite <- Hs in Hk. congruence.
Qed.

Lemma TrimSpace_idempotent (s : string) :
  strings_TrimSpace (strings_TrimSpace s) = strings_TrimSpace s.
Proof.
  unfold strings_TrimSpace.
  rewrite (TrimLeft_fixed (TrimRight (TrimLeft_loop s 0))).
  - apply TrimRight_idempotent.
  - apply TrimRight_no_space, TrimLeft_loop_no_space.
Qed.

Lemma TrimSpace_occurs (c : ascii) (s : string) :
  occurs c s = false -> occurs c (strings_TrimSpace s) = false.
Proof.
  unfold strings_TrimSpace. intros Hs.
  destruct (TrimLeft_loop_suffix s 0) as [a Ha].
  destruct (TrimRight_tail (TrimLeft_loop s 0)) as (tail & Ht & _).
  rewrite Ha, Ht, !occurs_app in Hs.
  by destruct (occurs c a), (occurs c (TrimRight (TrimLeft_loop s 0))).
Qed.

(** ** The tags of the earlier revision *)

(** A tag as [parseTags] returns them: not empty, without a comma, without
    white space before or after. *)
Lemma parseTags_loop_clean (pieces tags : list string) :
  Forall (fun piece => occurs "," piece = false) pieces ->
  Forall (fun tag => str_nonempty tag = true /\ occurs "," tag = false
                     /\ strings_TrimSpace tag = tag) tags ->
  Forall (fun tag => str_nonempty tag = true /\ occurs "," tag = false
                     /\ strings_TrimSpace tag = tag) (parseTags_loop pieces tags).
Proof.
  revert tags. induction pieces as [|piece pieces IH]; intros tags Hp Ht; [done|].
  apply Forall_cons_1 in Hp as [Hpiece Hp].
  cbn [parseTags_loop]. destruct (str_nonempty (strings_TrimSpace piece)) eqn:Hne.
  - apply IH; [done|]. apply Forall_app_2; [done|].
    apply Forall_cons_2; [|apply Forall_nil_2].
    split; [done|]. split; [by apply TrimSpace_occurs | apply TrimSpace_idempotent].
  - by apply IH.
Qed.

Lemma parseTags_loop_of_clean (pieces tags : list string) :
  Forall (fun tag => str_nonempty tag = true /\ strings_TrimSpace tag = tag) pieces ->
  parseTags_loop pieces tags = tags ++ pieces.
Proof.
  revert tags. induction pieces as [|piece pieces IH]; intros tags Hp.
  - by rewrite app_nil_r.
  - apply Forall_cons_1 in Hp as [[Hne Htrim] Hp].
    cbn [parseTags_loop]. rewrite Htrim, Hne, IH by done.
    by rewrite <- app_assoc.
Qed.

Lemma split_from_piece (sep : ascii) (t rest cur : string) :
  occurs sep t = false ->
  split_from sep (t +:+ rest) cur = split_from sep rest (cur +:+ t).
Proof.
  revert cur. induction t as [|c t IH]; intros cur Ht.
  - by rewrite string_app_nil_r.
  - rewrite app_String. cbn [split_from]. cbn [occurs] in Ht.
    apply orb_false_iff in Ht as [Hc Ht]. rewrite Hc, IH by done.
    by rewrite string_app_assoc.
Qed.

Lemma split_join (sep : ascii) (t : string) (ts : list string) :
  Forall (fun tag => occurs sep tag = false) (t :: ts) ->
  strings_Split (strings_Join (t :: ts) (String sep EmptyString)) sep = t :: ts.
Proof.
  unfold strings_Split. revert t. induction ts as [|t' ts IH]; intros t Hts.
  - apply Forall_cons_1 in Hts as [Ht _]. cbn [strings_Join].
    rewrite <- (string_app_nil_r t) at 1. by rewrite split_from_piece.
  - apply Forall_cons_1 in Hts as [Ht Hts].
    rewrite strings_Join_cons by done.
    rewrite split_from_piece by done. rewrite app_String. cbn [split_from].
    rewrite Ascii.eqb_refl. cbn. f_equal. by apply IH.
Qed.

Lemma parseTags_joined (tags : list string) :
  Forall (fun tag => str_nonempty tag = true /\ occurs "," tag = false
                     /\ strings_TrimSpace tag = tag) tags ->
  parseTags (strings_Join tags ",") = tags.
Proof.
  destruct tags as [|t ts]; intros Hl; [reflexivity|].
  unfold parseTags. rewrite split_join.
  - rewrite parseTags_loop_of_clean; [done|].
    eapply Forall_impl; [exact Hl|]. by intros tag (? & _ & ?).
  - eapply Forall_impl; [exact Hl|]. by intros tag (_ & ? & _).
Qed.

(** Every tag that [parseTags] returns is not empty, holds no comma, and has
    no white space before or after it: [strings.TrimSpace] leaves it as it
    is.  Joining the tags with commas and parsing again gives the same
    tags. *)
Theorem parseTags_tags_are_clean (str : string) :
  Forall (fun tag => str_nonempty tag = true /\ occurs "," tag = false
                     /\ strings_TrimSpace tag = tag) (parseTags str)
  /\ parseTags (strings_Join (parseTags str) ",") = parseTags str.
Proof.
  assert (Hclean : Forall (fun tag => str_nonempty tag = true /\ occurs "," tag = false
                                      /\ strings_TrimSpace tag = tag) (parseTags str)).
  { unfold parseTags. apply parseTags_loop_clean; [|apply Forall_nil_2].
    by apply split_from_no_sep. }
  split; [done|]. by apply parseTags_joined.
Qed.

(** [parseTags] gives back the tags that were joined with commas, when each
    of them is not empty, holds no comma and has no white space before or
    after it. *)
Theorem parseTags_of_joined_tags (tags : list string) :
  Forall (fun tag => str_nonempty tag = true /\ occurs "," tag = false
                     /\ strings_TrimSpace tag = tag) tags ->
  parseTags (strings_Join tags ",") = tags.
Proof.
  intros Hclean. destruct tags as [|t ts]; [reflexivity|].
  unfold parseTags. rewrite split_join.
  - rewrite parseTags_loop_of_clean; [done|].
    eapply Forall_impl; [exact Hclean|]. by intros tag (? & _ & ?).
  - eapply Forall_impl; [exact Hclean|]. by intros tag (_ & ? & _).
Qed.

Lemma parseTags_of_joined_tags_witness :
  parseTags "work,draft 2,to do" = ["work"; "draft 2"; "to do"].
Proof.
  apply (parseTags_of_joined_tags ["work"; "draft 2"; "to do"]).
  repeat (apply Forall_cons_2; [by vm_compute|]). apply Forall_nil_2.
Defined.
(** ** The lists of sources of the content security policy *)

Section CSP.

Import middlewares.

Lemma existsb_source (source : CSPSource) (l : list CSPSource) :
  existsb (fun s => s =? source) l = true <-> source ∈ l.
Proof.
  rewrite existsb_exists. split.
  - intros (s & Hin & Heq). apply Z.eqb_eq in Heq as ->. by apply list_elem_of_In.
  - intros Hin. exists source. split; [by apply list_elem_of_In | apply Z.eqb_refl].
Qed.

Lemma sourcesUnique_loop_NoDup (sources acc : list CSPSource) :
  NoDup acc -> NoDup (sourcesUnique_loop sources acc).
Proof.
  revert acc. induction sources as [|source sources IH]; intros acc Hacc; [done|].
  cbn [sourcesUnique_loop].
  destruct (existsb (fun s => s =? source) acc) eqn:Hex; [by apply IH|].
  apply IH. apply NoDup_app. split; [done|]. split.
  - intros x Hx Hx'. apply list_elem_of_singleton in Hx' as ->.
    apply existsb_source in Hx. congruence.
  - apply NoDup_singleton.
Qed.

Lemma sourcesUnique_loop_elem_of (sources acc : list CSPSource) (x : CSPSource) :
  x ∈ sourcesUnique_loop sources acc <-> x ∈ acc \/ x ∈ sources.
Proof.
  revert acc. induction sources as [|source sources IH]; intros acc.
  - cbn. rewrite elem_of_nil. tauto.
  - cbn [sourcesUnique_loop]. rewrite elem_of_cons.
    destruct (existsb (fun s => s =? source) acc) eqn:Hex.
    + rewrite IH. apply existsb_source in Hex. split; [tauto|].
      intros [?|[->|?]]; tauto.
    + rewrite IH, elem_of_app, list_elem_of_singleton. tauto.
Qed.

Context {URL : Type}.
Variable url_Parse : string -> option URL.
Variable setScheme : URL -> string -> URL.
Variable URL_Path : URL -> string.
Variable setPath : URL -> string -> URL.
Variable URL_String : URL -> string.

Local Abbreviation urls_of whitelist :=
  (whitelistFilter_loop url_Parse setScheme URL_Path setPath URL_String
     (strings_Fields whitelist)).
Local Abbreviation validCSPList :=
  (middlewares.validCSPList url_Parse setScheme URL_Path setPath URL_String).

Lemma validCSPList_eq (sources defaults : list CSPSource) (whitelist : string) :
  validCSPList sources defaults whitelist
  = match urls_of whitelist, sources with
    | [], [] => ([], EmptyString)
    | [], _ => (sourcesUnique_loop (sources ++ defaults) [], EmptyString)
    | urls, _ =>
        (sourcesUnique_loop ((sources ++ [CSPWhitelist]) ++ defaults) [],
         strings_Join urls " ")
    end.
Proof.
  unfold middlewares.validCSPList. cbv zeta.
  destruct (urls_of whitelist) as [|url urls]; destruct sources as [|s sources];
    reflexivity.
Qed.

Lemma validCSPList_NoDup (sources defaults : list CSPSource) (whitelist : string) :
  NoDup (validCSPList sources defaults whitelist).1.
Proof.
  rewrite validCSPList_eq.
  destruct (urls_of whitelist) as [|url urls]; [destruct sources as [|s sources]|].
  - apply NoDup_nil_2.
  - apply sourcesUnique_loop_NoDup, NoDup_nil_2.
  - apply sourcesUnique_loop_NoDup, NoDup_nil_2.
Qed.

Lemma validCSPList_whitelist (sources defaults : list CSPSource) (whitelist : string) :
  (validCSPList sources defaults whitelist).2 = strings_Join (urls_of whitelist) " ".
Proof.
  rewrite validCSPList_eq.
  by destruct (urls_of whitelist) as [|url urls]; [destruct sources as [|s sources]|].
Qed.

Lemma validCSPList_nil (sources defaults : list CSPSource) (whitelist : string) :
  (validCSPList sources defaults whitelist).1 = []
  <-> sources = [] /\ urls_of whitelist = [].
Proof.
  rewrite validCSPList_eq.
  destruct (urls_of whitelist) as [|url urls] eqn:Hurls.
  - destruct sources as [|s sources]; [done|]. cbn [fst].
    assert (Hin : s ∈ sourcesUnique_loop ((s :: sources) ++ defaults) []).
    { apply sourcesUnique_loop_elem_of. right. by left. }
    split; [|by intros [[=] _]]. intros Hnil. rewrite Hnil in Hin.
    by apply elem_of_nil in Hin.
  - cbn [fst].
    assert (Hin : CSPWhitelist
                  ∈ sourcesUnique_loop ((sources ++ [CSPWhitelist]) ++ defaults) []).
    { apply sourcesUnique_loop_elem_of. right. rewrite !elem_of_app.
      left. right. by apply list_elem_of_singleton. }
    split; [|by intros [_ [=]]]. intros Hnil. rewrite Hnil in Hin.
    by apply elem_of_nil in Hin.
Qed.

Lemma validCSPList_elem_of (sources defaults : list CSPSource) (whitelist : string)
    (x : CSPSource) :
  (validCSPList sources defaults whitelist).1 <> [] ->
  x ∈ (validCSPList sources defaults whitelist).1
  <-> x ∈ sources \/ x ∈ defaults \/ (x = CSPWhitelist /\ urls_of whitelist <> []).
Proof.
  rewrite validCSPList_eq.
  destruct (urls_of whitelist) as [|url urls] eqn:Hurls.
  - destruct sources as [|s sources]; [done|]. cbn [fst]. intros _.
    rewrite sourcesUnique_loop_elem_of, elem_of_nil, elem_of_app.
    split; [tauto|]. intros [?|[?|[_ ?]]]; tauto.
  - cbn [fst]. intros _.
    rewrite sourcesUnique_loop_elem_of, elem_of_nil, !elem_of_app,
      list_elem_of_singleton.
    split.
    + intros [[]|[[?|?]|?]]; [by left | by right; right | by right; left].
    + intros [?|[?|[? _]]]; tauto.
Qed.

(** The list of sources that [validCSPList] returns has no source twice.  It
    is empty exactly when the directive has no source of its own and no
    field of its whitelist that parses as a URL, whatever the defaults are;
    otherwise it holds the sources of the directive, the defaults, and the
    marker [CSPWhitelist] when a field of the whitelist parses, and nothing
    else.  The whitelist it returns is made of the fields that parse, joined
    by one space. *)
Theorem validCSPList_sources (sources defaults : list CSPSource) (whitelist : string) :
  NoDup (validCSPList sources defaults whitelist).1
  /\ (validCSPList sources defaults whitelist).2
     = strings_Join (urls_of whitelist) " "
  /\ ((validCSPList sources defaults whitelist).1 = []
      <-> sources = [] /\ urls_of whitelist = [])
  /\ ((validCSPList sources defaults whitelist).1 <> [] ->
      forall x,
        x ∈ (validCSPList sources defaults whitelist).1
        <-> x ∈ sources \/ x ∈ defaults
            \/ (x = CSPWhitelist /\ urls_of whitelist <> [])).
Proof.
  split; [apply validCSPList_NoDup|].
  split; [apply validCSPList_whitelist|].
  split; [apply validCSPList_nil|].
  intros Hne x. by apply validCSPList_elem_of.
Qed.

Local Abbreviation validate :=
  (middlewares.validate url_Parse setScheme URL_Path setPath URL_String).

Lemma validate_directives (conf : SecureConfig) :
  let default :=
    (validCSPList (CSPDefaultSrc conf) (CSPDefaultSrc conf)
       (CSPDefaultSrcWhitelist conf)).1 in
  CSPDefaultSrc (validate conf) = default
  /\ Forall
       (fun '(_, src, wl) =>
          src (validate conf) = (validCSPList (src conf) default (wl conf)).1
          /\ wl (validate conf) = (validCSPList (src conf) default (wl conf)).2)
       (tail directives).
Proof.
  cbv zeta. unfold middlewares.validate.
  destruct (validCSPList (CSPDefaultSrc conf) (CSPDefaultSrc conf)
              (CSPDefaultSrcWhitelist conf)) as [default defaultW].
  cbn [fst].
  destruct (validCSPList (CSPScriptSrc conf) default (CSPScriptSrcWhitelist conf))
    as [script scriptW] eqn:H1.
  destruct (validCSPList (CSPFrameSrc conf) default (CSPFrameSrcWhitelist conf))
    as [frame frameW] eqn:H2.
  destruct (validCSPList (CSPConnectSrc conf) default (CSPConnectSrcWhitelist conf))
    as [connect connectW] eqn:H3.
  destruct (validCSPList (CSPFontSrc conf) default (CSPFontSrcWhitelist conf))
    as [font fontW] eqn:H4.
  destruct (validCSPList (CSPImgSrc conf) default (CSPImgSrcWhitelist conf))
    as [img imgW] eqn:H5.
  destruct (validCSPList (CSPManifestSrc conf) default (CSPManifestSrcWhitelist conf))
    as [manifest manifestW] eqn:H6.
  destruct (validCSPList (CSPMediaSrc conf) default (CSPMediaSrcWhitelist conf))
    as [media mediaW] eqn:H7.
  destruct (validCSPList (CSPObjectSrc conf) default (CSPObjectSrcWhitelist conf))
    as [object objectW] eqn:H8.
  destruct (validCSPList (CSPStyleSrc conf) default (CSPStyleSrcWhitelist conf))
    as [style styleW] eqn:H9.
  destruct (validCSPList (CSPWorkerSrc conf) default (CSPWorkerSrcWhitelist conf))
    as [worker workerW] eqn:H10.
  split; [reflexivity|]. cbn [tail directives].
  repeat (apply Forall_cons_2;
            [cbv beta iota;
             by rewrite ?H1, ?H2, ?H3, ?H4, ?H5, ?H6, ?H7, ?H8, ?H9, ?H10|]).
  apply Forall_nil_2.
Qed.



End CSP.
(** ** The headers of the middleware *)

Lemma str_nonempty_app (a b : string) :
  str_nonempty (a +:+ b) = str_nonempty a || str_nonempty b.
Proof. by destruct a. Qed.

Section SecureHeaders.

Import middlewares.

Context {URL : Type}.
Variable url_Parse : string -> option URL.
Variable setScheme : URL -> string -> URL.
Variable URL_Path : URL -> string.
Variable setPath : URL -> string -> URL.
Variable URL_String : URL -> string.
Variable format_Seconds : Z -> string.
Variable SplitHost : string -> string * string * string.

Local Abbreviation validate :=
  (middlewares.validate url_Parse setScheme URL_Path setPath URL_String).
Local Abbreviation Secure :=
  (middlewares.Secure url_Parse setScheme URL_Path setPath URL_String format_Seconds
     SplitHost).
Local Abbreviation hstsHeader_of := (middlewares.hstsHeader_of format_Seconds).

Lemma directive_nonempty (parent siblings header cspWhitelist : string)
    (sources : list CSPSource) (isSecure : bool) :
  str_nonempty (directive parent siblings header cspWhitelist sources isSecure)
  = negb (bool_decide (sources = [])).
Proof.
  unfold directive. destruct sources as [|s sources]; [done|].
  replace (0 <? Z.of_nat (length (s :: sources))) with true
    by (symmetry; apply Z.ltb_lt; cbn [length]; lia).
  unfold makeCSPHeader. rewrite str_nonempty_app. cbn. apply orb_true_r.
Qed.

Lemma cspHeader_of_nonempty (conf : SecureConfig) (parent siblings : string)
    (isSecure : bool) :
  str_nonempty (cspHeader_of conf parent siblings isSecure) = false
  <-> Forall (fun '(_, src, _) => src conf = []) directives.
Proof.
  unfold cspHeader_of. rewrite !str_nonempty_app, !directive_nonempty.
  unfold directives. rewrite !Forall_cons, Forall_nil.
  rewrite !orb_false_iff, !negb_false_iff, !bool_decide_eq_true. tauto.
Qed.


End SecureHeaders.
(** ** A declared length with a sign *)

Section SignedLength.

Context {W : Type} (h : forall X, vfsE X -> W -> X * W).

(** A [Content-Length] header that spells a negative number is accepted as
    it is: the constructor of the document is called with that negative
    size, down to -2^63; nothing in the handlers refuses it. *)
Theorem negative_content_length_accepted (c : EchoContext) (name dirID : string)
    (tags : list string) (w : W) (digits : string) (v : Z) :
  Header_Get c "Content-Length" = String "-" digits ->
  Header_Get c "Content-MD5" = EmptyString ->
  str_nonempty digits = true ->
  digits_value digits 0 = Some v ->
  v <= 2 ^ 63 ->
  files.parseContentLength (Header_Get c "Content-Length") = (- v, None)
  /\ exists mime class,
       (run h (files.fileDocFromReq c name dirID tags) w).2
       = [MkCall (op.NewFileDoc name dirID (- v) [] mime class
                    (String.eqb (QueryParam c "Executable") "true") tags)].
Proof.
  intros Hcl Hmd5 Hne Hv Hle.
  assert (Hparse : files.parseContentLength (Header_Get c "Content-Length") = (- v, None)).
  { pose proof (ParseInt_decimal (Header_Get c "Content-Length")) as Hp.
    unfold files.parseContentLength. rewrite Hcl in Hp |- *.
    cbn [str_nonempty negb decimal_int64] in Hp |- *.
    change (Ascii.eqb "-" "+") with false in Hp.
    change (Ascii.eqb "-" "-") with true in Hp. cbv iota in Hp.
    unfold signed_value in Hp. rewrite Hne, Hv in Hp. cbn [negb] in Hp.
    pose proof (digits_value_nonneg digits v Hv) as Hpos.
    replace ((- 2 ^ 63 <=? - v) && (- v <=? 2 ^ 63 - 1)) with true in Hp.
    - by rewrite Hp.
    - symmetry. apply andb_true_iff. split; apply Z.leb_le; lia. }
  split; [done|].
  destruct (run_fileDocFromReq h c name dirID tags w)
    as [[err Herr] | (size & md5Sum & mime & class & Hsize & Hmd & _ & Hrun)].
  - unfold files.fileDocFromReq in Herr. rewrite Hparse, Hmd5 in Herr.
    cbn [str_nonempty] in Herr.
    destruct (files.ExtractMimeAndClass (Header_Get c "Content-Type")) as [mime class].
    rewrite run_call in Herr. by destruct (h _ _ w).
  - exists mime, class. cbv zeta in Hrun. rewrite Hrun. cbn [snd].
    rewrite Hparse in Hsize. cbn [fst] in Hsize. subst size.
    destruct Hmd as [[-> _] | Hmd]; [done|].
    rewrite Hmd5 in Hmd. by vm_compute in Hmd.
Qed.

End SignedLength.

Lemma negative_content_length_accepted_witness :
  files.parseContentLength (Header_Get sample.post_negative_length "Content-Length")
  = (- 5, None)
  /\ exists mime class,
       (run example.h
          (files.fileDocFromReq sample.post_negative_length "a.txt"
             vfs_model.RootDirID ["x"]) example.world).2
       = [MkCall (op.NewFileDoc "a.txt" vfs_model.RootDirID (- 5) [] mime class
                    (String.eqb (QueryParam sample.post_negative_length "Executable")
                       "true") ["x"])].
Proof.
  apply (negative_content_length_accepted example.h sample.post_negative_length
           "a.txt" vfs_model.RootDirID ["x"] example.world "5" 5);
    first [reflexivity | lia].
Defined.
(** ** The digest header is not canonical *)

Lemma string_length_app (a b : string) :
  String.length (a +:+ b) = (String.length a + String.length b)%nat.
Proof.
  induction a as [|c a IH]; [reflexivity|].
  rewrite app_String. cbn [String.length]. by rewrite IH.
Qed.

Lemma strip_newlines_app (a b : string) :
  base64.strip_newlines (a +:+ b) = base64.strip_newlines a ++ base64.strip_newlines b.
Proof.
  induction a as [|c a IH]; [reflexivity|].
  rewrite app_String. cbn [base64.strip_newlines].
  destruct (base64.is_newline c); by rewrite IH.
Qed.

Lemma is_newline_decodeMap (c : ascii) :
  base64.is_newline c = true -> base64.decodeMap c = 255.
Proof.
  unfold base64.is_newline. intros H. apply orb_true_iff in H as [H|H];
    apply Ascii.eqb_eq in H as ->; reflexivity.
Qed.

(** The last byte of a decoding takes the high two bits only of the second
    character of its group. *)
Lemma last_quantum_value (d0 d1 : Z) :
  Z.shiftr (Z.lor (Z.shiftl d0 18) (Z.shiftl d1 12)) 16
  = Z.lor (Z.shiftl d0 2) (d1 / 16).
Proof.
  rewrite Z.shiftr_lor, Z.shiftr_shiftl_l, Z.shiftr_shiftl_r by lia.
  by rewrite Z.shiftr_div_pow2 by lia.
Qed.

Lemma decode_swap_last (n : nat) (l : list ascii) (c c' : ascii) (out : list ascii) :
  (length l <= n)%nat ->
  base64.decodeMap c' <> 255 ->
  base64.decodeMap c / 16 = base64.decodeMap c' / 16 ->
  base64.decode (l ++ [c; "="; "="]%char) = Some out ->
  base64.decode (l ++ [c'; "="; "="]%char) = Some out.
Proof.
  intros Hn Hc' Hhigh. revert l out Hn.
  induction n as [|n IH]; intros l out Hn.
  { destruct l; [|cbn in Hn; lia]. done. }
  destruct l as [|a [|b [|d [|e l]]]]; cbn [app].
  - done.
  - cbn [base64.decode]. cbv zeta.
    change (Ascii.eqb "=" base64.padChar) with true. cbv iota.
    destruct (base64.decodeMap a =? 255); [done|]. cbn [orb].
    destruct (base64.decodeMap c =? 255); [done|].
    replace (base64.decodeMap c' =? 255) with false by (symmetry; by apply Z.eqb_neq).
    by rewrite !last_quantum_value, Hhigh.
  - cbn [base64.decode]. cbv zeta.
    change (Ascii.eqb "=" base64.padChar) with true.
    destruct ((base64.decodeMap a =? 255) || (base64.decodeMap b =? 255)); [done|].
    destruct (Ascii.eqb c base64.padChar); [done|].
    by destruct (base64.decodeMap c =? 255).
  - cbn [base64.decode]. cbv zeta.
    destruct ((base64.decodeMap a =? 255) || (base64.decodeMap b =? 255)); [done|].
    destruct (Ascii.eqb d base64.padChar).
    { by destruct (Ascii.eqb c base64.padChar). }
    destruct (base64.decodeMap d =? 255); [done|].
    destruct (Ascii.eqb c base64.padChar); [done|].
    by destruct (base64.decodeMap c =? 255).
  - cbn [base64.decode]. cbv zeta.
    destruct ((base64.decodeMap a =? 255) || (base64.decodeMap b =? 255)); [done|].
    destruct (Ascii.eqb d base64.padChar).
    { destruct (Ascii.eqb e base64.padChar); [|done]. by destruct l. }
    destruct (base64.decodeMap d =? 255); [done|].
    destruct (Ascii.eqb e base64.padChar); [by destruct l|].
    destruct (base64.decodeMap e =? 255); [done|].
    destruct (base64.decode (l ++ [c; "="; "="]%char)) as [out'|] eqn:Hrest; [|done].
    intros [= <-]. rewrite (IH l out'); [done | cbn in Hn; lia | done].
Qed.

(** [parseMD5Hash] is not injective: in a header that it accepts, the
    character before the padding can be replaced by any character of the
    alphabet whose value has the same two high bits, and the header is
    accepted with the same digest. *)
Theorem parseMD5Hash_ignores_low_bits (before : string) (c c' : ascii)
    (md5Sum : list ascii) :
  base64.decodeMap c <> 255 ->
  base64.decodeMap c' <> 255 ->
  base64.decodeMap c / 16 = base64.decodeMap c' / 16 ->
  files.parseMD5Hash (before +:+ String c "==") = Ok md5Sum ->
  files.parseMD5Hash (before +:+ String c' "==") = Ok md5Sum.
Proof.
  intros Hc Hc' Hhigh. unfold files.parseMD5Hash.
  assert (Hlen : len (before +:+ String c' "==") = len (before +:+ String c "==")).
  { unfold len. f_equal. rewrite !string_length_app. reflexivity. }
  rewrite Hlen.
  destruct ((len (before +:+ String c "==") <? 22)
            || (24 <? len (before +:+ String c "==")));
    [done|].
  assert (Hstrip : forall x, base64.decodeMap x <> 255 ->
            base64.strip_newlines (before +:+ String x "==")
            = base64.strip_newlines before ++ [x; "="; "="]%char).
  { intros x Hx. rewrite strip_newlines_app. f_equal.
    cbn [base64.strip_newlines].
    destruct (base64.is_newline x) eqn:Hnl; [|reflexivity].
    by apply is_newline_decodeMap in Hnl. }
  unfold base64.DecodeString. rewrite !Hstrip by done.
  destruct (base64.decode (base64.strip_newlines before ++ [c; "="; "="]%char))
    as [out|] eqn:Hdec; [|done].
  by rewrite (decode_swap_last _ _ c c' out (Nat.le_refl _) Hc' Hhigh Hdec).
Qed.

Lemma parseMD5Hash_ignores_low_bits_witness :
  files.parseMD5Hash "AQIDBAUGBwgJCgsMDQ4P/x=="
  = Ok (map byte_of [1; 2; 3; 4; 5; 6; 7; 8; 9; 10; 11; 12; 13; 14; 15; 255])
  /\ base64.EncodeToString
       (map byte_of [1; 2; 3; 4; 5; 6; 7; 8; 9; 10; 11; 12; 13; 14; 15; 255])
     = "AQIDBAUGBwgJCgsMDQ4P/w=="%string.
Proof.
  split; [|reflexivity].
  apply (parseMD5Hash_ignores_low_bits "AQIDBAUGBwgJCgsMDQ4P/" "w" "x");
    [by vm_compute | by vm_compute | reflexivity | reflexivity].
Defined.
(** ** What holds of every run *)

Section Holds.

Context {E : Type -> Type} {W : Type} (h : forall X, E X -> W -> X * W).

Lemma io_run_holds {R : Type} (Q : list (Event E) -> Prop) (p : io E R) (w : W) :
  holds Q p -> Q (io_run h p w).2.
Proof.
  revert Q w. induction p as [r|X e k IH]; intros Q w Hp; [done|].
  cbn [io_run]. destruct (h X e w) as [x w1].
  specialize (IH x _ w1 (Hp x)).
  by destruct (io_run h (k x) w1) as [[r w2] events].
Qed.

End Holds.

(** ** The handlers of the earlier revision *)

Ltac run_all :=
  repeat first
    [ progress cbn [holds mbind io_mbind io_bind perform mret io_ret]
    | match goal with |- forall _, _ => intros ? end
    | match goal with
      | |- context [match ?x with _ => _ end] => destruct x eqn:?
      end ].

Section Gin.

Import files_gin.

Context {DocMetaAttributes : Type}.
Variable WrapVfsError : error -> error.
Variable ParseDocType : string -> result string.
Variables (FileDocType FolderDocType : string).
Variable ToJSONApi : Object -> result (list ascii).
Variable jsonapi_ContentType : string.

Local Abbreviation Creation :=
  (CreationHandler DocMetaAttributes WrapVfsError ParseDocType FileDocType
     FolderDocType ToJSONApi jsonapi_ContentType).
Local Abbreviation Overwrite :=
  (OverwriteFileContentHandler DocMetaAttributes WrapVfsError ToJSONApi
     jsonapi_ContentType).
Local Abbreviation Modification :=
  (ModificationHandler DocMetaAttributes WrapVfsError ParseDocType FileDocType
     FolderDocType ToJSONApi jsonapi_ContentType).
Local Abbreviation ReadFile :=
  (ReadFileHandler DocMetaAttributes WrapVfsError ToJSONApi jsonapi_ContentType).

Ltac unfold_handlers :=
  unfold CreationHandler, OverwriteFileContentHandler, ModificationHandler,
    ReadFileHandler, ReadMetadataHandler, ReadFileContentHandler, modFileHandler,
    getVfsContext, createFileHandler, createDirectoryHandler, fileDocFromReq, respond.

Ltac of_instance_trace :=
  unfold of_instance;
  repeat (apply Forall_cons_2;
          [cbn [call_context]; intros vfsC Hctx;
           first [ discriminate Hctx
                 | injection Hctx as <-; cbn [NewContext ctx_fs ctx_prefix];
                   split; [assumption | reflexivity] ]|]);
  apply Forall_nil_2.

Lemma Creation_holds (c : GinContext) :
  holds (fun t => of_instance c t /\ answer_shape t = true) (Creation c).
Proof. unfold_handlers. run_all. all: split; [of_instance_trace | reflexivity]. Qed.

Lemma Overwrite_holds (c : GinContext) :
  holds (fun t => of_instance c t /\ answer_shape t = true) (Overwrite c).
Proof. unfold_handlers. run_all. all: split; [of_instance_trace | reflexivity]. Qed.

Lemma Modification_holds (c : GinContext) :
  holds (fun t => of_instance c t /\ answer_shape t = true) (Modification c).
Proof. unfold_handlers. run_all. all: split; [of_instance_trace | reflexivity]. Qed.

Lemma ReadFile_holds (c : GinContext) :
  holds (fun t => of_instance c t /\ answer_shape t = true) (ReadFile c).
Proof. unfold_handlers. run_all. all: split; [of_instance_trace | reflexivity]. Qed.

Context {W : Type} (h : forall X, ginE DocMetaAttributes X -> W -> X * W).

(** In the earlier revision every operation of package [vfs] that a handler
    calls is given the context of the instance of the request: its storage
    provider and its database prefix; a handler whose instance has no
    storage provider calls none. *)
Theorem earlier_handlers_use_the_context_of_the_instance (c : GinContext) (w : W) :
  of_instance c (io_run h (Creation c) w).2
  /\ of_instance c (io_run h (Overwrite c) w).2
  /\ of_instance c (io_run h (Modification c) w).2
  /\ of_instance c (io_run h (ReadFile c) w).2
  /\ forall err (events : list (Event (ginE DocMetaAttributes))),
       instance.GetStorageProvider (Instance c) = Err err ->
       of_instance c events ->
       Forall (fun ev => call_context ev = None) events.
Proof.
  split; [exact (proj1 (io_run_holds h _ _ w (Creation_holds c)))|].
  split; [exact (proj1 (io_run_holds h _ _ w (Overwrite_holds c)))|].
  split; [exact (proj1 (io_run_holds h _ _ w (Modification_holds c)))|].
  split; [exact (proj1 (io_run_holds h _ _ w (ReadFile_holds c)))|].
  intros err events Herr Hev. eapply Forall_impl; [exact Hev|].
  intros ev Hctx. cbv beta in Hctx.
  destruct (call_context ev) as [vfsC|]; [|done].
  destruct (Hctx vfsC eq_refl) as [Hfs _]. congruence.
Qed.

(** In the earlier revision a handler answers at the end of its calls, and
    not twice with data: after its calls to package [vfs] it calls [c.Data]
    once, or [jsonapi.AbortWithError] once or twice, or neither; and nothing
    after that. *)
Theorem earlier_handlers_answer_last (c : GinContext) (w : W) :
  answer_shape (io_run h (Creation c) w).2 = true
  /\ answer_shape (io_run h (Overwrite c) w).2 = true
  /\ answer_shape (io_run h (Modification c) w).2 = true
  /\ answer_shape (io_run h (ReadFile c) w).2 = true.
Proof.
  split; [exact (proj2 (io_run_holds h _ _ w (Creation_holds c)))|].
  split; [exact (proj2 (io_run_holds h _ _ w (Overwrite_holds c)))|].
  split; [exact (proj2 (io_run_holds h _ _ w (Modification_holds c)))|].
  exact (proj2 (io_run_holds h _ _ w (ReadFile_holds c))).
Qed.

(** In the earlier revision some errors are answered twice.  An upload
    whose [Content-Length] header is malformed is aborted by
    [fileDocFromReq] with the invalid-parameter error, and again by
    [CreationHandler] with what [jsonapi.WrapVfsError] makes of the bare
    parse error; an upload that package [vfs] refuses is aborted twice with
    the same error; and [ModificationHandler] aborts twice when the instance
    has no storage provider. *)
Theorem earlier_errors_abort_twice (c : GinContext) (w : W) :
  (forall fs size err,
     instance.GetStorageProvider (Instance c) = Ok fs ->
     ParseDocType (Query_ c "Type") = Ok FileDocType ->
     files.parseContentLength (Header_Get (Request c) "Content-Length")
     = (size, Some err) ->
     (io_run h (Creation c) w).2
     = [Ev (AbortWithError
              (JsonapiErr (InvalidParameter "Content-Length"
                             (ErrorString "Invalid content length"))));
        Ev (AbortWithError (WrapVfsError (ErrorString "Invalid content length")))])
  /\ (forall fs doc w1 t doc' err w2,
        instance.GetStorageProvider (Instance c) = Ok fs ->
        ParseDocType (Query_ c "Type") = Ok FileDocType ->
        io_run h (fileDocFromReq DocMetaAttributes c (Query_ c "Name")
                    (Param_ c "folder-id") (parseTags (Query_ c "Tags"))) w
        = (Some (Ok doc), w1, t) ->
        h _ (CreateFileAndUpload
               (NewContext fs (instance.GetDatabasePrefix (Instance c))) doc
               (Body (Request c))) w1
        = ((doc', Some err), w2) ->
        (io_run h (Creation c) w).2
        = t ++ [Ev (CreateFileAndUpload
                      (NewContext fs (instance.GetDatabasePrefix (Instance c))) doc
                      (Body (Request c)));
                Ev (AbortWithError (WrapVfsError err));
                Ev (AbortWithError (WrapVfsError err))])
  /\ (forall err,
        instance.GetStorageProvider (Instance c) = Err err ->
        (io_run h (Modification c) w).2
        = [Ev (AbortWithError (JsonapiErr (InternalServerError err)));
           Ev (AbortWithError (JsonapiErr (InternalServerError err)))]).
Proof.
  split; [|split].
  - intros fs size err Hfs Htype Hcl.
    assert (Herr : err = ErrorString "Invalid content length").
    { unfold files.parseContentLength in Hcl.
      destruct (negb (str_nonempty (Header_Get (Request c) "Content-Length"))); [done|].
      destruct (strconv.ParseInt (Header_Get (Request c) "Content-Length") 10)
        as [n [e|]]; by inversion Hcl. }
    subst err. unfold_handlers. cbv zeta. rewrite Hfs, Htype, String.eqb_refl, Hcl.
    cbn [mbind io_mbind io_bind perform mret io_ret io_run].
    destruct (h _ _ w) as [[] w1]. cbn [io_run].
    by destruct (h _ _ w1) as [[] w2].
  - intros fs doc w1 t doc' err w2 Hfs Htype Hdoc Hup.
    unfold CreationHandler, getVfsContext, createFileHandler.
    rewrite Hfs, Htype, String.eqb_refl.
    rewrite !io_run_bind, io_run_ret. cbv iota beta. rewrite !io_run_bind, Hdoc.
    cbv iota beta. rewrite io_run_bind, io_run_perform, Hup. cbv iota beta.
    rewrite io_run_bind, io_run_perform.
    destruct (h _ (AbortWithError (WrapVfsError err)) w2) as [[] w3] eqn:Ha1.
    rewrite !io_run_ret. cbv iota beta.
    rewrite io_run_bind, io_run_perform.
    destruct (h _ (AbortWithError (WrapVfsError err)) w3) as [[] w4].
    rewrite !io_run_ret. cbn [snd]. by rewrite app_nil_r, <- !app_assoc.
  - intros err Herr. unfold ModificationHandler, getVfsContext. rewrite Herr.
    cbn [mbind io_mbind io_bind perform mret io_ret io_run].
    destruct (h _ _ w) as [[] w1]. cbn [io_run].
    by destruct (h _ _ w1) as [[] w2].
Qed.

Lemma Overwrite_revision_checked (c : GinContext) :
  holds (fun t => Forall (revision_checked c) t) (Overwrite c).
Proof.
  unfold_handlers. run_all.
  all: repeat (apply Forall_cons_2; [try exact I|]); try apply Forall_nil_2.
  all: unfold revision_checked; cbv zeta.
  all: match goal with
       | H : _ && negb _ = false |- _ =>
           apply andb_false_iff in H as [H|H];
           [left; by apply str_nonempty_false
           |right; apply negb_false_iff in H; by apply String.eqb_eq in H]
       end.
Qed.

Lemma Modification_revision_checked (c : GinContext) :
  holds (fun t => Forall (revision_checked c) t) (Modification c).
Proof.
  unfold_handlers. run_all.
  all: repeat (apply Forall_cons_2; [try exact I|]); try apply Forall_nil_2.
  all: unfold revision_checked; cbv zeta.
  all: match goal with
       | H : _ && negb _ = false |- _ =>
           apply andb_false_iff in H as [H|H];
           [left; by apply str_nonempty_false
           |right; apply negb_false_iff in H; by apply String.eqb_eq in H]
       end.
Qed.

(** In the earlier revision the expected revision of a request is its
    [If-Match] header alone: a content or the metadata of a file are changed
    only for a document of the revision that the header names, when it names
    one; and the query parameter [rev] is not read: the overwrite of a request
    is the same program whatever the parameter is set to. *)
Theorem earlier_revision_is_If_Match_only (c : GinContext) (w : W) (rev : string) :
  Forall (revision_checked c) (io_run h (Overwrite c) w).2
  /\ Forall (revision_checked c) (io_run h (Modification c) w).2
  /\ Overwrite (with_rev c rev) = Overwrite c.
Proof.
  split; [exact (io_run_holds h _ _ w (Overwrite_revision_checked c))|].
  split; [exact (io_run_holds h _ _ w (Modification_revision_checked c))|].
  unfold OverwriteFileContentHandler, fileDocFromReq, getVfsContext, with_rev,
    Query_, Param_, QueryParam, Param, Header_Get.
  cbn [Request ContentType Instance Header Query Params Body].
  by rewrite lookup_insert_ne by done.
Qed.

End Gin.

Lemma earlier_errors_abort_twice_witness :
  (io_run sample.gin_h
     (files_gin.CreationHandler unit sample.WrapVfsError sample.ParseDocType
        "file" "directory" sample.ToJSONApi "application/vnd.api+json"
        sample.gin_bad_length) example.world).2
  = [Ev (files_gin.AbortWithError
           (JsonapiErr (InvalidParameter "Content-Length"
                          (ErrorString "Invalid content length"))));
     Ev (files_gin.AbortWithError
           (JsonapiErr (InternalServerError (ErrorString "Invalid content length"))))].
Proof.
  apply (proj1 (earlier_errors_abort_twice sample.WrapVfsError sample.ParseDocType
                  "file" "directory" sample.ToJSONApi "application/vnd.api+json"
                  sample.gin_h sample.gin_bad_length example.world)
           "mem://alice" 0 (ErrorString "Invalid content length"));
    [reflexivity | reflexivity | by vm_compute].
Defined.
(** ** The name of a database *)

Lemma gsub_dash_occurs (s : string) :
  occurs "." (Helpers.gsub_dash s) = false /\ occurs ":" (Helpers.gsub_dash s) = false.
Proof.
  induction s as [|c s [IH1 IH2]]; [done|].
  cbn [Helpers.gsub_dash occurs]. rewrite IH1, IH2, !orb_false_r.
  destruct (Ascii.eqb c ".") eqn:H1; [done|].
  destruct (Ascii.eqb c ":") eqn:H2; [done|]. done.
Qed.

Lemma gsub_dash_idempotent (s : string) :
  Helpers.gsub_dash (Helpers.gsub_dash s) = Helpers.gsub_dash s.
Proof.
  induction s as [|c s IH]; [done|].
  cbn [Helpers.gsub_dash]. rewrite IH. f_equal.
  destruct (Ascii.eqb c ".") eqn:H1; [done|].
  destruct (Ascii.eqb c ":") eqn:H2; [done|]. cbn [orb]. by rewrite H1, H2.
Qed.

Lemma gsub_dash_length (s : string) :
  String.length (Helpers.gsub_dash s) = String.length s.
Proof. induction s as [|c s IH]; [done|]. cbn. by rewrite IH. Qed.

(** [db_name] holds no '.' and no ':': each of them is a '-' in the name,
    which is as long as the domain and the type with the three bytes of
    "%2F" between them.  Names that are already without '.' and ':' are kept,
    so that a domain or a type and the one with '-' for its '.' and ':' get
    the same name. *)
Theorem db_name_has_no_dot (domain type : string) :
  occurs "." (Helpers.db_name domain type) = false
  /\ occurs ":" (Helpers.db_name domain type) = false
  /\ String.length (Helpers.db_name domain type)
     = (String.length domain + 3 + String.length type)%nat
  /\ Helpers.db_name (Helpers.gsub_dash domain) (Helpers.gsub_dash type)
     = Helpers.db_name domain type
  /\ (occurs "." domain = false -> occurs ":" domain = false ->
      occurs "." type = false -> occurs ":" type = false ->
      Helpers.db_name domain type = domain +:+ "%2F" +:+ type).
Proof.
  unfold Helpers.db_name. cbv zeta.
  destruct (gsub_dash_occurs domain) as [Hd1 Hd2].
  destruct (gsub_dash_occurs type) as [Ht1 Ht2].
  split; [by rewrite !occurs_app, Hd1, Ht1|].
  split; [by rewrite !occurs_app, Hd2, Ht2|].
  split; [rewrite !string_length_app, !gsub_dash_length; cbn; lia|].
  split; [by rewrite !gsub_dash_idempotent|].
  assert (Hkeep : forall s, occurs "." s = false -> occurs ":" s = false ->
                            Helpers.gsub_dash s = s).
  { induction s as [|c s IH]; [done|]. cbn [occurs Helpers.gsub_dash].
    intros H1 H2. apply orb_false_iff in H1 as [H1 H1'], H2 as [H2 H2'].
    rewrite H1, H2, IH by done. done. }
  intros. by rewrite !Hkeep.
Qed.
